(** * Letter-day rotation and next-class search of the homework reminder

    A shallow embedding of the schedule engine of [student_app.py] and
    [middle_school_app.py]: the letter-day rotation ([get_letter_day]),
    the period-order table ([PERIOD_ORDER]), the time-slot tables
    ([get_time_slots], [get_schedule_for_day]), the lunch-window lookup
    ([get_ms_lunch_window_for]) and the forward searches
    ([get_next_class], [get_next_class_ms]).

    Python integers are [Z]; dictionaries are [gmap]; lists are [list];
    [datetime.date] is a record of year, month and day with the ordinal
    arithmetic of the standard library; a [while] loop is a fixpoint on
    a fuel counter; a raised exception is a constructor of [outcome]. *)

From stdpp Require Import gmap strings list.
From Stdlib Require Import ZArith Lia.

Local Open Scope Z_scope.

(** ** Outcomes of a Python computation *)

Inductive exn : Type :=
| OverflowError
| IndexError
| KeyError
| ValueError.

Inductive outcome (A : Type) : Type :=
| Ret (a : A)
| Raise (e : exn)
| OutOfFuel.

Arguments Ret {A} a.
Arguments Raise {A} e.
Arguments OutOfFuel {A}.

Definition obind {A B : Type} (c : outcome A) (k : A -> outcome B) : outcome B :=
  match c with
  | Ret a => k a
  | Raise e => Raise e
  | OutOfFuel => OutOfFuel
  end.

Notation "'do' x <- c ; k" := (obind c (fun x => k))
  (at level 10, x name, c at level 100, k at level 200).

(** [l[i]] on a list: [IndexError] out of range (the indices used by the
    program are never negative). *)
Definition list_getitem {A : Type} (l : list A) (i : nat) : outcome A :=
  match l !! i with
  | Some a => Ret a
  | None => Raise IndexError
  end.

(** [l.index(x)]: position of the first element equal to [x],
    [ValueError] when there is none. *)
Fixpoint list_index (x : Z) (l : list Z) : outcome nat :=
  match l with
  | [] => Raise ValueError
  | y :: l' => if x =? y then Ret O else do i <- list_index x l'; Ret (S i)
  end.

(** [x in l] *)
Definition list_contains (x : Z) (l : list Z) : bool := existsb (Z.eqb x) l.

(** [d[k]] on a dictionary: [KeyError] when the key is absent. *)
Definition dict_getitem {V : Type} (d : gmap Z V) (k : Z) : outcome V :=
  match d !! k with
  | Some v => Ret v
  | None => Raise KeyError
  end.

(** ** [datetime.date] *)

Module Date.

Record date : Type := mkdate { year : Z; month : Z; day : Z }.

Definition MINYEAR : Z := 1.
Definition MAXYEAR : Z := 9999.

Definition is_leap (y : Z) : bool :=
  (y mod 4 =? 0) && (negb (y mod 100 =? 0) || (y mod 400 =? 0)).

Definition days_before_year (y : Z) : Z :=
  let y' := y - 1 in y' * 365 + y' / 4 - y' / 100 + y' / 400.

Definition days_in_month (y m : Z) : Z :=
  match m with
  | 1 => 31
  | 2 => if is_leap y then 29 else 28
  | 3 => 31
  | 4 => 30
  | 5 => 31
  | 6 => 30
  | 7 => 31
  | 8 => 31
  | 9 => 30
  | 10 => 31
  | 11 => 30
  | 12 => 31
  | _ => 0
  end.

Definition days_before_month (y m : Z) : Z :=
  let leap := if is_leap y then 1 else 0 in
  match m with
  | 1 => 0
  | 2 => 31
  | 3 => 59 + leap
  | 4 => 90 + leap
  | 5 => 120 + leap
  | 6 => 151 + leap
  | 7 => 181 + leap
  | 8 => 212 + leap
  | 9 => 243 + leap
  | 10 => 273 + leap
  | 11 => 304 + leap
  | 12 => 334 + leap
  | _ => 0
  end.

(** The dates the constructor [date(y, m, d)] accepts. *)
Definition valid (d : date) : Prop :=
  MINYEAR <= year d <= MAXYEAR /\ 1 <= month d <= 12 /\
  1 <= day d <= days_in_month (year d) (month d).

Definition validb (d : date) : bool :=
  (MINYEAR <=? year d) && (year d <=? MAXYEAR) &&
  (1 <=? month d) && (month d <=? 12) &&
  (1 <=? day d) && (day d <=? days_in_month (year d) (month d)).

(** [d.toordinal()]: 0001-01-01 is day 1. *)
Definition toordinal (d : date) : Z :=
  days_before_year (year d) + days_before_month (year d) (month d) + day d.

(** [date.max.toordinal()] *)
Definition MAXORDINAL : Z := 3652059.

(** [d.weekday()]: Monday is 0, Sunday is 6. *)
Definition weekday (d : date) : Z := (toordinal d + 6) mod 7.

(** Comparison of dates is the comparison of their (year, month, day)
    triples. *)
Definition cmp (a b : date) : comparison :=
  match year a ?= year b with
  | Eq => match month a ?= month b with
          | Eq => day a ?= day b
          | c => c
          end
  | c => c
  end.

Definition ltb (a b : date) : bool :=
  match cmp a b with Lt => true | _ => false end.

Definition leb (a b : date) : bool :=
  match cmp a b with Gt => false | _ => true end.

(** The calendar day that follows [d]. *)
Definition tomorrow (d : date) : date :=
  if day d <? days_in_month (year d) (month d)
  then mkdate (year d) (month d) (day d + 1)
  else if month d <? 12
       then mkdate (year d) (month d + 1) 1
       else mkdate (year d + 1) 1 1.

(** [d + timedelta(days=1)]: the date whose ordinal is one more, and
    [OverflowError] past [date.max]. *)
Definition add_one_day (d : date) : outcome date :=
  if toordinal d + 1 <=? MAXORDINAL then Ret (tomorrow d) else Raise OverflowError.

End Date.

Import Date.

(** ** Upper school: [student_app.py] *)

(** [datetime.time(h, m)]; seconds and microseconds are always zero in
    the program.  Times compare as their (hour, minute) pairs. *)
Record dttime : Type := mktime { hour : Z; minute : Z }.

Definition minutes_of (t : dttime) : Z := hour t * 60 + minute t.

Definition time_ltb (a b : dttime) : bool :=
  (hour a <? hour b) || ((hour a =? hour b) && (minute a <? minute b)).

Record ClassTime : Type := mkClassTime { start : dttime; end_ : dttime }.

(** The module-level variables that the program assigns to. *)
Record globals : Type := mkglobals { LUNCH_OPTION : string }.

(** The state of the module when it is loaded: [LUNCH_OPTION = "2"]. *)
Definition initial_globals : globals := {| LUNCH_OPTION := "2" |}.

Definition set_lunch_option (option : string) (g : globals) : globals :=
  if String.eqb option "1" || String.eqb option "2"
  then {| LUNCH_OPTION := option |}
  else g.

(** [a or b] on an optional string: [None] and the empty string are
    false. *)
Definition str_or (a : option string) (b : string) : string :=
  match a with
  | Some s => if String.eqb s "" then b else s
  | None => b
  end.

Definition get_time_slots (g : globals) (is_wednesday : bool)
    (lunch_option : option string) : list ClassTime :=
  let selected := str_or lunch_option (LUNCH_OPTION g) in
  let midday_start := if String.eqb selected "1" then mktime 12 5 else mktime 11 25 in
  let midday_end := if String.eqb selected "1" then mktime 13 5 else mktime 12 25 in
  if negb is_wednesday then
    [ mkClassTime (mktime 8 30) (mktime 9 30);
      mkClassTime (mktime 9 35) (mktime 10 35);
      mkClassTime midday_start midday_end;
      mkClassTime (mktime 13 10) (mktime 14 10);
      mkClassTime (mktime 14 15) (mktime 15 15) ]
  else
    [ mkClassTime (mktime 9 15) (mktime 10 15);
      mkClassTime (mktime 10 20) (mktime 11 20);
      mkClassTime midday_start midday_end;
      mkClassTime (mktime 13 10) (mktime 14 10);
      mkClassTime (mktime 14 15) (mktime 15 15) ].

Definition LETTERS : list string := ["A"; "B"; "C"; "D"; "E"; "F"; "G"]%string.

Definition PERIOD_ORDER : gmap string (list Z) :=
  list_to_map
    [ ("A"%string, [1; 2; 3; 4; 5]);
      ("B"%string, [6; 7; 1; 2; 3]);
      ("C"%string, [4; 5; 6; 7; 1]);
      ("D"%string, [2; 3; 4; 5; 6]);
      ("E"%string, [7; 1; 2; 3; 4]);
      ("F"%string, [5; 6; 7; 1; 2]);
      ("G"%string, [3; 4; 5; 6; 7]) ].

Definition FIRST_DAY : date := mkdate 2025 8 14.

(** The [while day < current_date] loop of [get_letter_day]. *)
Fixpoint count_weekdays (fuel : nat) (day current_date : date) (weekday_count : Z)
    : outcome Z :=
  match fuel with
  | O => OutOfFuel
  | S fuel' =>
      if ltb day current_date then
        do day' <- add_one_day day;
        count_weekdays fuel' day' current_date
          (if weekday day' <? 5 then weekday_count + 1 else weekday_count)
      else Ret weekday_count
  end.

Definition get_letter_day (fuel : nat) (current_date : date) : outcome string :=
  if leb current_date FIRST_DAY then list_getitem LETTERS 0
  else
    do weekday_count <- count_weekdays fuel FIRST_DAY current_date 0;
    let index := weekday_count mod Z.of_nat (length LETTERS) in
    list_getitem LETTERS (Z.to_nat index).

(** One pass over the body of the [while True] loop of [get_next_class]
    up to the final [next_date += timedelta(days=1)]: [Some] is the
    value returned from inside the loop, [None] falls through. *)
Definition next_class_body (g : globals) (fuel : nat) (period : Z)
    (lunch_option : option string) (next_date : date)
    : outcome (option (date * ClassTime)) :=
  do letter <- get_letter_day fuel next_date;
  let order := default [] (PERIOD_ORDER !! letter) in
  if list_contains period order then
    do idx <- list_index period order;
    let slots := get_time_slots g (weekday next_date =? 2) lunch_option in
    if (idx <? length slots)%nat then
      do slot <- list_getitem slots idx; Ret (Some (next_date, slot))
    else Ret None
  else Ret None.

Fixpoint next_class_loop (g : globals) (fuel : nat) (n : nat) (period : Z)
    (lunch_option : option string) (next_date : date) : outcome (date * ClassTime) :=
  match n with
  | O => OutOfFuel
  | S n' =>
      if 5 <=? weekday next_date then
        do next_date' <- add_one_day next_date;
        next_class_loop g fuel n' period lunch_option next_date'
      else
        do found <- next_class_body g fuel period lunch_option next_date;
        match found with
        | Some r => Ret r
        | None =>
            do next_date' <- add_one_day next_date;
            next_class_loop g fuel n' period lunch_option next_date'
        end
  end.

(** [fuel] bounds the iterations of the search loop and of every loop
    it starts. *)
Definition get_next_class (g : globals) (fuel : nat) (period : Z) (from_date : date)
    (lunch_option : option string) : outcome (date * ClassTime) :=
  do next_date <- add_one_day from_date;
  next_class_loop g fuel fuel period lunch_option next_date.

(** ** Middle school: [middle_school_app.py] *)

Module MS.

(** The middle-school module imports the rotation of the upper school. *)
Definition get_letter_day (fuel : nat) (current_date : date) : outcome string :=
  get_letter_day fuel current_date.

Record MSLunchWindow : Type := mkMSLunchWindow { start_min : Z; end_min : Z }.

Definition hm (h m : Z) : Z := h * 60 + m.

Definition MS_LUNCH_WINDOWS_REGULAR : gmap Z MSLunchWindow :=
  list_to_map
    [ (8, mkMSLunchWindow (hm 12 5) (hm 12 25));
      (6, mkMSLunchWindow (hm 12 25) (hm 12 40));
      (7, mkMSLunchWindow (hm 12 40) (hm 13 0)) ].

Definition MS_LUNCH_WINDOWS_ALT_OCT6 : gmap Z MSLunchWindow :=
  list_to_map
    [ (8, mkMSLunchWindow (hm 11 55) (hm 12 15));
      (6, mkMSLunchWindow (hm 12 15) (hm 12 30));
      (7, mkMSLunchWindow (hm 12 30) (hm 12 45)) ].

Definition MS_LUNCH_WINDOWS_ALT_NOV17 : gmap Z MSLunchWindow :=
  list_to_map
    [ (8, mkMSLunchWindow (hm 11 45) (hm 12 5));
      (6, mkMSLunchWindow (hm 12 5) (hm 12 20));
      (7, mkMSLunchWindow (hm 12 20) (hm 12 40)) ].

(** An override: (start_month, start_day), (end_month, end_day), table. *)
Definition override : Type := ((Z * Z) * (Z * Z) * gmap Z MSLunchWindow)%type.

Definition MS_LUNCH_OVERRIDES : list override :=
  [ ((10, 6), (10, 10), MS_LUNCH_WINDOWS_ALT_OCT6);
    ((11, 17), (11, 21), MS_LUNCH_WINDOWS_ALT_NOV17) ].

(** The [in_range] expression of [get_ms_lunch_window_for]. *)
Definition in_range (m d : Z) (start_md end_md : Z * Z) : bool :=
  let '(sm, sd) := start_md in
  let '(em, ed) := end_md in
  ((sm <? m) || ((m =? sm) && (sd <=? d))) &&
  ((m <? em) || ((m =? em) && (d <=? ed))).

(** The [for] loop over the overrides, followed by the final [return]
    of the regular entry, whose default [MS_LUNCH_WINDOWS_REGULAR[8]]
    is evaluated before the lookup. *)
Fixpoint lunch_window_scan (m d grade : Z) (overrides : list override)
    : outcome MSLunchWindow :=
  match overrides with
  | (start_md, end_md, table) :: rest =>
      if in_range m d start_md end_md && bool_decide (is_Some (table !! grade))
      then dict_getitem table grade
      else lunch_window_scan m d grade rest
  | [] =>
      do dflt <- dict_getitem MS_LUNCH_WINDOWS_REGULAR 8;
      Ret (default dflt (MS_LUNCH_WINDOWS_REGULAR !! grade))
  end.

Definition get_ms_lunch_window_for (date_obj : date) (grade : Z) : outcome MSLunchWindow :=
  lunch_window_scan (month date_obj) (day date_obj) grade MS_LUNCH_OVERRIDES.

Definition get_schedule_for_day (day_of_week : Z) : list ClassTime :=
  if day_of_week =? 2 then
    [ mkClassTime (mktime 8 55) (mktime 9 50);
      mkClassTime (mktime 9 55) (mktime 10 50);
      mkClassTime (mktime 11 10) (mktime 12 5);
      mkClassTime (mktime 13 5) (mktime 14 0);
      mkClassTime (mktime 14 5) (mktime 15 0) ]
  else if day_of_week =? 3 then
    [ mkClassTime (mktime 8 30) (mktime 9 25);
      mkClassTime (mktime 9 30) (mktime 10 25);
      mkClassTime (mktime 11 10) (mktime 12 5);
      mkClassTime (mktime 13 5) (mktime 14 0);
      mkClassTime (mktime 14 5) (mktime 15 0) ]
  else
    [ mkClassTime (mktime 8 45) (mktime 9 40);
      mkClassTime (mktime 9 45) (mktime 10 40);
      mkClassTime (mktime 11 10) (mktime 12 5);
      mkClassTime (mktime 13 5) (mktime 14 0);
      mkClassTime (mktime 14 5) (mktime 15 0) ].

(** The body of the loop of [get_next_class_ms], as [next_class_body]. *)
Definition next_class_ms_body (fuel : nat) (period : Z) (next_date : date)
    : outcome (option (date * ClassTime)) :=
  do letter <- get_letter_day fuel next_date;
  let order := default [] (PERIOD_ORDER !! letter) in
  if list_contains period order then
    do idx <- list_index period order;
    let slots := get_schedule_for_day (weekday next_date) in
    if (idx <? length slots)%nat then
      do slot <- list_getitem slots idx; Ret (Some (next_date, slot))
    else Ret None
  else Ret None.

Fixpoint next_class_ms_loop (fuel : nat) (n : nat) (period : Z) (next_date : date)
    : outcome (date * ClassTime) :=
  match n with
  | O => OutOfFuel
  | S n' =>
      if 5 <=? weekday next_date then
        do next_date' <- add_one_day next_date;
        next_class_ms_loop fuel n' period next_date'
      else
        do found <- next_class_ms_body fuel period next_date;
        match found with
        | Some r => Ret r
        | None =>
            do next_date' <- add_one_day next_date;
            next_class_ms_loop fuel n' period next_date'
        end
  end.

Definition get_next_class_ms (fuel : nat) (period : Z) (from_date : date)
    : outcome (date * ClassTime) :=
  do next_date <- add_one_day from_date;
  next_class_ms_loop fuel fuel period next_date.

(** What [run_student_app] reads from [middle_school_config.json]. *)
Record config : Type := mkconfig { cfg_period : Z; cfg_grade : Z; cfg_lunch_choice : string }.

(** The fields of [StudentReminderApp] that the schedule code reads. *)
Record StudentReminderApp : Type := mkapp { app_period : Z }.

(** [app = StudentReminderApp(period=int(period))] in [run_student_app]. *)
Definition run_student_app (c : config) : StudentReminderApp :=
  {| app_period := cfg_period c |}.

(** [next_info] in [StudentReminderApp.show_reminder]. *)
Definition show_reminder_next_info (fuel : nat) (app : StudentReminderApp)
    (class_date : date) : outcome (date * ClassTime) :=
  get_next_class_ms fuel (app_period app) class_date.

End MS.

(** ** Notions used to state the properties *)

(** The date [n] days after [d]. *)
Fixpoint nth_day (d : date) (n : nat) : date :=
  match n with
  | O => d
  | S n' => nth_day (tomorrow d) n'
  end.

(** The [n] dates that follow [d], in order. *)
Fixpoint days_after (d : date) (n : nat) : list date :=
  match n with
  | O => []
  | S n' => tomorrow d :: days_after (tomorrow d) n'
  end.

(** Monday to Friday. *)
Definition is_school_day (d : date) : bool := weekday d <? 5.

(** The number of school days strictly after [d0] and up to and
    including [d]. *)
Definition school_days_since (d0 d : date) : Z :=
  Z.of_nat (length (List.filter is_school_day
                      (days_after d0 (Z.to_nat (toordinal d - toordinal d0))))).

(** Position of the label of [d] in [LETTERS], as the specification
    words it. *)
Definition label_index (d : date) : Z :=
  if leb d FIRST_DAY then 0 else school_days_since FIRST_DAY d mod 7.

(** Fuel that lets [get_letter_day] finish on [d]. *)
Definition letter_fuel (d : date) : nat :=
  S (Z.to_nat (toordinal d - toordinal FIRST_DAY)).

(** [get_letter_day] as a function of the date alone. *)
Definition letterDay (d : date) : string :=
  match get_letter_day (letter_fuel d) d with
  | Ret l => l
  | _ => ""%string
  end.

(** [PERIOD_ORDER.get(letter, [])] *)
Definition periodsFor (letter : string) : list Z := default [] (PERIOD_ORDER !! letter).

(** [period] meets on [d]: a school day whose period order contains it. *)
Definition meets (period : Z) (d : date) : bool :=
  is_school_day d && list_contains period (periodsFor (letterDay d)).

(** [period] is in the period order of the label at position [i]. *)
Definition label_has (period i : Z) : bool :=
  match LETTERS !! Z.to_nat i with
  | Some l => list_contains period (periodsFor l)
  | None => false
  end.

(** The two search loops differ only in the slot table they consult;
    this is their common shape. *)
Definition search_body (slots_for : date -> list ClassTime) (fuel : nat) (period : Z)
    (next_date : date) : outcome (option (date * ClassTime)) :=
  do letter <- get_letter_day fuel next_date;
  let order := default [] (PERIOD_ORDER !! letter) in
  if list_contains period order then
    do idx <- list_index period order;
    let slots := slots_for next_date in
    if (idx <? length slots)%nat then
      do slot <- list_getitem slots idx; Ret (Some (next_date, slot))
    else Ret None
  else Ret None.

Fixpoint search_loop (slots_for : date -> list ClassTime) (fuel : nat) (n : nat)
    (period : Z) (next_date : date) : outcome (date * ClassTime) :=
  match n with
  | O => OutOfFuel
  | S n' =>
      if 5 <=? weekday next_date then
        do next_date' <- add_one_day next_date;
        search_loop slots_for fuel n' period next_date'
      else
        do found <- search_body slots_for fuel period next_date;
        match found with
        | Some r => Ret r
        | None =>
            do next_date' <- add_one_day next_date;
            search_loop slots_for fuel n' period next_date'
        end
  end.

(** The slot tables of the two variants, by date. *)
Definition upper_slots (g : globals) (lunch_option : option string) (d : date)
    : list ClassTime :=
  get_time_slots g (weekday d =? 2) lunch_option.

Definition ms_slots (d : date) : list ClassTime := MS.get_schedule_for_day (weekday d).

(** A slot list is well formed: every slot ends after it starts and
    starts after the previous one ends. *)
Definition slot_ok (s : ClassTime) : bool := time_ltb (start s) (end_ s).

Fixpoint slots_increasing (l : list ClassTime) : bool :=
  match l with
  | a :: ((b :: _) as rest) => time_ltb (end_ a) (start b) && slots_increasing rest
  | _ => true
  end.

Definition well_formed_slots (l : list ClassTime) : Prop :=
  length l = 5%nat /\ forallb slot_ok l = true /\ slots_increasing l = true.

(** (month, day) pairs in calendar order, whatever the year. *)
Definition md_leb (a b : Z * Z) : bool :=
  (fst a <? fst b) || ((fst a =? fst b) && (snd a <=? snd b)).

(** The month and day of [d] fall inside the range of the override,
    both ends included. *)
Definition within_override (d : date) (o : MS.override) : bool :=
  md_leb (fst (fst o)) (month d, day d) && md_leb (month d, day d) (snd (fst o)).

(** The first declared override whose range holds the date. *)
Definition override_for (d : date) : option MS.override :=
  List.find (within_override d) MS.MS_LUNCH_OVERRIDES.

(** A computation that did not stop for lack of fuel. *)
Definition finished {A : Type} (o : outcome A) : Prop := o <> OutOfFuel.

(** The midday slots of the upper school. *)
Definition first_lunch_slot : ClassTime := mkClassTime (mktime 12 5) (mktime 13 5).
Definition second_lunch_slot : ClassTime := mkClassTime (mktime 11 25) (mktime 12 25).

(** ** Reminders: [ClassTime.reminder_time] and the monitoring loops *)

#[global] Instance date_eq_dec : EqDecision date.
Proof. solve_decision. Defined.

#[global] Instance date_countable : Countable date.
Proof.
  refine (inj_countable' (fun d => (year d, month d, day d))
            (fun t => mkdate (fst (fst t)) (snd (fst t)) (snd t)) _).
  intros []; reflexivity.
Defined.

#[global] Instance dttime_eq_dec : EqDecision dttime.
Proof. solve_decision. Defined.

#[global] Instance ClassTime_eq_dec : EqDecision ClassTime.
Proof. solve_decision. Defined.

(** The times the constructor [time(h, m)] accepts. *)
Definition valid_time (t : dttime) : Prop := 0 <= hour t < 24 /\ 0 <= minute t < 60.

(** [self.reminder_time(minutes_before)]: the end of the class is put on
    the date [today] (the value of [date.today()]), the minutes are
    subtracted, and the time of day of the result is returned.  The
    subtraction raises [OverflowError] when the resulting day is not a
    day of the calendar. *)
Definition reminder_time (today : date) (self : ClassTime) (minutes_before : Z)
    : outcome dttime :=
  let t := minutes_of (end_ self) - minutes_before in
  let o := toordinal today + t / 1440 in
  if (1 <=? o) && (o <=? MAXORDINAL)
  then Ret (mktime (t mod 1440 / 60) (t mod 1440 mod 60))
  else Raise OverflowError.

(** [l.index(x)] on a list of class times. *)
Fixpoint slot_index_of (x : ClassTime) (l : list ClassTime) : outcome nat :=
  match l with
  | [] => Raise ValueError
  | y :: l' => if bool_decide (x = y) then Ret O
               else do i <- slot_index_of x l'; Ret (S i)
  end.

(** One reading of the clock by a monitoring loop: [datetime.now()] as
    its date and its time of day, and the [date.today()] that
    [reminder_time] reads. *)
Record clock : Type := mkclock { now_date : date; now_time : dttime; today : date }.

(** The fields of [ReminderApp] that the schedule code reads. *)
Record ReminderApp : Type := mkReminderApp { ra_period : Z; ra_lunch_option : string }.

(** [ReminderApp.__init__] *)
Definition ReminderApp_init (g : globals) (period : Z) (lunch_option : option string)
    : ReminderApp :=
  {| ra_period := period; ra_lunch_option := str_or lunch_option (LUNCH_OPTION g) |}.

(** One pass of the body of [ReminderApp._run_loop]: the arguments of
    the call of [show_reminder], if it is called. *)
Definition ReminderApp_pass (g : globals) (fuel : nat) (self : ReminderApp) (now : clock)
    : outcome (option (date * ClassTime)) :=
  if weekday (now_date now) <? 5 then
    do letter <- get_letter_day fuel (now_date now);
    let order := default [] (PERIOD_ORDER !! letter) in
    if list_contains (ra_period self) order then
      do slot_index <- list_index (ra_period self) order;
      let time_slots :=
        get_time_slots g (weekday (now_date now) =? 2) (Some (ra_lunch_option self)) in
      if (slot_index <? length time_slots)%nat then
        do class_time <- list_getitem time_slots slot_index;
        do reminder <- reminder_time (today now) class_time 5;
        if (hour (now_time now) =? hour reminder) &&
           (minute (now_time now) =? minute reminder)
        then Ret (Some (now_date now, class_time))
        else Ret None
      else Ret None
    else Ret None
  else Ret None.

(** [next_info] in [ReminderApp.show_reminder] when the user answers
    yes. *)
Definition ReminderApp_next_info (g : globals) (fuel : nat) (self : ReminderApp)
    (class_date : date) : outcome (date * ClassTime) :=
  get_next_class g fuel (ra_period self) class_date (Some (ra_lunch_option self)).

(** A reminder shown by an all-classes loop: the arguments of
    [show_reminder]. *)
Definition shown : Type := (date * Z * ClassTime)%type.

(** The [for idx, class_time in enumerate(...)] loop shared by the two
    all-classes applications: it stops at the first block whose reminder
    minute is the current one and whose key is not yet triggered, marks
    the key and shows the reminder. *)
Fixpoint scan_blocks (now : clock) (order : list Z) (triggered : gmap (date * Z) bool)
    (idx : nat) (slots : list ClassTime) : outcome (gmap (date * Z) bool * option shown) :=
  match slots with
  | [] => Ret (triggered, None)
  | class_time :: rest =>
      if (length order <=? idx)%nat then Ret (triggered, None)
      else
        do period_number <- list_getitem order idx;
        do reminder <- reminder_time (today now) class_time 5;
        let key := (now_date now, period_number) in
        if (hour (now_time now) =? hour reminder) &&
           (minute (now_time now) =? minute reminder) &&
           negb (default false (triggered !! key))
        then Ret (<[key := true]> triggered, Some (now_date now, period_number, class_time))
        else scan_blocks now order triggered (S idx) rest
  end.

(** The fields of [AllClassesApp] that the schedule code reads and
    writes. *)
Record AllClassesApp : Type :=
  mkAllClassesApp { aca_lunch_option : string; aca_triggered : gmap (date * Z) bool }.

(** [AllClassesApp.__init__] *)
Definition AllClassesApp_init (g : globals) (lunch_option : option string) : AllClassesApp :=
  {| aca_lunch_option := str_or lunch_option (LUNCH_OPTION g); aca_triggered := ∅ |}.

(** The dictionary comprehension that keeps the keys of the current
    date. *)
Definition keep_today (d : date) (triggered : gmap (date * Z) bool) : gmap (date * Z) bool :=
  filter (fun kv => fst (fst kv) = d) triggered.

(** One pass of the body of [AllClassesApp._run_loop]. *)
Definition AllClassesApp_pass (g : globals) (fuel : nat) (self : AllClassesApp) (now : clock)
    : outcome (AllClassesApp * option shown) :=
  let triggered := keep_today (now_date now) (aca_triggered self) in
  if weekday (now_date now) <? 5 then
    do letter <- get_letter_day fuel (now_date now);
    let order := default [] (PERIOD_ORDER !! letter) in
    let time_slots :=
      get_time_slots g (weekday (now_date now) =? 2) (Some (aca_lunch_option self)) in
    do r <- scan_blocks now order triggered 0 time_slots;
    Ret ({| aca_lunch_option := aca_lunch_option self; aca_triggered := fst r |}, snd r)
  else
    Ret ({| aca_lunch_option := aca_lunch_option self; aca_triggered := triggered |}, None).

(** The loop of [AllClassesApp._run_loop] over successive readings of
    the clock: the final state and the reminders shown, in order. *)
Fixpoint AllClassesApp_run (g : globals) (fuel : nat) (self : AllClassesApp)
    (readings : list clock) : outcome (AllClassesApp * list shown) :=
  match readings with
  | [] => Ret (self, [])
  | now :: rest =>
      do r <- AllClassesApp_pass g fuel self now;
      do r' <- AllClassesApp_run g fuel (fst r) rest;
      Ret (fst r', match snd r with Some e => e :: snd r' | None => snd r' end)
  end.

(** The block number that [show_reminder] of the middle school passes
    to [int_to_ordinal]: [schedule.index(class_time) + 1]. *)
Definition ms_block_number (class_date : date) (class_time : ClassTime) : outcome Z :=
  do i <- slot_index_of class_time (MS.get_schedule_for_day (weekday class_date));
  Ret (Z.of_nat i + 1).

(** One pass of the body of [StudentReminderApp._run_loop] of the
    middle school. *)
Definition ms_StudentReminderApp_pass (fuel : nat) (self : MS.StudentReminderApp)
    (now : clock) : outcome (option (date * ClassTime)) :=
  if weekday (now_date now) <? 5 then
    do letter <- MS.get_letter_day fuel (now_date now);
    let order := default [] (PERIOD_ORDER !! letter) in
    if list_contains (MS.app_period self) order then
      do idx <- list_index (MS.app_period self) order;
      let schedule := MS.get_schedule_for_day (weekday (now_date now)) in
      if (idx <? length schedule)%nat then
        do class_time <- list_getitem schedule idx;
        do reminder <- reminder_time (today now) class_time 5;
        if (hour (now_time now) =? hour reminder) &&
           (minute (now_time now) =? minute reminder)
        then Ret (Some (now_date now, class_time))
        else Ret None
      else Ret None
    else Ret None
  else Ret None.

(** One pass of the body of [AllClassesReminderApp._run_loop] of the
    middle school, on its [triggered] dictionary. *)
Definition ms_AllClasses_pass (fuel : nat) (triggered0 : gmap (date * Z) bool) (now : clock)
    : outcome (gmap (date * Z) bool * option shown) :=
  let triggered := keep_today (now_date now) triggered0 in
  if weekday (now_date now) <? 5 then
    do letter <- MS.get_letter_day fuel (now_date now);
    let order := default [] (PERIOD_ORDER !! letter) in
    let schedule := MS.get_schedule_for_day (weekday (now_date now)) in
    scan_blocks now order triggered 0 schedule
  else Ret (triggered, None).

(** The time of day, in minutes, at which the reminder of a class is
    due: five minutes before its end. *)
Definition due_minute (s : ClassTime) : Z := minutes_of (end_ s) - 5.

(** The slot lists of the program. *)
Definition is_slot_table (l : list ClassTime) : Prop :=
  (exists g is_wednesday lunch_option, l = get_time_slots g is_wednesday lunch_option) \/
  (exists day_of_week, l = MS.get_schedule_for_day day_of_week).

(** Inside its class, five minutes before the end, with every field a
    field of a time of day. *)
Definition slot_checks (s : ClassTime) : bool :=
  (0 <=? hour (start s)) && (hour (start s) <? 24) &&
  (0 <=? minute (start s)) && (minute (start s) <? 60) &&
  (0 <=? hour (end_ s)) && (hour (end_ s) <? 24) &&
  (0 <=? minute (end_ s)) && (minute (end_ s) <? 60) &&
  (minutes_of (start s) <? due_minute s) && (0 <=? due_minute s).

Fixpoint due_increasing (l : list ClassTime) : bool :=
  match l with
  | a :: ((b :: _) as rest) => (due_minute a <? due_minute b) && due_increasing rest
  | _ => true
  end.

(** The number of school days among the [n] days that follow a day of
    weekday [w]. *)
Fixpoint school_steps (w : Z) (n : nat) : Z :=
  match n with
  | O => 0
  | S n' => (if (w + 1) mod 7 <? 5 then 1 else 0) + school_steps ((w + 1) mod 7) n'
  end.

(** Fuel that lets a search started on [from_date] finish, for a period
    of the rotation: enough for the rotation count on the day found and
    for the days walked to reach it. *)
Definition search_fuel (from_date : date) : nat :=
  Nat.max (letter_fuel from_date + 4)
          (Z.to_nat (toordinal FIRST_DAY + 1 - toordinal from_date)).

(** * Facts about [datetime.date] *)

Module DateFacts.

Lemma validb_spec d : validb d = true <-> valid d.
Proof.
  unfold validb, valid. rewrite !andb_true_iff, !Z.leb_le. tauto.
Qed.

Lemma is_leap_cases y :
  (is_leap y = true /\ days_before_year (y + 1) = days_before_year y + 366) \/
  (is_leap y = false /\ days_before_year (y + 1) = days_before_year y + 365).
Proof.
  unfold is_leap, days_before_year.
  destruct (y mod 4 =? 0) eqn:H4; destruct (y mod 100 =? 0) eqn:H100;
    destruct (y mod 400 =? 0) eqn:H400; simpl;
    rewrite ?Z.eqb_eq, ?Z.eqb_neq in *; [left|right|left|left|right|right|right|right];
    (split; [reflexivity|]); Z.to_euclidean_division_equations; lia.
Qed.

Lemma days_before_year_step y :
  days_before_year (y + 1) = days_before_year y + (if is_leap y then 366 else 365).
Proof. destruct (is_leap_cases y) as [[-> ->]|[-> ->]]; reflexivity. Qed.

Lemma days_before_year_mono y1 y2 : y1 <= y2 -> days_before_year y1 <= days_before_year y2.
Proof.
  intros H. replace y2 with (y1 + Z.of_nat (Z.to_nat (y2 - y1))) by lia.
  induction (Z.to_nat (y2 - y1)) as [|n IH].
  - replace (y1 + Z.of_nat 0) with y1 by lia. lia.
  - replace (y1 + Z.of_nat (S n)) with (y1 + Z.of_nat n + 1) by lia.
    rewrite days_before_year_step. destruct (is_leap _); lia.
Qed.

Lemma month_cases m : 1 <= m <= 12 ->
  m = 1 \/ m = 2 \/ m = 3 \/ m = 4 \/ m = 5 \/ m = 6 \/
  m = 7 \/ m = 8 \/ m = 9 \/ m = 10 \/ m = 11 \/ m = 12.
Proof. lia. Qed.

Ltac each_month m H :=
  destruct (month_cases m H) as [?|[?|[?|[?|[?|[?|[?|[?|[?|[?|[?|?]]]]]]]]]]]; subst m.

Lemma days_before_month_step y m : 1 <= m <= 11 ->
  days_before_month y (m + 1) = days_before_month y m + days_in_month y m.
Proof.
  intros H. assert (H' : 1 <= m <= 12) by lia.
  each_month m H'; try lia; unfold days_before_month, days_in_month; simpl;
    destruct (is_leap y); lia.
Qed.

Lemma days_before_month_end y : 
  days_before_month y 12 + days_in_month y 12 = if is_leap y then 366 else 365.
Proof. unfold days_before_month, days_in_month; simpl. destruct (is_leap y); lia. Qed.

Lemma days_in_month_pos y m : 1 <= m <= 12 -> 28 <= days_in_month y m <= 31.
Proof.
  intros H. each_month m H; unfold days_in_month; simpl; try destruct (is_leap y); lia.
Qed.

Lemma days_before_month_mono y m1 m2 : 1 <= m1 -> m1 < m2 -> m2 <= 12 ->
  days_before_month y m1 + days_in_month y m1 <= days_before_month y m2.
Proof.
  intros H1 H2 H3.
  assert (Ha : 1 <= m1 <= 12) by lia. assert (Hb : 1 <= m2 <= 12) by lia.
  each_month m1 Ha; each_month m2 Hb; try lia;
    unfold days_before_month, days_in_month; simpl; destruct (is_leap y); lia.
Qed.

Lemma days_before_month_bounds y m : 1 <= m <= 12 ->
  0 <= days_before_month y m /\
  days_before_month y m + days_in_month y m <= if is_leap y then 366 else 365.
Proof.
  intros H. each_month m H; unfold days_before_month, days_in_month; simpl;
    destruct (is_leap y); lia.
Qed.

(** The ordinal grows by one from a day to the next. *)
Lemma toordinal_tomorrow d : valid d -> toordinal (tomorrow d) = toordinal d + 1.
Proof.
  intros (Hy & Hm & Hd). unfold tomorrow, toordinal.
  destruct (day d <? days_in_month (year d) (month d)) eqn:E1; cbn [year month day].
  - lia.
  - apply Z.ltb_ge in E1.
    destruct (month d <? 12) eqn:E2; cbn [year month day].
    + apply Z.ltb_lt in E2. rewrite days_before_month_step by lia. lia.
    + apply Z.ltb_ge in E2. assert (Hm12 : month d = 12) by lia.
      rewrite days_before_year_step.
      pose proof (days_before_month_end (year d)) as He. rewrite Hm12 in *.
      change (days_before_month (year d + 1) 1) with 0.
      destruct (is_leap (year d)); lia.
Qed.

Lemma toordinal_lower d : valid d -> days_before_year (year d) < toordinal d.
Proof.
  intros (Hy & Hm & Hd). unfold toordinal.
  pose proof (days_before_month_bounds (year d) (month d) Hm). lia.
Qed.

Lemma toordinal_upper d : valid d -> toordinal d <= days_before_year (year d + 1).
Proof.
  intros (Hy & Hm & Hd). unfold toordinal. rewrite days_before_year_step.
  pose proof (days_before_month_bounds (year d) (month d) Hm).
  destruct (is_leap (year d)); lia.
Qed.

Lemma toordinal_range d : valid d -> 1 <= toordinal d <= MAXORDINAL.
Proof.
  intros H. pose proof (toordinal_lower d H). pose proof (toordinal_upper d H).
  destruct H as ([Hy1 Hy2] & _). unfold MINYEAR, MAXYEAR in *.
  pose proof (days_before_year_mono 1 (year d) Hy1) as Ha.
  pose proof (days_before_year_mono (year d + 1) 10000 ltac:(lia)) as Hb.
  change (days_before_year 1) with 0 in Ha.
  change (days_before_year 10000) with MAXORDINAL in Hb. lia.
Qed.

(** Dates compare as their ordinals. *)
Lemma cmp_Lt_toordinal a b : valid a -> valid b -> cmp a b = Lt -> toordinal a < toordinal b.
Proof.
  intros Ha Hb. unfold cmp.
  destruct (Z.compare_spec (year a) (year b)) as [Ey|Ey|Ey]; try discriminate.
  - destruct (Z.compare_spec (month a) (month b)) as [Em|Em|Em]; try discriminate.
    + intros Hd. change (day a < day b) in Hd. unfold toordinal. rewrite Ey, Em. lia.
    + intros _. destruct Ha as (_ & Hma & Hda), Hb as (_ & Hmb & Hdb).
      unfold toordinal. rewrite Ey in *.
      pose proof (days_before_month_mono (year b) (month a) (month b)). lia.
  - intros _. pose proof (toordinal_upper a Ha). pose proof (toordinal_lower b Hb).
    pose proof (days_before_year_mono (year a + 1) (year b)). lia.
Qed.

Lemma cmp_antisym a b : cmp b a = CompOpp (cmp a b).
Proof.
  unfold cmp. rewrite (Z.compare_antisym (year a)), (Z.compare_antisym (month a)),
    (Z.compare_antisym (day a)).
  destruct (year a ?= year b); simpl; try reflexivity.
  destruct (month a ?= month b); reflexivity.
Qed.

Lemma cmp_Eq a b : cmp a b = Eq -> a = b.
Proof.
  unfold cmp. destruct a as [y1 m1 d1], b as [y2 m2 d2]; cbn [year month day].
  destruct (Z.compare_spec y1 y2); try discriminate.
  destruct (Z.compare_spec m1 m2); try discriminate.
  intros Hd. apply Z.compare_eq in Hd. congruence.
Qed.

Lemma cmp_toordinal a b : valid a -> valid b -> cmp a b = (toordinal a ?= toordinal b).
Proof.
  intros Ha Hb. destruct (cmp a b) eqn:E.
  - apply cmp_Eq in E. subst. symmetry. apply Z.compare_refl.
  - symmetry. apply Z.compare_lt_iff. now apply cmp_Lt_toordinal.
  - symmetry. apply Z.compare_gt_iff. apply cmp_Lt_toordinal; trivial.
    rewrite cmp_antisym, E. reflexivity.
Qed.

Lemma ltb_toordinal a b : valid a -> valid b -> ltb a b = (toordinal a <? toordinal b).
Proof. intros Ha Hb. unfold ltb, Z.ltb. now rewrite cmp_toordinal. Qed.

Lemma leb_toordinal a b : valid a -> valid b -> leb a b = (toordinal a <=? toordinal b).
Proof. intros Ha Hb. unfold leb, Z.leb. now rewrite cmp_toordinal. Qed.

Lemma toordinal_inj a b : valid a -> valid b -> toordinal a = toordinal b -> a = b.
Proof.
  intros Ha Hb H. apply cmp_Eq. rewrite cmp_toordinal by trivial. now apply Z.compare_eq_iff.
Qed.

Lemma valid_tomorrow d : valid d -> toordinal d < MAXORDINAL -> valid (tomorrow d).
Proof.
  intros Hv Hlt. pose proof Hv as (Hy & Hm & Hd). unfold tomorrow, valid.
  destruct (day d <? days_in_month (year d) (month d)) eqn:E1; cbn [year month day].
  - apply Z.ltb_lt in E1. lia.
  - destruct (month d <? 12) eqn:E2; cbn [year month day].
    + apply Z.ltb_lt in E2.
      pose proof (days_in_month_pos (year d) (month d + 1)). lia.
    + apply Z.ltb_ge in E1, E2. change (days_in_month (year d + 1) 1) with 31.
      unfold MINYEAR, MAXYEAR in *.
      destruct (Z.eq_dec (year d) 9999) as [E|E]; [|lia].
      exfalso. assert (Hm12 : month d = 12) by lia.
      assert (Hd31 : day d = 31) by (rewrite Hm12 in *; change (days_in_month (year d) 12) with 31 in *; lia).
      unfold toordinal in Hlt. rewrite E, Hm12, Hd31 in Hlt. vm_compute in Hlt. discriminate.
Qed.

(** [tomorrow d] is the date [date.fromordinal(d.toordinal() + 1)]:
    the only date with that ordinal. *)
Lemma tomorrow_unique d x : valid d -> valid x -> toordinal d < MAXORDINAL ->
  toordinal x = toordinal d + 1 -> x = tomorrow d.
Proof.
  intros Hd Hx Hlt Ho. apply toordinal_inj; trivial.
  - now apply valid_tomorrow.
  - rewrite toordinal_tomorrow by trivial. exact Ho.
Qed.

Lemma add_one_day_ok d : valid d -> toordinal d < MAXORDINAL ->
  add_one_day d = Ret (tomorrow d).
Proof.
  intros _ H. unfold add_one_day. destruct (Z.leb_spec (toordinal d + 1) MAXORDINAL); [reflexivity|lia].
Qed.

Lemma add_one_day_overflow d : valid d -> toordinal d = MAXORDINAL ->
  add_one_day d = Raise OverflowError.
Proof.
  intros _ H. unfold add_one_day. destruct (Z.leb_spec (toordinal d + 1) MAXORDINAL); [lia|reflexivity].
Qed.

Lemma weekday_range d : 0 <= weekday d < 7.
Proof. unfold weekday. apply Z.mod_pos_bound. lia. Qed.

Lemma weekday_tomorrow d : valid d -> weekday (tomorrow d) = (weekday d + 1) mod 7.
Proof.
  intros H. unfold weekday. rewrite toordinal_tomorrow by trivial.
  Z.to_euclidean_division_equations. lia.
Qed.

End DateFacts.

Import DateFacts.

(** * The rotation *)

Section Rotation.

Lemma nth_day_spec n : forall d, valid d -> toordinal d + Z.of_nat n <= MAXORDINAL ->
  valid (nth_day d n) /\ toordinal (nth_day d n) = toordinal d + Z.of_nat n.
Proof.
  induction n as [|n IH]; intros d Hv Hle; cbn [nth_day].
  - split; [trivial | lia].
  - destruct (IH (tomorrow d)) as [Hv' Ho].
    + apply valid_tomorrow; [trivial | lia].
    + rewrite toordinal_tomorrow by trivial. lia.
    + split; [trivial|]. rewrite Ho, toordinal_tomorrow by trivial. lia.
Qed.

Lemma nth_day_unique d x n : valid d -> valid x ->
  toordinal x = toordinal d + Z.of_nat n -> x = nth_day d n.
Proof.
  intros Hd Hx Ho. pose proof (toordinal_range x Hx).
  destruct (nth_day_spec n d Hd ltac:(lia)) as [Hv Ho'].
  apply toordinal_inj; trivial. lia.
Qed.

Lemma nth_day_S d n : valid d -> toordinal d + Z.of_nat (S n) <= MAXORDINAL ->
  nth_day d (S n) = tomorrow (nth_day d n).
Proof.
  intros Hd Hle.
  destruct (nth_day_spec n d Hd ltac:(lia)) as [Hv Ho].
  symmetry. apply nth_day_unique; trivial.
  - apply valid_tomorrow; [trivial | lia].
  - rewrite toordinal_tomorrow by trivial. lia.
Qed.

Lemma days_after_snoc n : forall d,
  days_after d (S n) = days_after d n ++ [nth_day d (S n)].
Proof.
  induction n as [|n IH]; intros d.
  - reflexivity.
  - change (days_after d (S (S n))) with (tomorrow d :: days_after (tomorrow d) (S n)).
    rewrite IH. reflexivity.
Qed.

Lemma elem_of_days_after n : forall d x, valid d -> toordinal d + Z.of_nat n <= MAXORDINAL ->
  x ∈ days_after d n <-> valid x /\ toordinal d < toordinal x <= toordinal d + Z.of_nat n.
Proof.
  induction n as [|n IH]; intros d x Hd Hle; cbn [days_after].
  - rewrite elem_of_nil. lia.
  - assert (Hv : valid (tomorrow d)) by (apply valid_tomorrow; [trivial | lia]).
    pose proof (toordinal_tomorrow d Hd) as Ho.
    rewrite elem_of_cons, IH by (trivial; lia). split.
    + intros [-> | [Hx Hr]]; [split; [trivial | lia] | split; [trivial | lia]].
    + intros [Hx Hr]. destruct (Z.eq_dec (toordinal x) (toordinal d + 1)) as [E|E].
      * left. apply toordinal_inj; trivial. lia.
      * right. split; [trivial | lia].
Qed.

Lemma NoDup_days_after n : forall d, valid d -> toordinal d + Z.of_nat n <= MAXORDINAL ->
  NoDup (days_after d n).
Proof.
  induction n as [|n IH]; intros d Hd Hle; cbn [days_after].
  - constructor.
  - assert (Hv : valid (tomorrow d)) by (apply valid_tomorrow; [trivial | lia]).
    pose proof (toordinal_tomorrow d Hd) as Ho.
    constructor; [| apply IH; [trivial | lia]].
    rewrite elem_of_days_after by (trivial; lia). lia.
Qed.

(** The loop of [get_letter_day] counts the school days it walks over. *)
Lemma count_weekdays_spec n : forall fuel day current_date acc,
  valid day -> valid current_date ->
  toordinal current_date = toordinal day + Z.of_nat n -> (n < fuel)%nat ->
  count_weekdays fuel day current_date acc =
    Ret (acc + Z.of_nat (length (List.filter is_school_day (days_after day n)))).
Proof.
  induction n as [|n IH]; intros fuel day cur acc Hd Hc Ho Hf;
    (destruct fuel as [|fuel]; [lia|]); cbn [count_weekdays].
  - rewrite ltb_toordinal by trivial.
    destruct (Z.ltb_spec (toordinal day) (toordinal cur)); [lia|].
    cbn. f_equal. lia.
  - rewrite ltb_toordinal by trivial.
    destruct (Z.ltb_spec (toordinal day) (toordinal cur)); [|lia].
    pose proof (toordinal_range cur Hc).
    rewrite add_one_day_ok by (trivial; lia). cbn [obind].
    rewrite (IH fuel (tomorrow day) cur) ; trivial.
    + cbn [days_after List.filter]. unfold is_school_day at 2.
      destruct (weekday (tomorrow day) <? 5); cbn [length]; f_equal; lia.
    + apply valid_tomorrow; [trivial | lia].
    + rewrite toordinal_tomorrow by trivial. lia.
    + lia.
Qed.

Lemma FIRST_DAY_valid : valid FIRST_DAY.
Proof. apply validb_spec. reflexivity. Qed.

Lemma FIRST_DAY_ordinal : toordinal FIRST_DAY = 739477.
Proof. reflexivity. Qed.

Lemma list_getitem_lt {A} (l : list A) (i : nat) : (i < length l)%nat ->
  exists a, l !! i = Some a /\ list_getitem l i = Ret a.
Proof.
  intros H. destruct (lookup_lt_is_Some_2 l i H) as [a Ha].
  exists a. split; [trivial|]. unfold list_getitem. now rewrite Ha.
Qed.

Lemma label_index_range d : 0 <= label_index d < 7.
Proof.
  unfold label_index. destruct (leb d FIRST_DAY); [lia|]. apply Z.mod_pos_bound. lia.
Qed.

(** [get_letter_day] returns on every date, with the label at
    [label_index]. *)
Lemma get_letter_day_spec fuel d : valid d -> (letter_fuel d <= fuel)%nat ->
  exists l, LETTERS !! Z.to_nat (label_index d) = Some l /\ get_letter_day fuel d = Ret l.
Proof.
  intros Hd Hf. unfold get_letter_day, label_index.
  pose proof FIRST_DAY_valid as HE.
  rewrite leb_toordinal by trivial.
  destruct (Z.leb_spec (toordinal d) (toordinal FIRST_DAY)) as [Hle|Hlt].
  - exists "A"%string. split; reflexivity.
  - unfold letter_fuel in Hf.
    rewrite (count_weekdays_spec (Z.to_nat (toordinal d - toordinal FIRST_DAY)))
      by (trivial; lia).
    cbn [obind]. unfold school_days_since. rewrite Z.add_0_l.
    change (Z.of_nat (length LETTERS)) with 7.
    apply list_getitem_lt. change (length LETTERS) with 7%nat.
    match goal with |- (Z.to_nat (?x mod 7) < 7)%nat =>
      pose proof (Z.mod_pos_bound x 7 ltac:(lia)) end. lia.
Qed.

Lemma letterDay_lookup d : valid d -> LETTERS !! Z.to_nat (label_index d) = Some (letterDay d).
Proof.
  intros Hd. destruct (get_letter_day_spec (letter_fuel d) d Hd (le_n _)) as (l & Hl & Hr).
  unfold letterDay. now rewrite Hr.
Qed.

Lemma get_letter_day_letterDay fuel d : valid d -> (letter_fuel d <= fuel)%nat ->
  get_letter_day fuel d = Ret (letterDay d).
Proof.
  intros Hd Hf. destruct (get_letter_day_spec fuel d Hd Hf) as (l & Hl & Hr).
  rewrite letterDay_lookup in Hl by trivial. congruence.
Qed.

End Rotation.

Section Progress.

(** From the first day on, one more school day moves the label one
    position on, and a weekend day leaves it where it is. *)
Lemma school_days_since_tomorrow d : valid d ->
  toordinal FIRST_DAY <= toordinal d -> toordinal d < MAXORDINAL ->
  school_days_since FIRST_DAY (tomorrow d) =
  school_days_since FIRST_DAY d + (if is_school_day (tomorrow d) then 1 else 0).
Proof.
  intros Hd Hge Hlt. unfold school_days_since.
  rewrite toordinal_tomorrow by trivial.
  set (n := Z.to_nat (toordinal d - toordinal FIRST_DAY)).
  replace (Z.to_nat (toordinal d + 1 - toordinal FIRST_DAY)) with (S n) by lia.
  rewrite days_after_snoc, List.filter_app, length_app.
  assert (Hn : nth_day FIRST_DAY (S n) = tomorrow d).
  { symmetry. apply nth_day_unique.
    - apply FIRST_DAY_valid.
    - apply valid_tomorrow; trivial.
    - rewrite toordinal_tomorrow by trivial. lia. }
  rewrite Hn. cbn [List.filter]. destruct (is_school_day (tomorrow d)); cbn [length]; lia.
Qed.

Lemma label_index_from_first d : valid d -> toordinal FIRST_DAY <= toordinal d ->
  label_index d = school_days_since FIRST_DAY d mod 7.
Proof.
  intros Hd Hge. unfold label_index. rewrite leb_toordinal by (trivial; apply FIRST_DAY_valid).
  destruct (Z.leb_spec (toordinal d) (toordinal FIRST_DAY)) as [Hle|Hgt]; [|reflexivity].
  unfold school_days_since. replace (toordinal d - toordinal FIRST_DAY) with 0 by lia.
  reflexivity.
Qed.

Lemma label_index_tomorrow d : valid d ->
  toordinal FIRST_DAY <= toordinal d -> toordinal d < MAXORDINAL ->
  label_index (tomorrow d) =
  (label_index d + (if is_school_day (tomorrow d) then 1 else 0)) mod 7.
Proof.
  intros Hd Hge Hlt.
  rewrite !label_index_from_first; trivial.
  - rewrite school_days_since_tomorrow by trivial.
    destruct (is_school_day (tomorrow d)); Z.to_euclidean_division_equations; lia.
  - apply valid_tomorrow; trivial.
  - rewrite toordinal_tomorrow by trivial. lia.
Qed.

Lemma weekday_next d : valid d ->
  weekday (tomorrow d) = if weekday d =? 6 then 0 else weekday d + 1.
Proof.
  intros Hd. rewrite weekday_tomorrow by trivial. pose proof (weekday_range d).
  destruct (Z.eqb_spec (weekday d) 6) as [->|]; [reflexivity|].
  apply Z.mod_small. lia.
Qed.

Lemma label_index_before d : valid d -> toordinal d <= toordinal FIRST_DAY -> label_index d = 0.
Proof.
  intros Hd Hle. unfold label_index. rewrite leb_toordinal by (trivial; apply FIRST_DAY_valid).
  destruct (Z.leb_spec (toordinal d) (toordinal FIRST_DAY)); [reflexivity | lia].
Qed.

Lemma meets_label period d : valid d ->
  meets period d = is_school_day d && label_has period (label_index d).
Proof.
  intros Hd. unfold meets, label_has. now rewrite letterDay_lookup.
Qed.

Lemma small_cases (x : Z) : 0 <= x < 7 ->
  x = 0 \/ x = 1 \/ x = 2 \/ x = 3 \/ x = 4 \/ x = 5 \/ x = 6.
Proof. lia. Qed.

Lemma period_cases (p : Z) : 1 <= p <= 7 ->
  p = 1 \/ p = 2 \/ p = 3 \/ p = 4 \/ p = 5 \/ p = 6 \/ p = 7.
Proof. lia. Qed.

Ltac each_of H :=
  destruct H as [?|[?|[?|[?|[?|[?|?]]]]]]; subst.

(** A period missing from one label is on the next one. *)
Lemma label_has_consecutive p i : 1 <= p <= 7 -> 0 <= i < 7 ->
  label_has p i = false -> label_has p ((i + 1) mod 7) = true.
Proof.
  intros Hp Hi. apply period_cases in Hp. apply small_cases in Hi.
  each_of Hp; each_of Hi; vm_compute; congruence.
Qed.

(** On two consecutive school days the period meets at least once. *)
Lemma meets_two_days p x : 1 <= p <= 7 -> valid x ->
  toordinal FIRST_DAY <= toordinal x -> toordinal x < MAXORDINAL -> weekday x < 4 ->
  meets p x = false -> meets p (tomorrow x) = true.
Proof.
  intros Hp Hx Hge Hlt Hw. pose proof (weekday_range x) as Hr.
  assert (Hx' : valid (tomorrow x)) by (apply valid_tomorrow; trivial).
  rewrite !meets_label by trivial.
  rewrite label_index_tomorrow by trivial.
  unfold is_school_day. rewrite weekday_next by trivial.
  destruct (Z.eqb_spec (weekday x) 6); [lia|].
  destruct (Z.ltb_spec (weekday x) 5); [|lia].
  destruct (Z.ltb_spec (weekday x + 1) 5); [|lia].
  cbn [andb]. apply label_has_consecutive; [trivial | apply label_index_range].
Qed.

(** Over a weekend the label does not move: the period meets on the
    Friday or on the Monday. *)
Lemma meets_over_weekend p x : 1 <= p <= 7 -> valid x ->
  toordinal FIRST_DAY <= toordinal x -> toordinal x + 3 <= MAXORDINAL -> weekday x = 4 ->
  meets p x = false -> meets p (nth_day x 3) = true.
Proof.
  intros Hp Hx Hge Hle Hw. cbn [nth_day].
  set (x1 := tomorrow x). set (x2 := tomorrow x1). set (x3 := tomorrow x2).
  assert (Hx1 : valid x1) by (apply valid_tomorrow; trivial; lia).
  assert (Ho1 : toordinal x1 = toordinal x + 1) by (apply toordinal_tomorrow; trivial).
  assert (Hx2 : valid x2) by (apply valid_tomorrow; trivial; lia).
  assert (Ho2 : toordinal x2 = toordinal x1 + 1) by (apply toordinal_tomorrow; trivial).
  assert (Hx3 : valid x3) by (apply valid_tomorrow; trivial; lia).
  assert (W1 : weekday x1 = 5).
  { unfold x1. rewrite weekday_next, Hw by trivial. reflexivity. }
  assert (W2 : weekday x2 = 6).
  { unfold x2. rewrite weekday_next, W1 by trivial. reflexivity. }
  assert (W3 : weekday x3 = 0).
  { unfold x3. rewrite weekday_next, W2 by trivial. reflexivity. }
  pose proof (label_index_range x) as Hi.
  assert (L1 : label_index x1 = label_index x).
  { unfold x1. rewrite label_index_tomorrow by (trivial; lia). fold x1.
    unfold is_school_day. rewrite W1. cbn. rewrite Z.add_0_r. apply Z.mod_small. lia. }
  assert (L2 : label_index x2 = label_index x).
  { unfold x2. rewrite label_index_tomorrow by (trivial; lia). fold x2.
    unfold is_school_day. rewrite W2, L1. cbn. rewrite Z.add_0_r. apply Z.mod_small. lia. }
  assert (L3 : label_index x3 = (label_index x + 1) mod 7).
  { unfold x3. rewrite label_index_tomorrow by (trivial; lia). fold x3.
    unfold is_school_day. rewrite W3, L2. reflexivity. }
  rewrite !meets_label by trivial. rewrite L3. unfold is_school_day. rewrite Hw, W3.
  cbn. apply label_has_consecutive; trivial.
Qed.

(** After the first day, any four consecutive days contain a day on
    which the period meets. *)
Lemma meets_within_3 p c : 1 <= p <= 7 -> valid c ->
  toordinal FIRST_DAY <= toordinal c -> toordinal c + 3 <= MAXORDINAL ->
  exists k, (k <= 3)%nat /\ meets p (nth_day c k) = true.
Proof.
  intros Hp Hc Hge Hle. pose proof (weekday_range c) as Hr.
  assert (Hc1 : valid (tomorrow c)) by (apply valid_tomorrow; trivial; lia).
  pose proof (toordinal_tomorrow c Hc) as Ho1.
  assert (Hc2 : valid (tomorrow (tomorrow c))) by (apply valid_tomorrow; trivial; lia).
  pose proof (toordinal_tomorrow _ Hc1) as Ho2.
  pose proof (weekday_next c Hc) as W1. pose proof (weekday_next _ Hc1) as W2.
  destruct (Z_lt_dec (weekday c) 4) as [Hw|Hw].
  { destruct (meets p c) eqn:M0.
    - exists 0%nat. split; [lia | exact M0].
    - exists 1%nat. split; [lia|]. apply meets_two_days; trivial; lia. }
  destruct (Z.eq_dec (weekday c) 4) as [E4|N4].
  { destruct (meets p c) eqn:M0.
    - exists 0%nat. split; [lia | exact M0].
    - exists 3%nat. split; [lia|]. apply meets_over_weekend; trivial. }
  destruct (Z.eq_dec (weekday c) 5) as [E5|N5].
  { rewrite E5 in W1. change (weekday (tomorrow c) = 6) in W1.
    rewrite W1 in W2. change (weekday (tomorrow (tomorrow c)) = 0) in W2.
    destruct (meets p (nth_day c 2)) eqn:M2.
    - exists 2%nat. split; [lia | exact M2].
    - exists 3%nat. split; [lia|]. cbn [nth_day] in *.
      apply meets_two_days; trivial; lia. }
  assert (E6 : weekday c = 6) by lia.
  rewrite E6 in W1. change (weekday (tomorrow c) = 0) in W1.
  destruct (meets p (nth_day c 1)) eqn:M1.
  - exists 1%nat. split; [lia | exact M1].
  - exists 2%nat. split; [lia|]. cbn [nth_day] in *.
    apply meets_two_days; trivial; lia.
Qed.

(** The same up to [date.max], a Friday: the last two days before it
    are school days. *)
Lemma meets_soon p c : 1 <= p <= 7 -> valid c ->
  toordinal FIRST_DAY <= toordinal c -> toordinal c < MAXORDINAL ->
  exists k, (k <= 3)%nat /\ toordinal c + Z.of_nat k <= MAXORDINAL /\
            meets p (nth_day c k) = true.
Proof.
  intros Hp Hc Hge Hlt.
  destruct (Z_le_gt_dec (toordinal c + 3) MAXORDINAL) as [Hroom|Hend].
  - destruct (meets_within_3 p c Hp Hc Hge Hroom) as (k & Hk & Hm).
    exists k. split_and!; trivial; lia.
  - assert (Hw : weekday c < 4).
    { unfold weekday. unfold MAXORDINAL in *. Z.to_euclidean_division_equations. lia. }
    destruct (meets p c) eqn:M0.
    + exists 0%nat. split_and!; [lia | lia | exact M0].
    + exists 1%nat. split_and!; [lia | lia |]. apply meets_two_days; trivial.
Qed.

Lemma first_true (f : nat -> bool) : forall K, f K = true ->
  exists k, (k <= K)%nat /\ f k = true /\ forall j, (j < k)%nat -> f j = false.
Proof.
  induction K as [K IH] using lt_wf_ind. intros HK.
  destruct (List.existsb f (List.seq 0 K)) eqn:E.
  - apply List.existsb_exists in E. destruct E as (j & Hin & Hj).
    apply List.in_seq in Hin. destruct (IH j ltac:(lia) Hj) as (k & Hk & Hfk & Hmin).
    exists k. split; [lia | split; trivial].
  - exists K. split; [lia | split; [trivial|]]. intros j Hj.
    destruct (f j) eqn:Ej; [|reflexivity].
    assert (List.existsb f (List.seq 0 K) = true); [|congruence].
    apply List.existsb_exists. exists j. split; [apply List.in_seq; lia | trivial].
Qed.

End Progress.

(** * The forward search *)

Section ForwardSearch.

Lemma list_index_spec p l : list_contains p l = true ->
  exists idx, list_index p l = Ret idx /\ l !! idx = Some p /\ (idx < length l)%nat /\
    forall j, (j < idx)%nat -> l !! j <> Some p.
Proof.
  induction l as [|y l IH]; cbn [list_contains existsb list_index]; [discriminate|].
  destruct (Z.eqb_spec p y) as [->|Hne].
  - intros _. exists 0%nat. cbn. repeat split; [lia | intros j Hj; lia].
  - cbn [orb]. intros H. destruct (IH H) as (idx & Hi & Hl & Hlen & Hmin).
    exists (S idx). rewrite Hi. cbn. repeat split; trivial; [lia|].
    intros [|j] Hj; cbn; [congruence | apply Hmin; lia].
Qed.

Lemma list_contains_elem_of p l : list_contains p l = true <-> p ∈ l.
Proof.
  unfold list_contains. rewrite List.existsb_exists. split.
  - intros (x & Hin & Hx). apply Z.eqb_eq in Hx. subst. now apply list_elem_of_In.
  - intros Hin. exists p. split; [now apply list_elem_of_In | apply Z.eqb_refl].
Qed.

Lemma periodsFor_label_length (i : Z) l : 0 <= i < 7 -> LETTERS !! Z.to_nat i = Some l ->
  length (periodsFor l) = 5%nat.
Proof.
  intros Hi. apply small_cases in Hi.
  destruct Hi as [?|[?|[?|[?|[?|[?|?]]]]]]; subst; cbn; intros [= <-]; reflexivity.
Qed.

Lemma periodsFor_letterDay_length d : valid d -> length (periodsFor (letterDay d)) = 5%nat.
Proof.
  intros Hd. apply (periodsFor_label_length (label_index d)).
  - apply label_index_range.
  - now apply letterDay_lookup.
Qed.

Variable slots_for : date -> list ClassTime.
Hypothesis slots_for_length : forall d, length (slots_for d) = 5%nat.

Lemma search_body_miss fuel p d : valid d -> (letter_fuel d <= fuel)%nat ->
  list_contains p (periodsFor (letterDay d)) = false ->
  search_body slots_for fuel p d = Ret None.
Proof.
  intros Hd Hf Hc. unfold search_body.
  rewrite get_letter_day_letterDay by trivial. cbn [obind].
  fold (periodsFor (letterDay d)). now rewrite Hc.
Qed.

Lemma search_body_hit fuel p d : valid d -> (letter_fuel d <= fuel)%nat ->
  list_contains p (periodsFor (letterDay d)) = true ->
  exists idx slot,
    periodsFor (letterDay d) !! idx = Some p /\
    (forall j, (j < idx)%nat -> periodsFor (letterDay d) !! j <> Some p) /\
    slots_for d !! idx = Some slot /\
    search_body slots_for fuel p d = Ret (Some (d, slot)).
Proof.
  intros Hd Hf Hc. unfold search_body.
  rewrite get_letter_day_letterDay by trivial. cbn [obind].
  fold (periodsFor (letterDay d)). rewrite Hc.
  destruct (list_index_spec _ _ Hc) as (idx & Hi & Hl & Hlen & Hmin).
  rewrite periodsFor_letterDay_length in Hlen by trivial.
  rewrite Hi. cbn [obind]. rewrite slots_for_length.
  destruct (Nat.ltb_spec idx 5); [|lia].
  destruct (list_getitem_lt (slots_for d) idx) as (slot & Hs & Hg);
    [rewrite slots_for_length; lia|].
  exists idx, slot. rewrite Hg. cbn [obind]. auto.
Qed.

Lemma letter_fuel_mono a b : toordinal a <= toordinal b -> (letter_fuel a <= letter_fuel b)%nat.
Proof. unfold letter_fuel. lia. Qed.

(** The loop walks to the first day on which the period meets. *)
Lemma search_loop_finds p k : forall c fuel n,
  valid c -> toordinal c + Z.of_nat k <= MAXORDINAL ->
  meets p (nth_day c k) = true ->
  (forall j, (j < k)%nat -> meets p (nth_day c j) = false) ->
  (k < n)%nat -> (letter_fuel (nth_day c k) <= fuel)%nat ->
  exists idx slot,
    periodsFor (letterDay (nth_day c k)) !! idx = Some p /\
    (forall j, (j < idx)%nat -> periodsFor (letterDay (nth_day c k)) !! j <> Some p) /\
    slots_for (nth_day c k) !! idx = Some slot /\
    search_loop slots_for fuel n p c = Ret (nth_day c k, slot).
Proof.
  induction k as [|k IH]; intros c fuel n Hc Hle Hm Hmin Hn Hf;
    (destruct n as [|n]; [lia|]); cbn [search_loop].
  - cbn [nth_day] in *. unfold meets, is_school_day in Hm.
    apply andb_true_iff in Hm. destruct Hm as [Hw Hin]. apply Z.ltb_lt in Hw.
    destruct (Z.leb_spec 5 (weekday c)); [lia|].
    destruct (search_body_hit fuel p c Hc Hf Hin) as (idx & slot & H1 & H2 & H3 & H4).
    exists idx, slot. rewrite H4. cbn [obind]. auto.
  - assert (Hc' : valid (tomorrow c)) by (apply valid_tomorrow; trivial; lia).
    pose proof (toordinal_tomorrow c Hc) as Ho.
    destruct (nth_day_spec (S k) c Hc Hle) as [_ Hok].
    assert (Hfc : (letter_fuel c <= fuel)%nat).
    { etransitivity; [|exact Hf]. apply letter_fuel_mono. lia. }
    assert (Hstep : exists idx slot,
      periodsFor (letterDay (nth_day c (S k))) !! idx = Some p /\
      (forall j, (j < idx)%nat -> periodsFor (letterDay (nth_day c (S k))) !! j <> Some p) /\
      slots_for (nth_day c (S k)) !! idx = Some slot /\
      search_loop slots_for fuel n p (tomorrow c) = Ret (nth_day c (S k), slot)).
    { cbn [nth_day] in *. apply IH; trivial; try lia.
      intros j Hj. apply (Hmin (S j)). lia. }
    destruct Hstep as (idx & slot & H1 & H2 & H3 & H4).
    exists idx, slot. split_and!; trivial.
    pose proof (Hmin 0%nat ltac:(lia)) as Hm0. cbn [nth_day] in Hm0.
    unfold meets, is_school_day in Hm0.
    rewrite add_one_day_ok by (trivial; lia). cbn [obind].
    destruct (Z.leb_spec 5 (weekday c)) as [Hw|Hw]; [exact H4|].
    destruct (Z.ltb_spec (weekday c) 5); [|lia]. cbn [andb] in Hm0.
    rewrite search_body_miss by trivial. cbn [obind]. exact H4.
Qed.

End ForwardSearch.

Lemma next_class_loop_search g fuel n p lo : forall d,
  next_class_loop g fuel n p lo d = search_loop (upper_slots g lo) fuel n p d.
Proof.
  induction n as [|n IH]; intros d; cbn [next_class_loop search_loop]; [reflexivity|].
  change (next_class_body g fuel p lo d) with (search_body (upper_slots g lo) fuel p d).
  destruct (5 <=? weekday d).
  - destruct (add_one_day d); cbn [obind]; auto.
  - destruct (search_body (upper_slots g lo) fuel p d) as [[r|]| |]; cbn [obind]; auto.
    destruct (add_one_day d); cbn [obind]; auto.
Qed.

Lemma next_class_ms_loop_search fuel n p : forall d,
  MS.next_class_ms_loop fuel n p d = search_loop ms_slots fuel n p d.
Proof.
  induction n as [|n IH]; intros d; cbn [MS.next_class_ms_loop search_loop]; [reflexivity|].
  change (MS.next_class_ms_body fuel p d) with (search_body ms_slots fuel p d).
  destruct (5 <=? weekday d).
  - destruct (add_one_day d); cbn [obind]; auto.
  - destruct (search_body ms_slots fuel p d) as [[r|]| |]; cbn [obind]; auto.
    destruct (add_one_day d); cbn [obind]; auto.
Qed.

Lemma upper_slots_length g lo d : length (upper_slots g lo d) = 5%nat.
Proof. unfold upper_slots, get_time_slots. destruct (weekday d =? 2); reflexivity. Qed.

Lemma ms_slots_length d : length (ms_slots d) = 5%nat.
Proof.
  unfold ms_slots, MS.get_schedule_for_day.
  destruct (weekday d =? 2); [reflexivity|]. destruct (weekday d =? 3); reflexivity.
Qed.

(** * Fuel

    More fuel never changes the result of a computation that finished. *)

Section Fuel.

Lemma count_weekdays_more_fuel f : forall f' day cur acc,
  (f <= f')%nat -> finished (count_weekdays f day cur acc) ->
  count_weekdays f' day cur acc = count_weekdays f day cur acc.
Proof.
  unfold finished.
  induction f as [|f IH]; intros f' day cur acc Hle Hfin; cbn [count_weekdays] in *.
  - congruence.
  - destruct f' as [|f']; [lia|]. cbn [count_weekdays].
    destruct (ltb day cur); [|reflexivity].
    destruct (add_one_day day) as [day'| |]; cbn [obind] in *; try reflexivity.
    apply IH; [lia | trivial].
Qed.

Lemma get_letter_day_more_fuel f f' d : (f <= f')%nat ->
  finished (get_letter_day f d) -> get_letter_day f' d = get_letter_day f d.
Proof.
  unfold finished, get_letter_day. intros Hle Hfin.
  destruct (leb d FIRST_DAY); [reflexivity|].
  rewrite (count_weekdays_more_fuel f f'); trivial.
  unfold finished. intros E. rewrite E in Hfin. now apply Hfin.
Qed.

Lemma search_body_more_fuel slots_for f f' p d : (f <= f')%nat ->
  finished (search_body slots_for f p d) ->
  search_body slots_for f' p d = search_body slots_for f p d.
Proof.
  unfold finished, search_body. intros Hle Hfin.
  rewrite (get_letter_day_more_fuel f f'); trivial.
  unfold finished. intros E. rewrite E in Hfin. now apply Hfin.
Qed.

Lemma search_loop_more_fuel slots_for p f f' n : forall n' d,
  (f <= f')%nat -> (n <= n')%nat -> finished (search_loop slots_for f n p d) ->
  search_loop slots_for f' n' p d = search_loop slots_for f n p d.
Proof.
  unfold finished.
  induction n as [|n IH]; intros n' d Hf Hn Hfin; cbn [search_loop] in *.
  - congruence.
  - destruct n' as [|n']; [lia|]. cbn [search_loop].
    destruct (5 <=? weekday d).
    + destruct (add_one_day d) as [d'| |]; cbn [obind] in *; try reflexivity.
      apply IH; trivial; lia.
    + rewrite (search_body_more_fuel slots_for f f'); trivial.
      * destruct (search_body slots_for f p d) as [[r|]| |]; cbn [obind] in *; try reflexivity.
        destruct (add_one_day d) as [d'| |]; cbn [obind] in *; try reflexivity.
        apply IH; trivial; lia.
      * unfold finished. intros E. rewrite E in Hfin. now apply Hfin.
Qed.

End Fuel.

(** * The next occurrence of a period *)

Section NextOccurrence.

Lemma meets_first_days :
  Forall (fun p => meets p FIRST_DAY = true) [1; 2; 3; 4; 5] /\
  Forall (fun p => meets p (tomorrow FIRST_DAY) = true) [6; 7].
Proof. split; repeat constructor. Qed.

(** Some day after [from_date] has the period; the first such day is
    at most four days on when the search starts on or after the first
    day of the rotation, and no later than the day after it
    otherwise. *)
Lemma first_meeting p from_date :
  1 <= p <= 7 -> valid from_date -> toordinal from_date + 2 <= MAXORDINAL ->
  exists k, let r := nth_day (tomorrow from_date) k in
    valid r /\ toordinal r = toordinal from_date + 1 + Z.of_nat k /\
    meets p r = true /\
    (forall j, (j < k)%nat -> meets p (nth_day (tomorrow from_date) j) = false) /\
    (toordinal FIRST_DAY <= toordinal from_date -> (k <= 3)%nat) /\
    (toordinal from_date < toordinal FIRST_DAY -> toordinal r <= toordinal FIRST_DAY + 1).
Proof.
  intros Hp Hv Hle.
  set (c := tomorrow from_date).
  assert (Hc : valid c) by (apply valid_tomorrow; trivial; lia).
  assert (Hoc : toordinal c = toordinal from_date + 1) by (apply toordinal_tomorrow; trivial).
  pose proof FIRST_DAY_valid as HE. pose proof FIRST_DAY_ordinal as HEo.
  assert (Hex : exists K, meets p (nth_day c K) = true /\
            toordinal c + Z.of_nat K <= MAXORDINAL /\
            (toordinal FIRST_DAY < toordinal c -> (K <= 3)%nat) /\
            (toordinal c <= toordinal FIRST_DAY ->
             toordinal c + Z.of_nat K <= toordinal FIRST_DAY + 1)).
  { destruct (Z_lt_ge_dec (toordinal FIRST_DAY) (toordinal c)) as [Hge|Hlt].
    - destruct (meets_soon p c Hp Hc ltac:(lia) ltac:(lia)) as (K & HK & HKmax & Hm).
      exists K. split_and!; trivial; lia.
    - destruct meets_first_days as [H15 H67].
      rewrite Forall_forall in H15, H67.
      destruct (Z_le_gt_dec p 5) as [Hp5|Hp5].
      + exists (Z.to_nat (toordinal FIRST_DAY - toordinal c)).
        rewrite <- (nth_day_unique c FIRST_DAY) by (trivial; lia).
        split; [|unfold MAXORDINAL; lia].
        apply H15. apply period_cases in Hp.
        destruct Hp as [?|[?|[?|[?|[?|[?|?]]]]]]; subst; try lia; set_solver.
      + assert (Ht : valid (tomorrow FIRST_DAY)) by (apply validb_spec; reflexivity).
        assert (Hto : toordinal (tomorrow FIRST_DAY) = toordinal FIRST_DAY + 1) by reflexivity.
        exists (Z.to_nat (toordinal FIRST_DAY + 1 - toordinal c)).
        rewrite <- (nth_day_unique c (tomorrow FIRST_DAY)) by (trivial; lia).
        split; [|unfold MAXORDINAL; lia].
        apply H67. apply period_cases in Hp.
        destruct Hp as [?|[?|[?|[?|[?|[?|?]]]]]]; subst; try lia; set_solver. }
  destruct Hex as (K & HmK & HKle & Hpost & Hpre).
  destruct (first_true (fun k => meets p (nth_day c k)) K HmK) as (k & Hk & Hm & Hmin).
  destruct (nth_day_spec k c Hc ltac:(lia)) as [Hr Hor].
  exists k. cbn zeta. fold c. split_and!; trivial; lia.
Qed.

Variable slots_for : date -> list ClassTime.
Hypothesis slots_for_length : forall d, length (slots_for d) = 5%nat.

(** The search started the day after [from_date] returns the first day
    on which the period meets, with the slot of the period that day. *)
Lemma search_from p from_date k :
  valid from_date ->
  toordinal from_date + 1 + Z.of_nat k <= MAXORDINAL ->
  meets p (nth_day (tomorrow from_date) k) = true ->
  (forall j, (j < k)%nat -> meets p (nth_day (tomorrow from_date) j) = false) ->
  let r := nth_day (tomorrow from_date) k in
  exists idx slot,
    periodsFor (letterDay r) !! idx = Some p /\
    (forall j, (j < idx)%nat -> periodsFor (letterDay r) !! j <> Some p) /\
    slots_for r !! idx = Some slot /\
    forall fuel, (S k <= fuel)%nat -> (letter_fuel r <= fuel)%nat ->
      (do next_date <- add_one_day from_date;
       search_loop slots_for fuel fuel p next_date) = Ret (r, slot).
Proof.
  intros Hv Hle Hm Hmin r.
  assert (Hc : valid (tomorrow from_date)) by (apply valid_tomorrow; trivial; lia).
  pose proof (toordinal_tomorrow from_date Hv) as Hoc.
  destruct (search_loop_finds slots_for slots_for_length p k (tomorrow from_date)
              (letter_fuel r) (S k) Hc ltac:(lia) Hm Hmin ltac:(lia) (le_n _))
    as (idx & slot & H1 & H2 & H3 & H4).
  exists idx, slot. split_and!; trivial.
  intros fuel Hf1 Hf2. rewrite add_one_day_ok by (trivial; lia). cbn [obind].
  rewrite (search_loop_more_fuel slots_for p (letter_fuel r) fuel (S k) fuel); trivial.
  fold r in H4. unfold finished. rewrite H4. discriminate.
Qed.

End NextOccurrence.

Lemma meets_spec p d : meets p d = true <-> weekday d < 5 /\ p ∈ periodsFor (letterDay d).
Proof.
  unfold meets, is_school_day. rewrite andb_true_iff, Z.ltb_lt, list_contains_elem_of. tauto.
Qed.

Lemma get_next_class_search g fuel p from_date lo :
  get_next_class g fuel p from_date lo =
  (do next_date <- add_one_day from_date;
   search_loop (upper_slots g lo) fuel fuel p next_date).
Proof.
  unfold get_next_class. destruct (add_one_day from_date); cbn [obind]; trivial.
  apply next_class_loop_search.
Qed.

Lemma get_next_class_ms_search fuel p from_date :
  MS.get_next_class_ms fuel p from_date =
  (do next_date <- add_one_day from_date;
   search_loop ms_slots fuel fuel p next_date).
Proof.
  unfold MS.get_next_class_ms. destruct (add_one_day from_date); cbn [obind]; trivial.
  apply next_class_ms_loop_search.
Qed.

(** C1 (as amended): for every period in [1,7], every lunch option and
    every [from_date] up to 9999-12-29, two days before [date.max],
    [get_next_class] returns the earliest date strictly after
    [from_date] that is a weekday and whose letter day's period order
    contains the period, paired with [slots[idx]], where [idx] is the
    index of the period in that order and [slots] the time-slot list of
    that date's weekday and lunch option.  In particular
    [get_next_class(6, 2025-08-14)] returns 2025-08-15 with the slot at
    index 0. *)
Theorem get_next_class_earliest :
  (forall g period from_date lunch_option,
     1 <= period <= 7 -> valid from_date -> toordinal from_date + 2 <= MAXORDINAL ->
     exists d idx slot,
       (exists fuel0, forall fuel, (fuel0 <= fuel)%nat ->
          get_next_class g fuel period from_date lunch_option = Ret (d, slot)) /\
       valid d /\ ltb from_date d = true /\ weekday d < 5 /\
       periodsFor (letterDay d) !! idx = Some period /\
       (forall j, (j < idx)%nat -> periodsFor (letterDay d) !! j <> Some period) /\
       get_time_slots g (weekday d =? 2) lunch_option !! idx = Some slot /\
       (forall d', valid d' -> ltb from_date d' = true -> ltb d' d = true ->
          ~ (weekday d' < 5 /\ period ∈ periodsFor (letterDay d')))) /\
  (forall g lunch_option,
     get_time_slots g (weekday (mkdate 2025 8 15) =? 2) lunch_option !! 0%nat
       = Some (mkClassTime (mktime 8 30) (mktime 9 30)) /\
     periodsFor (letterDay (mkdate 2025 8 14)) = [1; 2; 3; 4; 5] /\
     periodsFor (letterDay (mkdate 2025 8 15)) = [6; 7; 1; 2; 3] /\
     forall fuel, (2 <= fuel)%nat ->
       get_next_class g fuel 6 (mkdate 2025 8 14) lunch_option
         = Ret (mkdate 2025 8 15, mkClassTime (mktime 8 30) (mktime 9 30))).
Proof.
  split.
  - intros g p from_date lo Hp Hv Hle.
    destruct (first_meeting p from_date Hp Hv Hle) as (k & Hr & Hor & Hm & Hmin & Hpost & Hpre).
    cbn zeta in *.
    assert (Hk : toordinal from_date + 1 + Z.of_nat k <= MAXORDINAL).
    { pose proof (toordinal_range _ Hr). lia. }
    destruct (search_from (upper_slots g lo) (upper_slots_length g lo) p from_date k
                Hv Hk Hm Hmin) as (idx & slot & H1 & H2 & H3 & H4).
    set (r := nth_day (tomorrow from_date) k) in *.
    exists r, idx, slot. split_and!; trivial.
    + exists (Nat.max (S k) (letter_fuel r)). intros fuel Hf.
      rewrite get_next_class_search. apply H4; lia.
    + rewrite ltb_toordinal by trivial. apply Z.ltb_lt. lia.
    + apply meets_spec in Hm. tauto.
    + intros d' Hd' Hlo Hhi Hq. apply meets_spec in Hq.
      rewrite ltb_toordinal in Hlo, Hhi by trivial. apply Z.ltb_lt in Hlo, Hhi.
      assert (Hc : valid (tomorrow from_date)) by (apply valid_tomorrow; trivial; lia).
      pose proof (toordinal_tomorrow from_date Hv) as Hoc.
      rewrite (nth_day_unique (tomorrow from_date) d'
                 (Z.to_nat (toordinal d' - toordinal (tomorrow from_date)))) in Hq
        by (trivial; lia).
      rewrite Hmin in Hq by lia. discriminate.
  - intros g lo.
    assert (Hv : valid (mkdate 2025 8 14)) by (apply validb_spec; reflexivity).
    destruct (search_from (upper_slots g lo) (upper_slots_length g lo) 6 (mkdate 2025 8 14) 0
                Hv ltac:(vm_compute; discriminate) eq_refl ltac:(intros j Hj; lia))
      as (idx & slot & H1 & H2 & H3 & H4).
    cbn zeta in *. change (nth_day (tomorrow (mkdate 2025 8 14)) 0) with (mkdate 2025 8 15) in *.
    assert (idx = 0%nat) as ->.
    { destruct idx as [|idx]; trivial. exfalso. apply (H2 0%nat); [lia | reflexivity]. }
    change (Some (mkClassTime (mktime 8 30) (mktime 9 30)) = Some slot) in H3.
    injection H3 as <-. split_and!.
    + reflexivity.
    + reflexivity.
    + reflexivity.
    + intros fuel Hf. rewrite get_next_class_search. apply H4; [lia | exact Hf].
Qed.

Lemma get_next_class_earliest_witness :
  exists d idx slot,
    (exists fuel0, forall fuel, (fuel0 <= fuel)%nat ->
       get_next_class initial_globals fuel 3 (mkdate 2025 9 5) (Some "1"%string) = Ret (d, slot)) /\
    valid d /\ ltb (mkdate 2025 9 5) d = true /\ weekday d < 5 /\
    periodsFor (letterDay d) !! idx = Some 3 /\
    (forall j, (j < idx)%nat -> periodsFor (letterDay d) !! j <> Some 3) /\
    get_time_slots initial_globals (weekday d =? 2) (Some "1"%string) !! idx = Some slot /\
    (forall d', valid d' -> ltb (mkdate 2025 9 5) d' = true -> ltb d' d = true ->
       ~ (weekday d' < 5 /\ 3 ∈ periodsFor (letterDay d'))).
Proof.
  apply (proj1 get_next_class_earliest initial_globals 3 (mkdate 2025 9 5) (Some "1"%string)).
  - lia.
  - apply validb_spec. reflexivity.
  - vm_compute. discriminate.
Defined.

(** C1 as stated fails at [date.max]: the search raises [OverflowError]
    and returns no date. *)
Lemma get_next_class_at_date_max :
  valid (mkdate 9999 12 31) /\
  get_next_class initial_globals 10 1 (mkdate 9999 12 31) None = Raise OverflowError /\
  ~ (exists fuel r, get_next_class initial_globals fuel 1 (mkdate 9999 12 31) None = Ret r).
Proof.
  split; [apply validb_spec; reflexivity|]. split; [reflexivity|].
  intros (fuel & r & H). unfold get_next_class in H.
  change (add_one_day (mkdate 9999 12 31)) with (@Raise date OverflowError) in H.
  discriminate.
Qed.

Lemma get_next_class_more_fuel g p from_date lo f f' : (f <= f')%nat ->
  finished (get_next_class g f p from_date lo) ->
  get_next_class g f' p from_date lo = get_next_class g f p from_date lo.
Proof.
  rewrite !get_next_class_search. intros Hle Hfin.
  destruct (add_one_day from_date); cbn [obind] in *; trivial.
  now apply search_loop_more_fuel.
Qed.

Lemma length_days_after n : forall d, length (days_after d n) = n.
Proof. induction n as [|n IH]; intros d; cbn; [reflexivity | now rewrite IH]. Qed.

Lemma school_days_since_le a b : toordinal a <= toordinal b ->
  school_days_since a b <= toordinal b - toordinal a.
Proof.
  intros H. unfold school_days_since.
  pose proof (List.filter_length_le is_school_day
                (days_after a (Z.to_nat (toordinal b - toordinal a)))) as Hl.
  rewrite length_days_after in Hl. lia.
Qed.

(** C2 (as amended): for every period in [1,7] and every [from_date] up
    to 9999-12-29, two days before [date.max], the forward search of
    [get_next_class] and of [get_next_class_ms] terminates and returns.
    When [from_date] is on or after 2025-08-14 the day it finds is at
    most 4 calendar days, hence at most 4 school days, after
    [from_date], within the 7 school days and 11 calendar days of the
    claim; when [from_date] is earlier, it is no later than
    2025-08-15. *)
Theorem next_class_search_terminates period from_date :
  1 <= period <= 7 -> valid from_date -> toordinal from_date + 2 <= MAXORDINAL ->
  exists d,
    valid d /\ ltb from_date d = true /\ meets period d = true /\
    (forall g lunch_option, exists slot fuel0, forall fuel, (fuel0 <= fuel)%nat ->
       get_next_class g fuel period from_date lunch_option = Ret (d, slot)) /\
    (exists slot fuel0, forall fuel, (fuel0 <= fuel)%nat ->
       MS.get_next_class_ms fuel period from_date = Ret (d, slot)) /\
    (leb FIRST_DAY from_date = true ->
       toordinal d <= toordinal from_date + 4 /\ school_days_since from_date d <= 4) /\
    (ltb from_date FIRST_DAY = true -> leb d (mkdate 2025 8 15) = true).
Proof.
  intros Hp Hv Hle.
  destruct (first_meeting period from_date Hp Hv Hle)
    as (k & Hr & Hor & Hm & Hmin & Hpost & Hpre).
  cbn zeta in *.
  assert (Hk : toordinal from_date + 1 + Z.of_nat k <= MAXORDINAL).
  { pose proof (toordinal_range _ Hr). lia. }
  set (r := nth_day (tomorrow from_date) k) in *.
  pose proof FIRST_DAY_valid as HE.
  exists r. split_and!; trivial.
  - rewrite ltb_toordinal by trivial. apply Z.ltb_lt. lia.
  - intros g lo.
    destruct (search_from (upper_slots g lo) (upper_slots_length g lo) period from_date k
                Hv Hk Hm Hmin) as (idx & slot & H1 & H2 & H3 & H4).
    exists slot, (Nat.max (S k) (letter_fuel r)). intros fuel Hf.
    rewrite get_next_class_search. apply H4; unfold r in Hf; lia.
  - destruct (search_from ms_slots ms_slots_length period from_date k
                Hv Hk Hm Hmin) as (idx & slot & H1 & H2 & H3 & H4).
    exists slot, (Nat.max (S k) (letter_fuel r)). intros fuel Hf.
    rewrite get_next_class_ms_search. apply H4; unfold r in Hf; lia.
  - intros Hge. rewrite leb_toordinal in Hge by trivial. apply Z.leb_le in Hge.
    specialize (Hpost Hge).
    pose proof (school_days_since_le from_date r ltac:(lia)). lia.
  - intros Hlt. rewrite ltb_toordinal in Hlt by trivial. apply Z.ltb_lt in Hlt.
    specialize (Hpre Hlt).
    rewrite leb_toordinal by (trivial; apply validb_spec; reflexivity).
    apply Z.leb_le. change (toordinal (mkdate 2025 8 15)) with (toordinal FIRST_DAY + 1). lia.
Qed.

Lemma next_class_search_terminates_witness :
  exists d,
    valid d /\ ltb (mkdate 2025 9 5) d = true /\ meets 7 d = true /\
    (forall g lunch_option, exists slot fuel0, forall fuel, (fuel0 <= fuel)%nat ->
       get_next_class g fuel 7 (mkdate 2025 9 5) lunch_option = Ret (d, slot)) /\
    (exists slot fuel0, forall fuel, (fuel0 <= fuel)%nat ->
       MS.get_next_class_ms fuel 7 (mkdate 2025 9 5) = Ret (d, slot)) /\
    (leb FIRST_DAY (mkdate 2025 9 5) = true ->
       toordinal d <= toordinal (mkdate 2025 9 5) + 4 /\
       school_days_since (mkdate 2025 9 5) d <= 4) /\
    (ltb (mkdate 2025 9 5) FIRST_DAY = true -> leb d (mkdate 2025 8 15) = true).
Proof.
  apply (next_class_search_terminates 7 (mkdate 2025 9 5)).
  - lia.
  - apply validb_spec. reflexivity.
  - vm_compute. discriminate.
Defined.

(** C2 as stated fails before the first day of the rotation: every
    date up to 2025-08-14 has label A, which has no period 6, so the
    search from 2025-01-01 runs to 2025-08-15, 226 days on. *)
Lemma search_before_first_day :
  valid (mkdate 2025 1 1) /\
  get_next_class initial_globals 300 6 (mkdate 2025 1 1) None =
    Ret (mkdate 2025 8 15, mkClassTime (mktime 8 30) (mktime 9 30)) /\
  MS.get_next_class_ms 300 6 (mkdate 2025 1 1) =
    Ret (mkdate 2025 8 15, mkClassTime (mktime 8 45) (mktime 9 40)) /\
  toordinal (mkdate 2025 8 15) - toordinal (mkdate 2025 1 1) = 226 /\
  ~ (exists fuel d slot,
       get_next_class initial_globals fuel 6 (mkdate 2025 1 1) None = Ret (d, slot) /\
       toordinal d <= toordinal (mkdate 2025 1 1) + 11).
Proof.
  assert (H300 : get_next_class initial_globals 300 6 (mkdate 2025 1 1) None =
    Ret (mkdate 2025 8 15, mkClassTime (mktime 8 30) (mktime 9 30)))
    by (vm_compute; reflexivity).
  split; [apply validb_spec; reflexivity|].
  split; [exact H300|].
  split; [vm_compute; reflexivity|].
  split; [vm_compute; reflexivity|].
  intros (fuel & d & slot & H & Hd).
  assert (Hmax : get_next_class initial_globals (Nat.max fuel 300) 6 (mkdate 2025 1 1) None
                 = Ret (d, slot)).
  { rewrite <- H. apply get_next_class_more_fuel; [lia|].
    unfold finished. rewrite H. discriminate. }
  assert (Hmax' : get_next_class initial_globals (Nat.max fuel 300) 6 (mkdate 2025 1 1) None
                 = Ret (mkdate 2025 8 15, mkClassTime (mktime 8 30) (mktime 9 30))).
  { rewrite <- H300. apply get_next_class_more_fuel; [lia|].
    unfold finished. rewrite H300. discriminate. }
  assert (Hd' : d = mkdate 2025 8 15) by congruence.
  subst d. vm_compute in Hd. now apply Hd.
Qed.

(** * The letter day *)

(** C3: [get_letter_day] returns on every date [d].  If
    [d <= FIRST_DAY] (2025-08-14) the result is [LETTERS[0]];
    otherwise it is [LETTERS[n mod 7]], where [n] is the number of
    Monday-to-Friday dates strictly after [FIRST_DAY] and up to and
    including [d]. *)
Theorem get_letter_day_total d : valid d ->
  exists l,
    (forall fuel, (letter_fuel d <= fuel)%nat -> get_letter_day fuel d = Ret l) /\
    (leb d FIRST_DAY = true -> l = "A"%string /\ LETTERS !! 0%nat = Some l) /\
    (leb d FIRST_DAY = false ->
       exists L : list date,
         NoDup L /\
         (forall x, x ∈ L <->
            valid x /\ ltb FIRST_DAY x = true /\ leb x d = true /\ weekday x < 5) /\
         LETTERS !! Z.to_nat (Z.of_nat (length L) mod 7) = Some l).
Proof.
  intros Hd. exists (letterDay d). pose proof FIRST_DAY_valid as HE.
  pose proof (letterDay_lookup d Hd) as Hl. unfold label_index in Hl.
  split_and!.
  - intros fuel Hf. now apply get_letter_day_letterDay.
  - intros Hle. rewrite Hle in Hl.
    change (Some "A"%string = Some (letterDay d)) in Hl. injection Hl as <-.
    split; reflexivity.
  - intros Hgt. rewrite Hgt in Hl.
    rewrite leb_toordinal in Hgt by trivial. apply Z.leb_gt in Hgt.
    pose proof (toordinal_range d Hd) as Hrange.
    set (n := Z.to_nat (toordinal d - toordinal FIRST_DAY)).
    exists (List.filter is_school_day (days_after FIRST_DAY n)). split_and!.
    + apply NoDup_ListNoDup, List.NoDup_filter, NoDup_ListNoDup.
      apply NoDup_days_after; [trivial | lia].
    + intros x. rewrite list_elem_of_In, List.filter_In, <- list_elem_of_In.
      rewrite elem_of_days_after by (trivial; lia).
      unfold is_school_day. rewrite Z.ltb_lt. split.
      * intros [[Hx Hr] Hw]. rewrite ltb_toordinal, leb_toordinal by trivial.
        rewrite Z.ltb_lt, Z.leb_le. split_and!; trivial; lia.
      * intros (Hx & Hlo & Hhi & Hw).
        rewrite ltb_toordinal in Hlo by trivial. rewrite leb_toordinal in Hhi by trivial.
        apply Z.ltb_lt in Hlo. apply Z.leb_le in Hhi. split_and!; trivial; lia.
    + exact Hl.
Qed.

Lemma get_letter_day_total_witness :
  exists l,
    (forall fuel, (letter_fuel (mkdate 2025 9 1) <= fuel)%nat ->
       get_letter_day fuel (mkdate 2025 9 1) = Ret l) /\
    (leb (mkdate 2025 9 1) FIRST_DAY = true -> l = "A"%string /\ LETTERS !! 0%nat = Some l) /\
    (leb (mkdate 2025 9 1) FIRST_DAY = false ->
       exists L : list date,
         NoDup L /\
         (forall x, x ∈ L <->
            valid x /\ ltb FIRST_DAY x = true /\ leb x (mkdate 2025 9 1) = true /\
            weekday x < 5) /\
         LETTERS !! Z.to_nat (Z.of_nat (length L) mod 7) = Some l).
Proof.
  apply (get_letter_day_total (mkdate 2025 9 1)).
  apply validb_spec. reflexivity.
Defined.

(** From the first day on, a run of school days moves the label one
    position per day. *)
Lemma label_index_advance n : forall d1, valid d1 ->
  toordinal FIRST_DAY <= toordinal d1 -> toordinal d1 + Z.of_nat n <= MAXORDINAL ->
  (forall k, (1 <= k <= n)%nat -> is_school_day (nth_day d1 k) = true) ->
  label_index (nth_day d1 n) = (label_index d1 + Z.of_nat n) mod 7.
Proof.
  induction n as [|n IH]; intros d1 Hd Hge Hle Hall.
  - cbn [nth_day]. rewrite Z.add_0_r. symmetry. apply Z.mod_small, label_index_range.
  - rewrite nth_day_S by trivial.
    destruct (nth_day_spec n d1 Hd ltac:(lia)) as [Hv Ho].
    rewrite label_index_tomorrow by (trivial; lia).
    rewrite <- nth_day_S by trivial. rewrite Hall by lia.
    rewrite IH by (trivial; try lia; intros k Hk; apply Hall; lia).
    Z.to_euclidean_division_equations; lia.
Qed.

(** C4 (as amended): for every pair of school days [d1 < d2] with
    [d1] on or after [FIRST_DAY] and no weekend day between them, the
    label of [d2] is the label of [d1] advanced by exactly [d2 - d1]
    positions modulo 7 in [LETTERS]; the labels of 2025-08-14,
    2025-08-15 and 2025-08-18 are A, B and C. *)
Theorem letter_day_advance :
  (forall d1 d2, valid d1 -> valid d2 -> weekday d1 < 5 -> weekday d2 < 5 ->
     ltb d1 d2 = true -> leb FIRST_DAY d1 = true ->
     (forall x, valid x -> ltb d1 x = true -> ltb x d2 = true -> weekday x < 5) ->
     exists i,
       LETTERS !! i = Some (letterDay d1) /\
       LETTERS !! Z.to_nat ((Z.of_nat i + (toordinal d2 - toordinal d1)) mod 7)
         = Some (letterDay d2)) /\
  (forall fuel, (1 <= fuel)%nat -> get_letter_day fuel (mkdate 2025 8 14) = Ret "A"%string) /\
  (forall fuel, (2 <= fuel)%nat -> get_letter_day fuel (mkdate 2025 8 15) = Ret "B"%string) /\
  (forall fuel, (5 <= fuel)%nat -> get_letter_day fuel (mkdate 2025 8 18) = Ret "C"%string) /\
  weekday (mkdate 2025 8 14) = 3 /\ weekday (mkdate 2025 8 15) = 4 /\
  weekday (mkdate 2025 8 18) = 0.
Proof.
  split_and!; [ | | | | reflexivity | reflexivity | reflexivity].
  - intros d1 d2 H1 H2 Hw1 Hw2 Hlt Hge Hmid. pose proof FIRST_DAY_valid as HE.
    rewrite ltb_toordinal in Hlt by trivial. apply Z.ltb_lt in Hlt.
    rewrite leb_toordinal in Hge by trivial. apply Z.leb_le in Hge.
    pose proof (toordinal_range d2 H2) as Hr2.
    set (n := Z.to_nat (toordinal d2 - toordinal d1)).
    assert (Hd2 : d2 = nth_day d1 n) by (apply nth_day_unique; trivial; lia).
    exists (Z.to_nat (label_index d1)). split; [now apply letterDay_lookup|].
    pose proof (label_index_range d1) as Hi. rewrite Z2Nat.id by lia.
    replace (toordinal d2 - toordinal d1) with (Z.of_nat n) by lia.
    rewrite <- label_index_advance; trivial; try lia.
    + rewrite <- Hd2. now apply letterDay_lookup.
    + intros k Hk. unfold is_school_day. apply Z.ltb_lt.
      destruct (nth_day_spec k d1 H1 ltac:(lia)) as [Hv Ho].
      destruct (Nat.eq_dec k n) as [->|Hne]; [now rewrite <- Hd2|].
      apply Hmid; trivial; rewrite ltb_toordinal by trivial; apply Z.ltb_lt; lia.
  - intros fuel Hf. apply (get_letter_day_letterDay fuel (mkdate 2025 8 14));
      [apply validb_spec; reflexivity | exact Hf].
  - intros fuel Hf. apply (get_letter_day_letterDay fuel (mkdate 2025 8 15));
      [apply validb_spec; reflexivity | exact Hf].
  - intros fuel Hf. apply (get_letter_day_letterDay fuel (mkdate 2025 8 18));
      [apply validb_spec; reflexivity | exact Hf].
Qed.

Lemma letter_day_advance_witness :
  exists i,
    LETTERS !! i = Some (letterDay (mkdate 2025 8 19)) /\
    LETTERS !! Z.to_nat ((Z.of_nat i +
        (toordinal (mkdate 2025 8 21) - toordinal (mkdate 2025 8 19))) mod 7)
      = Some (letterDay (mkdate 2025 8 21)).
Proof.
  apply (proj1 letter_day_advance (mkdate 2025 8 19) (mkdate 2025 8 21)).
  - apply validb_spec. reflexivity.
  - apply validb_spec. reflexivity.
  - vm_compute. reflexivity.
  - vm_compute. reflexivity.
  - reflexivity.
  - reflexivity.
  - intros x Hx Hlo Hhi. apply validb_spec in Hx.
    destruct x as [y m d]. unfold ltb, cmp in Hlo, Hhi. cbn [year month day] in Hlo, Hhi.
    destruct (Z.compare_spec 2025 y); try discriminate; subst.
    2:{ destruct (Z.compare_spec y 2025); try discriminate; lia. }
    destruct (Z.compare_spec 8 m); try discriminate; subst.
    2:{ cbn in Hhi. destruct (Z.compare_spec m 8); try discriminate; lia. }
    cbn in Hhi.
    destruct (Z.compare_spec 19 d); try discriminate.
    destruct (Z.compare_spec d 21); try discriminate.
    assert (d = 20) as -> by lia. vm_compute. reflexivity.
Defined.

(** C4 as stated fails before the first day of the rotation: Tuesday
    2025-08-12 and Wednesday 2025-08-13 both have label A, so the label
    does not advance by one position. *)
Lemma letter_day_before_first_day :
  valid (mkdate 2025 8 12) /\ valid (mkdate 2025 8 13) /\
  weekday (mkdate 2025 8 12) = 1 /\ weekday (mkdate 2025 8 13) = 2 /\
  toordinal (mkdate 2025 8 13) - toordinal (mkdate 2025 8 12) = 1 /\
  get_letter_day 1 (mkdate 2025 8 12) = Ret "A"%string /\
  get_letter_day 1 (mkdate 2025 8 13) = Ret "A"%string /\
  LETTERS !! 0%nat = Some "A"%string /\
  LETTERS !! Z.to_nat ((0 + 1) mod 7) = Some "B"%string.
Proof.
  split_and!; try reflexivity; apply validb_spec; reflexivity.
Qed.

(** * Lunch windows and time slots *)

Section Lunch.

Import MS.

Lemma regular_keys grade w : MS_LUNCH_WINDOWS_REGULAR !! grade = Some w ->
  grade = 8 \/ grade = 6 \/ grade = 7.
Proof.
  intros H. destruct (decide (grade = 8)); [auto|]. destruct (decide (grade = 6)); [auto|].
  destruct (decide (grade = 7)); [auto|]. exfalso. revert H.
  unfold MS_LUNCH_WINDOWS_REGULAR. cbn [list_to_map foldr uncurry fst snd].
  rewrite !lookup_insert_ne by congruence. now rewrite lookup_empty.
Qed.

Lemma unknown_grade grade : MS_LUNCH_WINDOWS_REGULAR !! grade = None ->
  MS_LUNCH_WINDOWS_ALT_OCT6 !! grade = None /\ MS_LUNCH_WINDOWS_ALT_NOV17 !! grade = None.
Proof.
  intros H.
  assert (grade <> 8) by (intros ->; discriminate).
  assert (grade <> 6) by (intros ->; discriminate).
  assert (grade <> 7) by (intros ->; discriminate).
  unfold MS_LUNCH_WINDOWS_ALT_OCT6, MS_LUNCH_WINDOWS_ALT_NOV17.
  cbn [list_to_map foldr uncurry fst snd].
  rewrite !lookup_insert_ne by congruence. now rewrite !lookup_empty.
Qed.

Lemma in_range_within d start_md end_md table :
  within_override d (start_md, end_md, table) = in_range (month d) (day d) start_md end_md.
Proof.
  unfold within_override, in_range, md_leb. destruct start_md as [sm sd], end_md as [em ed].
  cbn [fst snd]. now rewrite (Z.eqb_sym sm).
Qed.

Lemma lunch_window_scan_known date_obj grade regular :
  MS_LUNCH_WINDOWS_REGULAR !! grade = Some regular ->
  match override_for date_obj with
  | Some (_, _, table) =>
      exists w, table !! grade = Some w /\ w <> regular /\
                get_ms_lunch_window_for date_obj grade = Ret w
  | None => get_ms_lunch_window_for date_obj grade = Ret regular
  end.
Proof.
  intros H. unfold override_for, get_ms_lunch_window_for, MS_LUNCH_OVERRIDES.
  cbn [List.find lunch_window_scan]. rewrite !in_range_within.
  destruct (regular_keys grade regular H) as [-> | [-> | ->]];
    (vm_compute in H; injection H as Hreg; subst regular);
    (destruct (in_range (month date_obj) (day date_obj) (10, 6) (10, 10));
     [ eexists; split_and!; [reflexivity | discriminate | reflexivity] |]);
    (destruct (in_range (month date_obj) (day date_obj) (11, 17) (11, 21));
     [ eexists; split_and!; [reflexivity | discriminate | reflexivity] | reflexivity ]).
Qed.

(** C5: the lunch-window lookup selects an override exactly when the
    month and day of the query date fall inside a declared override
    range, whatever the year and with both ends included.  For grade 8,
    2025-10-08 (inside Oct 6 to Oct 10) yields the override window, so
    does the last day of the range, Oct 10, and 2025-10-11 yields the
    regular entry of grade 8. *)
Theorem lunch_window_override :
  (forall date_obj grade regular,
     MS_LUNCH_WINDOWS_REGULAR !! grade = Some regular ->
     match override_for date_obj with
     | Some (_, _, table) =>
         exists w, table !! grade = Some w /\ w <> regular /\
                   get_ms_lunch_window_for date_obj grade = Ret w
     | None => get_ms_lunch_window_for date_obj grade = Ret regular
     end) /\
  (forall y y' m d grade,
     get_ms_lunch_window_for (mkdate y m d) grade =
     get_ms_lunch_window_for (mkdate y' m d) grade) /\
  MS_LUNCH_WINDOWS_REGULAR !! 8 = Some (mkMSLunchWindow (hm 12 5) (hm 12 25)) /\
  MS_LUNCH_WINDOWS_ALT_OCT6 !! 8 = Some (mkMSLunchWindow (hm 11 55) (hm 12 15)) /\
  get_ms_lunch_window_for (mkdate 2025 10 8) 8 = Ret (mkMSLunchWindow (hm 11 55) (hm 12 15)) /\
  get_ms_lunch_window_for (mkdate 2025 10 6) 8 = Ret (mkMSLunchWindow (hm 11 55) (hm 12 15)) /\
  get_ms_lunch_window_for (mkdate 2025 10 10) 8 = Ret (mkMSLunchWindow (hm 11 55) (hm 12 15)) /\
  get_ms_lunch_window_for (mkdate 2025 10 5) 8 = Ret (mkMSLunchWindow (hm 12 5) (hm 12 25)) /\
  get_ms_lunch_window_for (mkdate 2025 10 11) 8 = Ret (mkMSLunchWindow (hm 12 5) (hm 12 25)).
Proof.
  split_and!; try reflexivity.
  intros date_obj grade regular H. now apply lunch_window_scan_known.
Qed.

Lemma lunch_window_override_witness :
  match override_for (mkdate 2026 11 19) with
  | Some (_, _, table) =>
      exists w, table !! 7 = Some w /\ w <> mkMSLunchWindow (hm 12 40) (hm 13 0) /\
                get_ms_lunch_window_for (mkdate 2026 11 19) 7 = Ret w
  | None =>
      get_ms_lunch_window_for (mkdate 2026 11 19) 7 = Ret (mkMSLunchWindow (hm 12 40) (hm 13 0))
  end.
Proof.
  apply (proj1 lunch_window_override (mkdate 2026 11 19) 7).
  reflexivity.
Defined.

End Lunch.

Section Slots.

Import MS.

Lemma slot_lists_ok :
  (forall g is_wednesday lunch_option,
     well_formed_slots (get_time_slots g is_wednesday lunch_option)) /\
  (forall day_of_week, well_formed_slots (get_schedule_for_day day_of_week)).
Proof.
  split.
  - intros g w lo. unfold get_time_slots.
    destruct (String.eqb (str_or lo (LUNCH_OPTION g)) "1"), w; repeat split.
  - intros w. unfold get_schedule_for_day.
    destruct (w =? 2); [repeat split|]. destruct (w =? 3); repeat split.
Qed.

(** C6: for every weekday-class input and every lunch option the slot
    list has exactly 5 slots, every slot ends strictly after it starts,
    and every slot starts strictly after the previous one ends: for
    [get_time_slots] with both values of [is_wednesday] and any lunch
    option, and for [get_schedule_for_day] on every weekday index. *)
Theorem slots_well_formed :
  (forall g is_wednesday lunch_option,
     well_formed_slots (get_time_slots g is_wednesday lunch_option)) /\
  (forall day_of_week, well_formed_slots (get_schedule_for_day day_of_week)).
Proof. exact slot_lists_ok. Qed.

(** C7: every one of the 7 rotation labels has a period order of
    exactly 5 pairwise distinct periods, each in [1,7]; every period in
    [1,7] is in the period order of exactly 5 of the 7 labels and
    absent from the other 2. *)
Theorem period_order_table :
  length LETTERS = 7%nat /\ NoDup LETTERS /\
  (forall letter, letter ∈ LETTERS ->
     exists order, PERIOD_ORDER !! letter = Some order /\
       length order = 5%nat /\ NoDup order /\ forall p, p ∈ order -> 1 <= p <= 7) /\
  (forall p, 1 <= p <= 7 ->
     length (List.filter (fun l => list_contains p (periodsFor l)) LETTERS) = 5%nat /\
     length (List.filter (fun l => negb (list_contains p (periodsFor l))) LETTERS) = 2%nat).
Proof.
  split_and!.
  - reflexivity.
  - apply (bool_decide_unpack _). vm_compute. exact I.
  - intros letter Hin. unfold LETTERS in Hin.
    repeat (apply elem_of_cons in Hin; destruct Hin as [-> | Hin]);
      [ .. | now apply elem_of_nil in Hin ];
      (eexists; split_and!;
       [ reflexivity | reflexivity | apply (bool_decide_unpack _); vm_compute; exact I
       | intros p Hp;
         repeat (apply elem_of_cons in Hp; destruct Hp as [-> | Hp]);
         [ .. | now apply elem_of_nil in Hp ]; lia ]).
  - intros p Hp. apply period_cases in Hp.
    destruct Hp as [?|[?|[?|[?|[?|[?|?]]]]]]; subst; split; reflexivity.
Qed.

Lemma period_order_table_witness :
  (exists order, PERIOD_ORDER !! "E"%string = Some order /\
     length order = 5%nat /\ NoDup order /\ forall p, p ∈ order -> 1 <= p <= 7) /\
  length (List.filter (fun l => list_contains 6 (periodsFor l)) LETTERS) = 5%nat /\
  length (List.filter (fun l => negb (list_contains 6 (periodsFor l))) LETTERS) = 2%nat.
Proof.
  split.
  - apply (proj1 (proj2 (proj2 period_order_table)) "E"%string).
    unfold LETTERS. set_solver.
  - apply (proj2 (proj2 (proj2 period_order_table)) 6). lia.
Defined.

(** C8: for every fixed weekday class, the slot lists of lunch option
    "1" and lunch option "2" are identical at indices 0, 1, 3 and 4 and
    differ at most at index 2. *)
Theorem lunch_option_frame g is_wednesday (i : nat) :
  i <> 2%nat ->
  get_time_slots g is_wednesday (Some "1"%string) !! i =
  get_time_slots g is_wednesday (Some "2"%string) !! i.
Proof.
  intros Hi. unfold get_time_slots. cbn [str_or String.eqb Ascii.eqb Bool.eqb].
  destruct is_wednesday; cbn [negb];
    (destruct i as [|[|[|[|[|i]]]]]; [reflexivity | reflexivity | congruence
                                     | reflexivity | reflexivity | reflexivity]).
Qed.

Lemma lunch_option_frame_witness :
  get_time_slots initial_globals true (Some "1"%string) !! 3%nat =
  get_time_slots initial_globals true (Some "2"%string) !! 3%nat.
Proof.
  apply (lunch_option_frame initial_globals true 3). discriminate.
Defined.

Lemma str_or_selected s b : s <> ""%string -> str_or (Some s) b = s.
Proof.
  intros H. unfold str_or. destruct (String.eqb_spec s ""); [contradiction | reflexivity].
Qed.

Lemma set_lunch_option_values opts :
  LUNCH_OPTION (foldr set_lunch_option initial_globals opts) = "1"%string \/
  LUNCH_OPTION (foldr set_lunch_option initial_globals opts) = "2"%string.
Proof.
  induction opts as [|o opts IH]; cbn [foldr]; [right; reflexivity|].
  unfold set_lunch_option.
  destruct (String.eqb_spec o "1") as [->|]; [left; reflexivity|].
  destruct (String.eqb_spec o "2") as [->|]; [right; reflexivity|].
  exact IH.
Qed.

(** C9 (as amended): an unrecognized selector never makes a lookup
    fail.  [get_ms_lunch_window_for] returns on every grade, with the
    regular window of grade 8 for any grade absent from the regular
    table.  [get_time_slots] returns its five slots on every selector;
    every non-empty selector other than "1" resolves to the
    second-lunch midday slot, and an absent or empty selector resolves
    as the module-level [LUNCH_OPTION] does, which is "2" when the
    module is loaded and only ever "1" or "2". *)
Theorem selector_fallback :
  (forall date_obj grade, MS_LUNCH_WINDOWS_REGULAR !! grade = None ->
     get_ms_lunch_window_for date_obj grade = Ret (mkMSLunchWindow (hm 12 5) (hm 12 25))) /\
  MS_LUNCH_WINDOWS_REGULAR !! 8 = Some (mkMSLunchWindow (hm 12 5) (hm 12 25)) /\
  (forall date_obj grade, exists w, get_ms_lunch_window_for date_obj grade = Ret w) /\
  (forall g is_wednesday lunch_option,
     length (get_time_slots g is_wednesday lunch_option) = 5%nat) /\
  (forall g is_wednesday s, s <> "1"%string -> s <> ""%string ->
     get_time_slots g is_wednesday (Some s) !! 2%nat = Some second_lunch_slot) /\
  (forall g is_wednesday,
     get_time_slots g is_wednesday (Some "1"%string) !! 2%nat = Some first_lunch_slot) /\
  (forall g is_wednesday lunch_option, lunch_option = None \/ lunch_option = Some ""%string ->
     get_time_slots g is_wednesday lunch_option =
     get_time_slots g is_wednesday (Some (LUNCH_OPTION g))) /\
  LUNCH_OPTION initial_globals = "2"%string /\
  (forall opts,
     LUNCH_OPTION (foldr set_lunch_option initial_globals opts) = "1"%string \/
     LUNCH_OPTION (foldr set_lunch_option initial_globals opts) = "2"%string).
Proof.
  assert (Hunknown : forall date_obj grade, MS_LUNCH_WINDOWS_REGULAR !! grade = None ->
     get_ms_lunch_window_for date_obj grade = Ret (mkMSLunchWindow (hm 12 5) (hm 12 25))).
  { intros date_obj grade H. destruct (unknown_grade grade H) as [H1 H2].
    unfold get_ms_lunch_window_for, MS_LUNCH_OVERRIDES. cbn [lunch_window_scan].
    rewrite H, H1, H2.
    rewrite !(bool_decide_eq_false_2 (is_Some None)) by (intros [? ?]; discriminate).
    rewrite !andb_false_r. reflexivity. }
  split_and!.
  - exact Hunknown.
  - reflexivity.
  - intros date_obj grade.
    destruct (MS_LUNCH_WINDOWS_REGULAR !! grade) as [regular|] eqn:E.
    + pose proof (lunch_window_scan_known date_obj grade regular E) as H.
      destruct (override_for date_obj) as [[[? ?] table]|].
      * destruct H as (w & _ & _ & Hw). eauto.
      * eauto.
    + eexists. now apply Hunknown.
  - intros g w lo. destruct (proj1 slot_lists_ok g w lo) as [H _]. exact H.
  - intros g w s H1 Hne. unfold get_time_slots. rewrite str_or_selected by trivial.
    destruct (String.eqb_spec s "1"); [contradiction|]. destruct w; reflexivity.
  - intros g w. destruct w; reflexivity.
  - intros g w lo [-> | ->]; unfold get_time_slots, str_or; cbn [String.eqb];
      destruct (String.eqb_spec (LUNCH_OPTION g) ""); reflexivity.
  - reflexivity.
  - apply set_lunch_option_values.
Qed.

End Slots.

Lemma selector_fallback_witness :
  MS.get_ms_lunch_window_for (mkdate 2025 10 8) 5 =
    Ret (MS.mkMSLunchWindow (MS.hm 12 5) (MS.hm 12 25)) /\
  get_time_slots initial_globals true (Some "first"%string) !! 2%nat = Some second_lunch_slot.
Proof.
  split.
  - apply (proj1 selector_fallback (mkdate 2025 10 8) 5). reflexivity.
  - apply (proj1 (proj2 (proj2 (proj2 (proj2 selector_fallback))))
             initial_globals true "first"%string); discriminate.
Defined.

(** C9 as stated fails for the empty selector once [main] has set the
    module-level option to "1": the selector is not "1", yet the midday
    slot is the first-lunch one. *)
Lemma empty_selector_follows_global :
  LUNCH_OPTION (set_lunch_option "1" initial_globals) = "1"%string /\
  ""%string <> "1"%string /\
  get_time_slots (set_lunch_option "1" initial_globals) false (Some ""%string) !! 2%nat
    = Some first_lunch_slot /\
  get_time_slots (set_lunch_option "1" initial_globals) false None !! 2%nat
    = Some first_lunch_slot /\
  first_lunch_slot <> second_lunch_slot.
Proof. split_and!; try reflexivity; discriminate. Qed.

(** * Independence of the middle-school search from grade and lunch *)

Lemma search_body_result slots_for fuel p c d slot :
  search_body slots_for fuel p c = Ret (Some (d, slot)) -> d = c /\ slot ∈ slots_for c.
Proof.
  unfold search_body.
  destruct (get_letter_day fuel c) as [letter| |]; cbn [obind]; try discriminate.
  destruct (list_contains p (default [] (PERIOD_ORDER !! letter))); cbn [obind];
    [|discriminate].
  destruct (list_index p (default [] (PERIOD_ORDER !! letter))) as [idx| |];
    cbn [obind]; try discriminate.
  destruct (idx <? length (slots_for c))%nat; cbn [obind]; [|discriminate].
  unfold list_getitem. destruct (slots_for c !! idx) as [s|] eqn:E; cbn [obind]; [|discriminate].
  intros [= <- <-]. split; [reflexivity|]. now apply list_elem_of_lookup_2 in E.
Qed.

Lemma search_loop_result slots_for fuel p n : forall c d slot,
  search_loop slots_for fuel n p c = Ret (d, slot) -> slot ∈ slots_for d.
Proof.
  induction n as [|n IH]; intros c d slot; cbn [search_loop]; [discriminate|].
  destruct (5 <=? weekday c).
  - destruct (add_one_day c) as [c'| |]; cbn [obind]; try discriminate. apply IH.
  - destruct (search_body slots_for fuel p c) as [[[d' slot']|]| |] eqn:E;
      cbn [obind]; try discriminate.
    + intros [= -> ->]. apply search_body_result in E. destruct E as [-> H]. exact H.
    + destruct (add_one_day c) as [c'| |]; cbn [obind]; try discriminate. apply IH.
Qed.

(** * Reminder times *)

Section ReminderTime.

Lemma minutes_of_inj a b : valid_time a -> valid_time b -> minutes_of a = minutes_of b -> a = b.
Proof.
  destruct a as [h m], b as [h' m']. unfold valid_time, minutes_of. cbn [hour minute].
  intros [Hh Hm] [Hh' Hm'] H. assert (h = h') by lia. assert (m = m') by lia. congruence.
Qed.

Lemma minutes_of_split t : 0 <= t < 1440 ->
  valid_time (mktime (t / 60) (t mod 60)) /\ minutes_of (mktime (t / 60) (t mod 60)) = t.
Proof.
  intros H. unfold valid_time, minutes_of. cbn [hour minute].
  Z.to_euclidean_division_equations. lia.
Qed.

Lemma reminder_time_same_day today self minutes_before :
  valid today -> valid_time (end_ self) ->
  0 <= minutes_before <= minutes_of (end_ self) ->
  exists r, reminder_time today self minutes_before = Ret r /\ valid_time r /\
            minutes_of r = minutes_of (end_ self) - minutes_before.
Proof.
  intros Ht He Hm. pose proof (toordinal_range today Ht) as Hr.
  assert (Hend : 0 <= minutes_of (end_ self) < 1440).
  { destruct He as [? ?]. unfold minutes_of. lia. }
  unfold reminder_time. cbv zeta.
  set (t := minutes_of (end_ self) - minutes_before) in *.
  assert (Hq : t / 1440 = 0) by (apply Z.div_small; lia).
  assert (Hmod : t mod 1440 = t) by (apply Z.mod_small; lia).
  rewrite Hq, Hmod, Z.add_0_r.
  destruct (Z.leb_spec 1 (toordinal today)); [|lia].
  destruct (Z.leb_spec (toordinal today) MAXORDINAL); [|lia]. cbn [andb].
  eexists. split; [reflexivity|]. apply minutes_of_split. lia.
Qed.

(** X1: [reminder_time] has no floor at midnight.  When the class ends
    fewer minutes after midnight than are subtracted (and at most a day
    fewer), the result wraps to the evening before: it is the time of
    day 1440 minutes later than the difference; on [date.min] the
    subtraction raises [OverflowError] instead. *)
Theorem reminder_time_wraps today self minutes_before :
  valid today -> valid_time (end_ self) ->
  minutes_of (end_ self) < minutes_before <= minutes_of (end_ self) + 1440 ->
  (1 < toordinal today ->
     exists r, reminder_time today self minutes_before = Ret r /\ valid_time r /\
               minutes_of r = minutes_of (end_ self) - minutes_before + 1440) /\
  (toordinal today = 1 ->
     reminder_time today self minutes_before = Raise OverflowError).
Proof.
  intros Ht He Hm. pose proof (toordinal_range today Ht) as Hr.
  assert (Hend : 0 <= minutes_of (end_ self) < 1440).
  { destruct He as [? ?]. unfold minutes_of. lia. }
  unfold reminder_time. cbv zeta.
  set (t := minutes_of (end_ self) - minutes_before) in *.
  assert (Hq : t / 1440 = -1) by (Z.to_euclidean_division_equations; lia).
  assert (Hmod : t mod 1440 = t + 1440) by (Z.to_euclidean_division_equations; lia).
  rewrite Hq, Hmod. split.
  - intros Hgt.
    destruct (Z.leb_spec 1 (toordinal today + -1)); [|lia].
    destruct (Z.leb_spec (toordinal today + -1) MAXORDINAL); [|lia]. cbn [andb].
    eexists. split; [reflexivity|]. apply minutes_of_split. lia.
  - intros ->. reflexivity.
Qed.

Lemma reminder_time_wraps_witness :
  (exists r,
     reminder_time (mkdate 2025 9 1) (mkClassTime (mktime 23 0) (mktime 0 3)) 5 = Ret r /\
     valid_time r /\
     minutes_of r = minutes_of (mktime 0 3) - 5 + 1440) /\
  reminder_time (mkdate 1 1 1) (mkClassTime (mktime 23 0) (mktime 0 3)) 5
    = Raise OverflowError.
Proof.
  split.
  - apply (reminder_time_wraps (mkdate 2025 9 1) (mkClassTime (mktime 23 0) (mktime 0 3)) 5).
    + apply validb_spec. reflexivity.
    + vm_compute. repeat split; discriminate.
    + vm_compute. split; [reflexivity | discriminate].
    + vm_compute. reflexivity.
  - apply (reminder_time_wraps (mkdate 1 1 1) (mkClassTime (mktime 23 0) (mktime 0 3)) 5).
    + apply validb_spec. reflexivity.
    + vm_compute. repeat split; discriminate.
    + vm_compute. split; [reflexivity | discriminate].
    + reflexivity.
Defined.

Lemma slot_table_checks l : is_slot_table l ->
  length l = 5%nat /\ forallb slot_checks l = true /\ due_increasing l = true.
Proof.
  intros [(g & w & lo & ->) | (w & ->)].
  - unfold get_time_slots.
    destruct (String.eqb (str_or lo (LUNCH_OPTION g)) "1"), w; repeat split.
  - unfold MS.get_schedule_for_day.
    destruct (w =? 2); [repeat split|]. destruct (w =? 3); repeat split.
Qed.

Lemma slot_checks_spec s : slot_checks s = true ->
  valid_time (start s) /\ valid_time (end_ s) /\
  minutes_of (start s) < due_minute s /\ 0 <= due_minute s.
Proof.
  unfold slot_checks, valid_time. rewrite !andb_true_iff, !Z.leb_le, !Z.ltb_lt. tauto.
Qed.

Lemma slot_table_elem l s : is_slot_table l -> s ∈ l -> slot_checks s = true.
Proof.
  intros Hl Hs. destruct (slot_table_checks l Hl) as (_ & Hall & _).
  rewrite List.forallb_forall in Hall. apply Hall. now apply list_elem_of_In.
Qed.

Lemma slot_reminder l s today : is_slot_table l -> s ∈ l -> valid today ->
  exists r, reminder_time today s 5 = Ret r /\ valid_time r /\
            minutes_of r = due_minute s /\
            minutes_of (start s) < minutes_of r < minutes_of (end_ s).
Proof.
  intros Hl Hs Ht. pose proof (slot_checks_spec s (slot_table_elem l s Hl Hs))
    as (_ & He & Hlo & Hge).
  unfold due_minute in *.
  destruct (reminder_time_same_day today s 5 Ht He ltac:(lia)) as (r & Hr & Hv & Hm).
  exists r. split_and!; trivial; lia.
Qed.

(** X2: in every slot list of the program (upper school for any lunch
    option, middle school for any weekday) the reminder of each block,
    five minutes before its end, is computed without error on every
    date and falls strictly inside the block. *)
Theorem reminder_inside_class l s today : is_slot_table l -> s ∈ l -> valid today ->
  exists r, reminder_time today s 5 = Ret r /\ valid_time r /\
            minutes_of r = minutes_of (end_ s) - 5 /\
            minutes_of (start s) < minutes_of r < minutes_of (end_ s).
Proof. exact (slot_reminder l s today). Qed.

Lemma reminder_inside_class_witness :
  exists r, reminder_time (mkdate 2025 9 3) first_lunch_slot 5 = Ret r /\ valid_time r /\
            minutes_of r = minutes_of (end_ first_lunch_slot) - 5 /\
            minutes_of (start first_lunch_slot) < minutes_of r
              < minutes_of (end_ first_lunch_slot).
Proof.
  apply (reminder_inside_class
           (get_time_slots initial_globals true (Some "1"%string)) first_lunch_slot
           (mkdate 2025 9 3)).
  - left. exists initial_globals, true, (Some "1"%string). reflexivity.
  - unfold get_time_slots, first_lunch_slot. cbn. set_solver.
  - apply validb_spec. reflexivity.
Defined.

Lemma due_increasing_lookup l : due_increasing l = true ->
  forall i j s s', (i < j)%nat -> l !! i = Some s -> l !! j = Some s' ->
  due_minute s < due_minute s'.
Proof.
  induction l as [|a l IH]; intros Hinc i j s s' Hij Hi Hj; [discriminate|].
  destruct l as [|b l].
  - destruct i, j; try lia; destruct j; discriminate.
  - cbn [due_increasing] in Hinc. apply andb_true_iff in Hinc. destruct Hinc as [Hab Hrest].
    apply Z.ltb_lt in Hab.
    destruct i as [|i], j as [|j]; try lia.
    + cbn in Hi. injection Hi as <-.
      destruct j as [|j].
      * cbn in Hj. injection Hj as <-. exact Hab.
      * assert (due_minute b < due_minute s'); [|lia].
        apply (IH Hrest 0%nat (S j) b s'); [lia | reflexivity | exact Hj].
    + apply (IH Hrest i j s s'); [lia | exact Hi | exact Hj].
Qed.

Lemma due_injective l i j s s' : is_slot_table l ->
  l !! i = Some s -> l !! j = Some s' -> due_minute s = due_minute s' -> i = j.
Proof.
  intros Hl Hi Hj Heq. destruct (slot_table_checks l Hl) as (_ & _ & Hinc).
  destruct (lt_eq_lt_dec i j) as [[Hlt | ->] | Hgt]; trivial.
  - pose proof (due_increasing_lookup l Hinc i j s s' Hlt Hi Hj). lia.
  - pose proof (due_increasing_lookup l Hinc j i s' s Hgt Hj Hi). lia.
Qed.

(** X3: in every slot list of the program the reminder minutes of the
    five blocks increase strictly with the block index, so no two
    blocks of a day are due in the same minute. *)
Theorem reminder_minutes_increase l i j s s' : is_slot_table l ->
  l !! i = Some s -> l !! j = Some s' -> (i < j)%nat ->
  minutes_of (end_ s) - 5 < minutes_of (end_ s') - 5.
Proof.
  intros Hl Hi Hj Hlt. destruct (slot_table_checks l Hl) as (_ & _ & Hinc).
  exact (due_increasing_lookup l Hinc i j s s' Hlt Hi Hj).
Qed.

Lemma reminder_minutes_increase_witness :
  minutes_of (end_ (mkClassTime (mktime 9 55) (mktime 10 50))) - 5 <
  minutes_of (end_ (mkClassTime (mktime 13 5) (mktime 14 0))) - 5.
Proof.
  apply (reminder_minutes_increase (MS.get_schedule_for_day 2) 1 3).
  - right. exists 2. reflexivity.
  - reflexivity.
  - reflexivity.
  - lia.
Defined.

Lemma slot_index_of_first l : forall i s, l !! i = Some s ->
  (forall j, (j < i)%nat -> l !! j <> Some s) -> slot_index_of s l = Ret i.
Proof.
  induction l as [|y l IH]; intros i s Hi Hmin; [discriminate|]. cbn [slot_index_of].
  destruct i as [|i].
  - cbn in Hi. injection Hi as ->. now rewrite bool_decide_eq_true_2.
  - rewrite bool_decide_eq_false_2.
    + rewrite (IH i s); [reflexivity | exact Hi |].
      intros j Hj. apply (Hmin (S j)). lia.
    + intros ->. apply (Hmin 0%nat); [lia | reflexivity].
Qed.

Lemma slot_index_of_absent l s : s ∉ l -> slot_index_of s l = Raise ValueError.
Proof.
  induction l as [|y l IH]; intros Hs; cbn [slot_index_of]; [reflexivity|].
  rewrite not_elem_of_cons in Hs. destruct Hs as [Hne Hs].
  rewrite bool_decide_eq_false_2 by exact Hne. now rewrite IH.
Qed.

Lemma slot_index_of_lookup l i s : is_slot_table l -> l !! i = Some s ->
  slot_index_of s l = Ret i.
Proof.
  intros Hl Hi. apply slot_index_of_first; trivial.
  intros j Hj Hjs. assert (j = i); [|lia]. now apply (due_injective l j i s s).
Qed.

(** X4: the block number that the middle-school [show_reminder]
    computes as [schedule.index(class_time) + 1] is the position, from
    1, of the block whose reminder fired: [index] finds the block
    itself, since the blocks of a day are pairwise different; for a
    class time that is not a block of that day [index] raises
    [ValueError]. *)
Theorem ms_block_number_round_trip class_date :
  (forall idx class_time,
     MS.get_schedule_for_day (weekday class_date) !! idx = Some class_time ->
     ms_block_number class_date class_time = Ret (Z.of_nat idx + 1)) /\
  (forall class_time,
     class_time ∉ MS.get_schedule_for_day (weekday class_date) ->
     ms_block_number class_date class_time = Raise ValueError).
Proof.
  split.
  - intros idx ct H. unfold ms_block_number.
    rewrite (slot_index_of_lookup _ idx ct); [reflexivity | | exact H].
    right. eexists. reflexivity.
  - intros ct H. unfold ms_block_number. now rewrite slot_index_of_absent.
Qed.

Lemma ms_block_number_round_trip_witness :
  ms_block_number (mkdate 2025 9 4) (mkClassTime (mktime 11 10) (mktime 12 5)) = Ret (2 + 1).
Proof.
  apply (proj1 (ms_block_number_round_trip (mkdate 2025 9 4)) 2%nat).
  reflexivity.
Defined.

End ReminderTime.

(** * The monitoring loops *)

Section Passes.

Lemma get_letter_day_det fuel d l : valid d -> get_letter_day fuel d = Ret l -> l = letterDay d.
Proof.
  intros Hd H.
  assert (Hmax : get_letter_day (Nat.max fuel (letter_fuel d)) d = Ret l).
  { rewrite <- H. apply get_letter_day_more_fuel; [lia|]. unfold finished. now rewrite H. }
  rewrite get_letter_day_letterDay in Hmax by (trivial; lia). congruence.
Qed.

Lemma get_letter_day_no_raise fuel d e : valid d -> get_letter_day fuel d <> Raise e.
Proof.
  intros Hd H.
  assert (Hmax : get_letter_day (Nat.max fuel (letter_fuel d)) d = Raise e).
  { rewrite <- H. apply get_letter_day_more_fuel; [lia|]. unfold finished. now rewrite H. }
  rewrite get_letter_day_letterDay in Hmax by (trivial; lia). discriminate.
Qed.

Lemma time_eqb_minutes a b : valid_time a -> valid_time b ->
  (hour a =? hour b) && (minute a =? minute b) = (minutes_of a =? minutes_of b).
Proof.
  intros [Ha Ha'] [Hb Hb']. unfold minutes_of.
  destruct (Z.eqb_spec (hour a) (hour b)), (Z.eqb_spec (minute a) (minute b)),
    (Z.eqb_spec (hour a * 60 + minute a) (hour b * 60 + minute b)); cbn; trivial; lia.
Qed.

(** What a single-period pass does once the clock is on a date and the
    slot list of that date is known. *)
Lemma period_pass_tail (slots : list ClassTime) (period : Z) (now : clock) d :
  is_slot_table slots -> valid d -> valid (today now) -> valid_time (now_time now) ->
  (list_contains period (periodsFor (letterDay d)) = false ->
     (if list_contains period (periodsFor (letterDay d)) then
        do idx <- list_index period (periodsFor (letterDay d));
        if (idx <? length slots)%nat then
          do class_time <- list_getitem slots idx;
          do reminder <- reminder_time (today now) class_time 5;
          if (hour (now_time now) =? hour reminder) &&
             (minute (now_time now) =? minute reminder)
          then Ret (Some (d, class_time)) else Ret None
        else Ret None
      else Ret None) = Ret None) /\
  (list_contains period (periodsFor (letterDay d)) = true ->
     exists idx class_time,
       periodsFor (letterDay d) !! idx = Some period /\
       slots !! idx = Some class_time /\
       (if list_contains period (periodsFor (letterDay d)) then
          do idx <- list_index period (periodsFor (letterDay d));
          if (idx <? length slots)%nat then
            do class_time <- list_getitem slots idx;
            do reminder <- reminder_time (today now) class_time 5;
            if (hour (now_time now) =? hour reminder) &&
               (minute (now_time now) =? minute reminder)
            then Ret (Some (d, class_time)) else Ret None
          else Ret None
        else Ret None) =
       Ret (if minutes_of (now_time now) =? minutes_of (end_ class_time) - 5
            then Some (d, class_time) else None)).
Proof.
  intros Hs Hd Ht Hn. split; intros Hc; rewrite Hc; [reflexivity|].
  destruct (list_index_spec _ _ Hc) as (idx & Hi & Hl & Hlen & _).
  rewrite periodsFor_letterDay_length in Hlen by trivial.
  destruct (slot_table_checks slots Hs) as (Hlen5 & _ & _).
  destruct (list_getitem_lt slots idx ltac:(lia)) as (ct & Hct & Hg).
  destruct (slot_reminder slots ct (today now) Hs ltac:(eapply list_elem_of_lookup_2; eauto) Ht)
    as (r & Hr & Hvr & Hmr & _).
  exists idx, ct. split_and!; trivial.
  rewrite Hi. cbn [obind]. rewrite Hlen5.
  destruct (Nat.ltb_spec idx 5); [|lia].
  rewrite Hg. cbn [obind]. rewrite Hr. cbn [obind].
  rewrite time_eqb_minutes by trivial. rewrite Hmr. unfold due_minute.
  destruct (minutes_of (now_time now) =? minutes_of (end_ ct) - 5); reflexivity.
Qed.

(** X5: one pass of [ReminderApp._run_loop] calls [show_reminder]
    exactly when the date of the clock is a school day on which the
    student's period meets and the hour and minute of the clock are
    five minutes before the end of the block the period has that day;
    it passes that date and that block.  On any other date or minute
    it does nothing, and it never raises. *)
Theorem ReminderApp_pass_fires g fuel self now :
  valid (now_date now) -> valid (today now) -> valid_time (now_time now) ->
  (letter_fuel (now_date now) <= fuel)%nat ->
  (meets (ra_period self) (now_date now) = false ->
     ReminderApp_pass g fuel self now = Ret None) /\
  (meets (ra_period self) (now_date now) = true ->
     exists idx class_time,
       periodsFor (letterDay (now_date now)) !! idx = Some (ra_period self) /\
       get_time_slots g (weekday (now_date now) =? 2) (Some (ra_lunch_option self)) !! idx
         = Some class_time /\
       ReminderApp_pass g fuel self now =
         Ret (if minutes_of (now_time now) =? minutes_of (end_ class_time) - 5
              then Some (now_date now, class_time) else None)).
Proof.
  intros Hd Ht Hn Hf. unfold ReminderApp_pass, meets, is_school_day.
  destruct (weekday (now_date now) <? 5); cbn [andb].
  2:{ split; [reflexivity | discriminate]. }
  rewrite get_letter_day_letterDay by trivial. cbn [obind].
  fold (periodsFor (letterDay (now_date now))).
  apply (period_pass_tail _ (ra_period self) now (now_date now)); trivial.
  left. eauto.
Qed.

Lemma ReminderApp_pass_fires_witness :
  exists idx class_time,
    periodsFor (letterDay (mkdate 2025 8 15)) !! idx = Some 7 /\
    get_time_slots initial_globals (weekday (mkdate 2025 8 15) =? 2) (Some "2"%string) !! idx
      = Some class_time /\
    ReminderApp_pass initial_globals 5 (mkReminderApp 7 "2")
        (mkclock (mkdate 2025 8 15) (mktime 10 30) (mkdate 2025 8 15)) =
      Ret (if minutes_of (mktime 10 30) =? minutes_of (end_ class_time) - 5
           then Some (mkdate 2025 8 15, class_time) else None).
Proof.
  apply (ReminderApp_pass_fires initial_globals 5 (mkReminderApp 7 "2")
           (mkclock (mkdate 2025 8 15) (mktime 10 30) (mkdate 2025 8 15))).
  - apply validb_spec. reflexivity.
  - apply validb_spec. reflexivity.
  - vm_compute. repeat split; discriminate.
  - vm_compute. lia.
  - reflexivity.
Defined.

(** X6: the same for [StudentReminderApp._run_loop] of the middle
    school, with the blocks of [get_schedule_for_day]. *)
Theorem ms_StudentReminderApp_pass_fires fuel self now :
  valid (now_date now) -> valid (today now) -> valid_time (now_time now) ->
  (letter_fuel (now_date now) <= fuel)%nat ->
  (meets (MS.app_period self) (now_date now) = false ->
     ms_StudentReminderApp_pass fuel self now = Ret None) /\
  (meets (MS.app_period self) (now_date now) = true ->
     exists idx class_time,
       periodsFor (letterDay (now_date now)) !! idx = Some (MS.app_period self) /\
       MS.get_schedule_for_day (weekday (now_date now)) !! idx = Some class_time /\
       ms_StudentReminderApp_pass fuel self now =
         Ret (if minutes_of (now_time now) =? minutes_of (end_ class_time) - 5
              then Some (now_date now, class_time) else None)).
Proof.
  intros Hd Ht Hn Hf. unfold ms_StudentReminderApp_pass, MS.get_letter_day, meets, is_school_day.
  destruct (weekday (now_date now) <? 5); cbn [andb].
  2:{ split; [reflexivity | discriminate]. }
  rewrite get_letter_day_letterDay by trivial. cbn [obind].
  fold (periodsFor (letterDay (now_date now))).
  apply (period_pass_tail _ (MS.app_period self) now (now_date now)); trivial.
  right. eauto.
Qed.

Lemma ms_StudentReminderApp_pass_fires_witness :
  ms_StudentReminderApp_pass 5 (MS.mkapp 4)
    (mkclock (mkdate 2025 8 15) (mktime 10 30) (mkdate 2025 8 15)) = Ret None.
Proof.
  apply (ms_StudentReminderApp_pass_fires 5 (MS.mkapp 4)
           (mkclock (mkdate 2025 8 15) (mktime 10 30) (mkdate 2025 8 15))).
  - apply validb_spec. reflexivity.
  - apply validb_spec. reflexivity.
  - vm_compute. repeat split; discriminate.
  - vm_compute. lia.
  - reflexivity.
Defined.

End Passes.

(** * The all-classes loops and their [triggered] dictionary *)

Section AllClasses.

Lemma keep_today_lookup (d : date) (p : Z) (tr : gmap (date * Z) bool) :
  keep_today d tr !! (d, p) = tr !! (d, p).
Proof.
  unfold keep_today. destruct (tr !! (d, p)) as [b|] eqn:E.
  - apply map_lookup_filter_Some. split; [exact E | reflexivity].
  - apply map_lookup_filter_None. left. exact E.
Qed.


(** What the scan does to the dictionary, whatever the blocks are. *)
Lemma scan_blocks_marks (now : clock) (order : list Z) : forall slots (tr : gmap (date * Z) bool) idx tr' ev,
  scan_blocks now order tr idx slots = Ret (tr', ev) ->
  match ev with
  | None => tr' = tr
  | Some (d, p, ct) =>
      d = now_date now /\ default false (tr !! (d, p)) = false /\
      tr' = <[(d, p) := true]> tr
  end.
Proof.
  induction slots as [|ct slots IH]; intros tr idx tr' ev; cbn [scan_blocks].
  - intros [= <- <-]. reflexivity.
  - destruct (length order <=? idx)%nat; [intros [= <- <-]; reflexivity|].
    destruct (list_getitem order idx) as [p| |]; cbn [obind]; try discriminate.
    destruct (reminder_time (today now) ct 5) as [r| |]; cbn [obind]; try discriminate.
    destruct ((hour (now_time now) =? hour r) && (minute (now_time now) =? minute r));
      cbn [andb]; [|apply IH].
    destruct (default false (tr !! (now_date now, p))) eqn:E; cbn [negb]; [apply IH|].
    intros [= <- <-]. auto.
Qed.

Lemma reminder_of_checked today s : valid today -> slot_checks s = true ->
  exists r, reminder_time today s 5 = Ret r /\ valid_time r /\ minutes_of r = due_minute s.
Proof.
  intros Ht Hs. pose proof (slot_checks_spec s Hs) as (_ & He & _ & Hge).
  unfold due_minute in *. apply reminder_time_same_day; trivial. lia.
Qed.

Lemma due_increasing_tail a l : due_increasing (a :: l) = true -> due_increasing l = true.
Proof.
  destruct l as [|b l]; [reflexivity|]. cbn [due_increasing].
  intros H. apply andb_true_iff in H. tauto.
Qed.

(** The scan finds the block that is due. *)
Lemma scan_blocks_sound (now : clock) (order : list Z) : forall slots (tr : gmap (date * Z) bool) idx tr' d (p : Z) ct,
  valid (today now) -> valid_time (now_time now) -> forallb slot_checks slots = true ->
  scan_blocks now order tr idx slots = Ret (tr', Some (d, p, ct)) ->
  exists k, slots !! k = Some ct /\ order !! (idx + k)%nat = Some p /\
            minutes_of (now_time now) = due_minute ct.
Proof.
  induction slots as [|s slots IH]; intros tr idx tr' d p ct Ht Hn Hall; cbn [scan_blocks].
  - discriminate.
  - cbn [forallb] in Hall. apply andb_true_iff in Hall. destruct Hall as [Hs Hall].
    destruct (length order <=? idx)%nat; [discriminate|].
    unfold list_getitem at 1. destruct (order !! idx) as [q|] eqn:Eq; cbn [obind];
      [|discriminate].
    destruct (reminder_of_checked (today now) s Ht Hs) as (r & Hr & Hvr & Hmr).
    rewrite Hr. cbn [obind]. rewrite time_eqb_minutes by trivial. rewrite Hmr.
    destruct (Z.eqb_spec (minutes_of (now_time now)) (due_minute s)) as [Hdue|Hdue];
      cbn [andb].
    + destruct (default false (tr !! (now_date now, q))); cbn [negb].
      * intros H. destruct (IH _ _ _ _ _ _ Ht Hn Hall H) as (k & H1 & H2 & H3).
        exists (S k). rewrite <- H2. split_and!; trivial. f_equal. lia.
      * intros [= <- <- <- <-]. exists 0%nat. rewrite Nat.add_0_r. auto.
    + intros H. destruct (IH _ _ _ _ _ _ Ht Hn Hall H) as (k & H1 & H2 & H3).
      exists (S k). rewrite <- H2. split_and!; trivial. f_equal. lia.
Qed.

(** The block that is due is found, unless its key is already
    triggered. *)
Lemma scan_blocks_due (now : clock) (order : list Z) (tr : gmap (date * Z) bool) :
  forall slots idx k ct (p : Z),
  valid (today now) -> valid_time (now_time now) ->
  forallb slot_checks slots = true -> due_increasing slots = true ->
  slots !! k = Some ct -> order !! (idx + k)%nat = Some p ->
  minutes_of (now_time now) = due_minute ct ->
  scan_blocks now order tr idx slots =
    if default false (tr !! (now_date now, p))
    then Ret (tr, None)
    else Ret (<[(now_date now, p) := true]> tr, Some (now_date now, p, ct)).
Proof.
  induction slots as [|s slots IH]; intros idx k ct p Ht Hn Hall Hinc Hk Ho Hdue;
    [discriminate|].
  cbn [forallb] in Hall. apply andb_true_iff in Hall. destruct Hall as [Hs Hall].
  destruct (reminder_of_checked (today now) s Ht Hs) as (r & Hr & Hvr & Hmr).
  assert (Hidx : (idx < length order)%nat).
  { apply lookup_lt_Some in Ho. lia. }
  cbn [scan_blocks]. destruct (Nat.leb_spec (length order) idx); [lia|].
  destruct (list_getitem_lt order idx Hidx) as (q & Hq & Hg). rewrite Hg. cbn [obind].
  rewrite Hr. cbn [obind]. rewrite time_eqb_minutes by trivial. rewrite Hmr.
  destruct k as [|k].
  - cbn in Hk. injection Hk as ->. rewrite Nat.add_0_r in Ho.
    assert (q = p) as -> by congruence.
    rewrite Hdue, Z.eqb_refl. cbn [andb].
    destruct (default false (tr !! (now_date now, p))) eqn:E; cbn [negb]; [|reflexivity].
    (* already triggered: no later block is due in this minute *)
    assert (Hlater : forall j s', slots !! j = Some s' -> due_minute ct < due_minute s').
    { intros j s' Hj. apply (due_increasing_lookup (ct :: slots) Hinc 0 (S j)); trivial. lia. }
    clear IH Hg Hq Ho Hidx Hinc. revert Hall. generalize (S idx).
    induction slots as [|s' slots IHs]; intros n Hall; [reflexivity|].
    cbn [forallb] in Hall. apply andb_true_iff in Hall. destruct Hall as [Hs' Hall].
    cbn [scan_blocks]. destruct (Nat.leb_spec (length order) n) as [Hn'|Hn']; [reflexivity|].
    destruct (list_getitem_lt order n Hn') as (q' & _ & Hg'). rewrite Hg'. cbn [obind].
    destruct (reminder_of_checked (today now) s' Ht Hs') as (r' & Hr' & Hvr' & Hmr').
    rewrite Hr'. cbn [obind]. rewrite time_eqb_minutes by trivial. rewrite Hmr'.
    pose proof (Hlater 0%nat s' eq_refl) as Hlt.
    destruct (Z.eqb_spec (minutes_of (now_time now)) (due_minute s')); [lia|].
    cbn [andb]. apply IHs; trivial.
    intros j s'' Hj. apply (Hlater (S j)). exact Hj.
  - cbn in Hk.
    pose proof (due_increasing_lookup (s :: slots) Hinc 0 (S k) s ct ltac:(lia) eq_refl Hk)
      as Hlt.
    destruct (Z.eqb_spec (minutes_of (now_time now)) (due_minute s)); [lia|].
    cbn [andb]. apply (IH (S idx) k); trivial.
    + now apply due_increasing_tail in Hinc.
    + rewrite <- Ho. f_equal. lia.
Qed.

(** When no block is due the scan changes nothing. *)
Lemma scan_blocks_idle (now : clock) (order : list Z) (tr : gmap (date * Z) bool) :
  forall slots idx,
  valid (today now) -> valid_time (now_time now) -> forallb slot_checks slots = true ->
  (forall s, s ∈ slots -> minutes_of (now_time now) <> due_minute s) ->
  scan_blocks now order tr idx slots = Ret (tr, None).
Proof.
  induction slots as [|s slots IH]; intros idx Ht Hn Hall Hno; [reflexivity|].
  cbn [forallb] in Hall. apply andb_true_iff in Hall. destruct Hall as [Hs Hall].
  cbn [scan_blocks]. destruct (Nat.leb_spec (length order) idx); [reflexivity|].
  destruct (list_getitem_lt order idx ltac:(lia)) as (q & Hq & Hg). rewrite Hg. cbn [obind].
  destruct (reminder_of_checked (today now) s Ht Hs) as (r & Hr & Hvr & Hmr).
  rewrite Hr. cbn [obind]. rewrite time_eqb_minutes by trivial. rewrite Hmr.
  destruct (Z.eqb_spec (minutes_of (now_time now)) (due_minute s)) as [E|E].
  - exfalso. apply (Hno s); [left | exact E].
  - cbn [andb]. apply IH; trivial. intros s' Hs'. apply Hno. now right.
Qed.

Lemma AllClassesApp_pass_marks g fuel self now self' ev :
  AllClassesApp_pass g fuel self now = Ret (self', ev) ->
  aca_lunch_option self' = aca_lunch_option self /\
  match ev with
  | None => aca_triggered self' = keep_today (now_date now) (aca_triggered self)
  | Some (d, p, ct) =>
      d = now_date now /\ weekday d < 5 /\
      default false (aca_triggered self !! (d, p)) = false /\
      aca_triggered self' = <[(d, p) := true]> (keep_today d (aca_triggered self))
  end.
Proof.
  unfold AllClassesApp_pass. cbv zeta.
  destruct (Z.ltb_spec (weekday (now_date now)) 5) as [Hw|Hw].
  - destruct (get_letter_day fuel (now_date now)) as [letter| |]; cbn [obind]; try discriminate.
    destruct (scan_blocks now _ _ 0 _) as [[tr' ev']| |] eqn:E; cbn [obind]; try discriminate.
    cbn [fst snd]. intros [= <- <-]. cbn [aca_lunch_option aca_triggered].
    split; [reflexivity|]. apply scan_blocks_marks in E.
    destruct ev' as [[[d p] ct]|]; [|exact E].
    destruct E as (-> & Hnot & ->). rewrite keep_today_lookup in Hnot. auto.
  - intros [= <- <-]. cbn [aca_lunch_option aca_triggered]. auto.
Qed.

(** X7: on a school day, in the minute five minutes before the end of
    the block at index [idx], one pass of [AllClassesApp._run_loop]
    shows the reminder of the period that has that block (with the date
    and the block) and marks the key of the date and period as
    triggered; when the key is already triggered it shows nothing.  In
    both cases the dictionary keeps only keys of the current date. *)
Theorem AllClassesApp_pass_due g fuel self now idx (p : Z) ct :
  valid (now_date now) -> valid (today now) -> valid_time (now_time now) ->
  (letter_fuel (now_date now) <= fuel)%nat -> weekday (now_date now) < 5 ->
  periodsFor (letterDay (now_date now)) !! idx = Some p ->
  get_time_slots g (weekday (now_date now) =? 2) (Some (aca_lunch_option self)) !! idx
    = Some ct ->
  minutes_of (now_time now) = minutes_of (end_ ct) - 5 ->
  AllClassesApp_pass g fuel self now =
    if default false (aca_triggered self !! (now_date now, p))
    then Ret ({| aca_lunch_option := aca_lunch_option self;
                 aca_triggered := keep_today (now_date now) (aca_triggered self) |}, None)
    else Ret ({| aca_lunch_option := aca_lunch_option self;
                 aca_triggered :=
                   <[(now_date now, p) := true]>
                     (keep_today (now_date now) (aca_triggered self)) |},
              Some (now_date now, p, ct)).
Proof.
  intros Hd Ht Hn Hf Hw Hp Hct Hdue. unfold AllClassesApp_pass. cbv zeta.
  destruct (Z.ltb_spec (weekday (now_date now)) 5); [|lia].
  rewrite get_letter_day_letterDay by trivial. cbn [obind].
  fold (periodsFor (letterDay (now_date now))).
  set (slots := get_time_slots g (weekday (now_date now) =? 2) (Some (aca_lunch_option self)))
    in *.
  assert (Hs : is_slot_table slots) by (left; unfold slots; eauto).
  destruct (slot_table_checks slots Hs) as (_ & Hall & Hinc).
  rewrite (scan_blocks_due now _ _ slots 0 idx ct p); trivial.
  rewrite keep_today_lookup.
  destruct (default false (aca_triggered self !! (now_date now, p))); reflexivity.
Qed.

Lemma AllClassesApp_pass_due_witness :
  AllClassesApp_pass initial_globals 5 (AllClassesApp_init initial_globals (Some "1"%string))
      (mkclock (mkdate 2025 8 15) (mktime 13 0) (mkdate 2025 8 15)) =
    if default false
         (aca_triggered (AllClassesApp_init initial_globals (Some "1"%string))
            !! (mkdate 2025 8 15, 1))
    then Ret ({| aca_lunch_option := "1";
                 aca_triggered := keep_today (mkdate 2025 8 15) ∅ |}, None)
    else Ret ({| aca_lunch_option := "1";
                 aca_triggered :=
                   <[(mkdate 2025 8 15, 1) := true]> (keep_today (mkdate 2025 8 15) ∅) |},
              Some (mkdate 2025 8 15, 1, first_lunch_slot)).
Proof.
  apply (AllClassesApp_pass_due initial_globals 5
           (AllClassesApp_init initial_globals (Some "1"%string))
           (mkclock (mkdate 2025 8 15) (mktime 13 0) (mkdate 2025 8 15)) 2 1 first_lunch_slot).
  - apply validb_spec. reflexivity.
  - apply validb_spec. reflexivity.
  - vm_compute. repeat split; discriminate.
  - vm_compute. lia.
  - vm_compute. reflexivity.
  - reflexivity.
  - reflexivity.
  - reflexivity.
Defined.

(** X8: whenever a pass of [AllClassesApp._run_loop] shows a reminder,
    it is on a school day, for the period at some index [idx] of the
    period order of the date, with the block at the same index of the
    slot list, in the minute five minutes before the end of that block,
    for a key that was not triggered and is triggered afterwards. *)
Theorem AllClassesApp_pass_shown g fuel self now self' d (p : Z) ct :
  valid (now_date now) -> valid (today now) -> valid_time (now_time now) ->
  AllClassesApp_pass g fuel self now = Ret (self', Some (d, p, ct)) ->
  d = now_date now /\ weekday d < 5 /\
  (exists idx,
     periodsFor (letterDay d) !! idx = Some p /\
     get_time_slots g (weekday d =? 2) (Some (aca_lunch_option self)) !! idx = Some ct) /\
  minutes_of (now_time now) = minutes_of (end_ ct) - 5 /\
  default false (aca_triggered self !! (d, p)) = false /\
  aca_triggered self' !! (d, p) = Some true.
Proof.
  intros Hd Ht Hn H. pose proof (AllClassesApp_pass_marks _ _ _ _ _ _ H)
    as (_ & -> & Hw & Hnot & Htr).
  split_and!; trivial.
  - revert H. unfold AllClassesApp_pass. cbv zeta.
    destruct (Z.ltb_spec (weekday (now_date now)) 5); [|lia].
    destruct (get_letter_day fuel (now_date now)) as [letter| |] eqn:El; cbn [obind];
      try discriminate.
    apply get_letter_day_det in El; trivial. subst letter.
    fold (periodsFor (letterDay (now_date now))).
    destruct (scan_blocks now _ _ 0 _) as [[tr' ev']| |] eqn:E; cbn [obind]; try discriminate.
    cbn [fst snd]. intros [= _ ->].
    apply scan_blocks_sound in E; trivial.
    + destruct E as (k & H1 & H2 & _). exists k. auto.
    + apply slot_table_checks. left. eauto.
  - revert H. unfold AllClassesApp_pass. cbv zeta.
    destruct (Z.ltb_spec (weekday (now_date now)) 5); [|lia].
    destruct (get_letter_day fuel (now_date now)) as [letter| |] eqn:El; cbn [obind];
      try discriminate.
    destruct (scan_blocks now _ _ 0 _) as [[tr' ev']| |] eqn:E; cbn [obind]; try discriminate.
    cbn [fst snd]. intros [= _ ->].
    apply scan_blocks_sound in E; trivial.
    + destruct E as (k & _ & _ & H3). exact H3.
    + apply slot_table_checks. left. eauto.
  - rewrite Htr. apply lookup_insert_eq.
Qed.

Lemma AllClassesApp_pass_shown_witness :
  mkdate 2025 8 15 = mkdate 2025 8 15 /\ weekday (mkdate 2025 8 15) < 5 /\
  (exists idx,
     periodsFor (letterDay (mkdate 2025 8 15)) !! idx = Some 1 /\
     get_time_slots initial_globals (weekday (mkdate 2025 8 15) =? 2) (Some "1"%string) !! idx
       = Some first_lunch_slot) /\
  minutes_of (mktime 13 0) = minutes_of (end_ first_lunch_slot) - 5 /\
  default false ((∅ : gmap (date * Z) bool) !! (mkdate 2025 8 15, 1)) = false /\
  (<[(mkdate 2025 8 15, 1) := true]> (keep_today (mkdate 2025 8 15) ∅)
     : gmap (date * Z) bool) !! (mkdate 2025 8 15, 1) = Some true.
Proof.
  refine (AllClassesApp_pass_shown initial_globals 5
           (AllClassesApp_init initial_globals (Some "1"%string))
           (mkclock (mkdate 2025 8 15) (mktime 13 0) (mkdate 2025 8 15))
           {| aca_lunch_option := "1";
              aca_triggered :=
                <[(mkdate 2025 8 15, 1) := true]> (keep_today (mkdate 2025 8 15) ∅) |}
           (mkdate 2025 8 15) 1 first_lunch_slot _ _ _ _).
  - apply validb_spec. reflexivity.
  - apply validb_spec. reflexivity.
  - vm_compute. repeat split; discriminate.
  - reflexivity.
Defined.



Lemma AllClassesApp_run_once g fuel : forall readings self self' events (D : date),
  Forall (fun c => now_date c = D) readings ->
  AllClassesApp_run g fuel self readings = Ret (self', events) ->
  NoDup (map (fun e : shown => snd (fst e)) events) /\
  (forall e : shown, e ∈ events ->
     fst (fst e) = D /\
     default false (aca_triggered self !! (D, snd (fst e))) = false /\
     aca_triggered self' !! (D, snd (fst e)) = Some true) /\
  (forall p : Z, aca_triggered self !! (D, p) = Some true ->
     aca_triggered self' !! (D, p) = Some true).
Proof.
  induction readings as [|now readings IH]; intros self self' events D Hall;
    cbn [AllClassesApp_run].
  - intros [= <- <-]. split_and!; [constructor | intros e He; inversion He | auto].
  - apply Forall_cons in Hall. destruct Hall as [Hnow Hall].
    destruct (AllClassesApp_pass g fuel self now) as [[self1 ev]| |] eqn:Ep; cbn [obind];
      try discriminate.
    cbn [fst snd].
    destruct (AllClassesApp_run g fuel self1 readings) as [[self2 events']| |] eqn:Er;
      cbn [obind]; try discriminate.
    cbn [fst snd]. intros [= <- <-].
    destruct (IH _ _ _ D Hall Er) as (Hnd & Hev & Hkeep).
    pose proof (AllClassesApp_pass_marks _ _ _ _ _ _ Ep) as (_ & Hm).
    assert (Hstep : forall p : Z, aca_triggered self !! (D, p) = Some true ->
                              aca_triggered self1 !! (D, p) = Some true).
    { intros p Hp. destruct ev as [[[d0 p0] ct]|].
      - destruct Hm as (-> & _ & _ & ->). rewrite Hnow.
        destruct (decide ((D, p0) = (D, p))) as [Heq|Hne].
        + rewrite Heq. apply lookup_insert_eq.
        + rewrite lookup_insert_ne by exact Hne. now rewrite keep_today_lookup.
      - rewrite Hm, Hnow. now rewrite keep_today_lookup. }
    assert (Hback : forall p : Z, default false (aca_triggered self1 !! (D, p)) = false ->
                              default false (aca_triggered self !! (D, p)) = false).
    { intros p Hp. destruct (aca_triggered self !! (D, p)) as [[|]|] eqn:E; trivial.
      rewrite (Hstep p E) in Hp. discriminate. }
    destruct ev as [[[d0 p0] ct]|].
    + destruct Hm as (-> & _ & Hnot & Htr). rewrite Hnow in *.
      assert (H1 : aca_triggered self1 !! (D, p0) = Some true)
        by (rewrite Htr; apply lookup_insert_eq).
      split_and!.
      * cbn [map fst snd]. constructor; [|exact Hnd].
        intros Hin. apply list_elem_of_fmap in Hin. destruct Hin as (e & Hp & He).
        destruct (Hev e He) as (_ & Hfalse & _). cbn in Hp. rewrite <- Hp in Hfalse.
        rewrite H1 in Hfalse. discriminate.
      * intros e He. apply elem_of_cons in He. destruct He as [-> | He].
        -- cbn [fst snd]. split_and!; [reflexivity | exact Hnot | now apply Hkeep].
        -- destruct (Hev e He) as (Hd & Hfalse & Htrue). split_and!; auto.
      * intros p Hp. apply Hkeep, Hstep, Hp.
    + split_and!; trivial.
      * intros e He. destruct (Hev e He) as (Hd & Hfalse & Htrue). split_and!; auto.
      * intros p Hp. apply Hkeep, Hstep, Hp.
Qed.

(** X10: while the clock stays on one date, the passes of
    [AllClassesApp._run_loop] never show the reminder of a period
    twice: in any run over readings of one date the periods of the
    reminders shown are pairwise different, each reminder has that
    date, its key was not triggered before the run and is triggered
    after it. *)
Theorem AllClassesApp_run_no_repeat g fuel readings self self' events (D : date) :
  Forall (fun c => now_date c = D) readings ->
  AllClassesApp_run g fuel self readings = Ret (self', events) ->
  NoDup (map (fun e : shown => snd (fst e)) events) /\
  (forall e : shown, e ∈ events ->
     fst (fst e) = D /\
     default false (aca_triggered self !! (D, snd (fst e))) = false /\
     aca_triggered self' !! (D, snd (fst e)) = Some true).
Proof.
  intros Hall Hrun. destruct (AllClassesApp_run_once g fuel readings _ _ _ D Hall Hrun)
    as (H1 & H2 & _). auto.
Qed.

Lemma AllClassesApp_run_no_repeat_witness :
  NoDup (map (fun e : shown => snd (fst e)) [(mkdate 2025 8 15, 1, first_lunch_slot)]) /\
  (forall e : shown, e ∈ [(mkdate 2025 8 15, 1, first_lunch_slot)] ->
     fst (fst e) = mkdate 2025 8 15 /\
     default false
       (aca_triggered (AllClassesApp_init initial_globals (Some "1"%string))
          !! (mkdate 2025 8 15, snd (fst e))) = false /\
     aca_triggered
       {| aca_lunch_option := "1";
          aca_triggered :=
            keep_today (mkdate 2025 8 15)
              (<[(mkdate 2025 8 15, 1) := true]> (keep_today (mkdate 2025 8 15) ∅)) |}
       !! (mkdate 2025 8 15, snd (fst e)) = Some true).
Proof.
  assert (Hall : Forall (fun c => now_date c = mkdate 2025 8 15)
            [mkclock (mkdate 2025 8 15) (mktime 13 0) (mkdate 2025 8 15);
             mkclock (mkdate 2025 8 15) (mktime 13 0) (mkdate 2025 8 15)]).
  { apply Forall_cons. split; [reflexivity|]. apply Forall_cons. split; [reflexivity|].
    apply Forall_nil_2. }
  assert (Hrun :
    AllClassesApp_run initial_globals 5 (AllClassesApp_init initial_globals (Some "1"%string))
      [mkclock (mkdate 2025 8 15) (mktime 13 0) (mkdate 2025 8 15);
       mkclock (mkdate 2025 8 15) (mktime 13 0) (mkdate 2025 8 15)] =
    Ret ({| aca_lunch_option := "1";
            aca_triggered :=
              keep_today (mkdate 2025 8 15)
                (<[(mkdate 2025 8 15, 1) := true]> (keep_today (mkdate 2025 8 15) ∅)) |},
         [(mkdate 2025 8 15, 1, first_lunch_slot)])).
  { vm_compute. reflexivity. }
  exact (AllClassesApp_run_no_repeat _ _ _ _ _ _ _ Hall Hrun).
Defined.

(** X11: the same for [AllClassesReminderApp._run_loop] of the middle
    school: on a school day, in the minute five minutes before the end
    of the block at index [idx] of [get_schedule_for_day], a pass shows
    the reminder of the period at index [idx] of the period order and
    marks its key, unless the key is already triggered. *)
Theorem ms_AllClasses_pass_due (fuel : nat) (triggered : gmap (date * Z) bool)
    (now : clock) (idx : nat) (p : Z) (ct : ClassTime) :
  valid (now_date now) -> valid (today now) -> valid_time (now_time now) ->
  (letter_fuel (now_date now) <= fuel)%nat -> weekday (now_date now) < 5 ->
  periodsFor (letterDay (now_date now)) !! idx = Some p ->
  MS.get_schedule_for_day (weekday (now_date now)) !! idx = Some ct ->
  minutes_of (now_time now) = minutes_of (end_ ct) - 5 ->
  ms_AllClasses_pass fuel triggered now =
    if default false (triggered !! (now_date now, p))
    then Ret (keep_today (now_date now) triggered, None)
    else Ret (<[(now_date now, p) := true]> (keep_today (now_date now) triggered),
              Some (now_date now, p, ct)).
Proof.
  intros Hd Ht Hn Hf Hw Hp Hct Hdue. unfold ms_AllClasses_pass, MS.get_letter_day. cbv zeta.
  destruct (Z.ltb_spec (weekday (now_date now)) 5); [|lia].
  rewrite get_letter_day_letterDay by trivial. cbn [obind].
  fold (periodsFor (letterDay (now_date now))).
  set (slots := MS.get_schedule_for_day (weekday (now_date now))) in *.
  assert (Hs : is_slot_table slots) by (right; unfold slots; eauto).
  destruct (slot_table_checks slots Hs) as (_ & Hall & Hinc).
  rewrite (scan_blocks_due now _ _ slots 0 idx ct p); trivial.
  rewrite keep_today_lookup.
  destruct (default false (triggered !! (now_date now, p))); reflexivity.
Qed.

Lemma ms_AllClasses_pass_due_witness :
  ms_AllClasses_pass 5 ∅ (mkclock (mkdate 2025 8 15) (mktime 12 0) (mkdate 2025 8 15)) =
    if default false ((∅ : gmap (date * Z) bool) !! (mkdate 2025 8 15, 1))
    then Ret (keep_today (mkdate 2025 8 15) ∅, None)
    else Ret (<[(mkdate 2025 8 15, 1) := true]> (keep_today (mkdate 2025 8 15) ∅),
              Some (mkdate 2025 8 15, 1, mkClassTime (mktime 11 10) (mktime 12 5))).
Proof.
  apply (ms_AllClasses_pass_due 5 ∅
           (mkclock (mkdate 2025 8 15) (mktime 12 0) (mkdate 2025 8 15)) 2 1
           (mkClassTime (mktime 11 10) (mktime 12 5))).
  - apply validb_spec. reflexivity.
  - apply validb_spec. reflexivity.
  - vm_compute. repeat split; discriminate.
  - vm_compute. lia.
  - vm_compute. reflexivity.
  - reflexivity.
  - reflexivity.
  - reflexivity.
Defined.

End AllClasses.

(** * More on the forward search *)

Section SearchSound.

Variable slots_for : date -> list ClassTime.
Hypothesis slots_for_length : forall d, length (slots_for d) = 5%nat.

Lemma search_body_cases fuel p c r : valid c -> weekday c < 5 ->
  search_body slots_for fuel p c = Ret r ->
  match r with
  | None => meets p c = false
  | Some (d, slot) =>
      d = c /\ meets p c = true /\
      exists idx, periodsFor (letterDay c) !! idx = Some p /\
                  (forall j, (j < idx)%nat -> periodsFor (letterDay c) !! j <> Some p) /\
                  slots_for c !! idx = Some slot
  end.
Proof.
  intros Hc Hw. unfold search_body, meets, is_school_day.
  destruct (Z.ltb_spec (weekday c) 5); [|lia]. cbn [andb].
  destruct (get_letter_day fuel c) as [letter| |] eqn:El; cbn [obind]; try discriminate.
  apply get_letter_day_det in El; trivial. subst letter.
  fold (periodsFor (letterDay c)).
  destruct (list_contains p (periodsFor (letterDay c))) eqn:Ec.
  - destruct (list_index_spec _ _ Ec) as (idx & Hi & Hl & Hlen & Hmin).
    rewrite periodsFor_letterDay_length in Hlen by trivial.
    rewrite Hi. cbn [obind]. rewrite slots_for_length.
    destruct (Nat.ltb_spec idx 5); [|lia].
    destruct (list_getitem_lt (slots_for c) idx) as (slot & Hs & Hg);
      [rewrite slots_for_length; lia|].
    rewrite Hg. cbn [obind]. intros [= <-]. split_and!; trivial. exists idx. auto.
  - intros [= <-]. reflexivity.
Qed.

(** Whatever the loop returns is the first day on which the period
    meets, with the slot of the period on that day. *)
Lemma search_loop_sound fuel p n : forall c d slot, valid c ->
  search_loop slots_for fuel n p c = Ret (d, slot) ->
  exists k idx,
    toordinal c + Z.of_nat k <= MAXORDINAL /\ d = nth_day c k /\
    meets p d = true /\
    (forall j, (j < k)%nat -> meets p (nth_day c j) = false) /\
    periodsFor (letterDay d) !! idx = Some p /\
    (forall j, (j < idx)%nat -> periodsFor (letterDay d) !! j <> Some p) /\
    slots_for d !! idx = Some slot.
Proof.
  induction n as [|n IH]; intros c d slot Hc; cbn [search_loop]; [discriminate|].
  pose proof (toordinal_range c Hc) as Hr.
  assert (Hnext : forall (Hm : meets p c = false),
    (do next_date' <- add_one_day c; search_loop slots_for fuel n p next_date') = Ret (d, slot) ->
    exists k idx,
      toordinal c + Z.of_nat k <= MAXORDINAL /\ d = nth_day c k /\
      meets p d = true /\
      (forall j, (j < k)%nat -> meets p (nth_day c j) = false) /\
      periodsFor (letterDay d) !! idx = Some p /\
      (forall j, (j < idx)%nat -> periodsFor (letterDay d) !! j <> Some p) /\
      slots_for d !! idx = Some slot).
  { intros Hm. unfold add_one_day.
    destruct (Z.leb_spec (toordinal c + 1) MAXORDINAL) as [Hle|Hle]; cbn [obind];
      [|discriminate].
    intros Hrest. assert (Hc' : valid (tomorrow c)) by (apply valid_tomorrow; trivial; lia).
    pose proof (toordinal_tomorrow c Hc) as Ho.
    destruct (IH _ _ _ Hc' Hrest) as (k & idx & H1 & H2 & H3 & H4 & H5 & H6 & H7).
    exists (S k), idx. cbn [nth_day]. split_and!; trivial; [lia|].
    intros [|j] Hj; cbn [nth_day]; [exact Hm | apply H4; lia]. }
  destruct (Z.leb_spec 5 (weekday c)) as [Hw|Hw].
  - apply Hnext. unfold meets, is_school_day.
    destruct (Z.ltb_spec (weekday c) 5); [lia | reflexivity].
  - destruct (search_body slots_for fuel p c) as [r| |] eqn:Eb; cbn [obind]; try discriminate.
    pose proof (search_body_cases fuel p c r Hc Hw Eb) as Hcases.
    destruct r as [[d' slot']|].
    + intros [= <- <-]. destruct Hcases as (-> & Hm & idx & H5 & H6 & H7).
      exists 0%nat, idx. cbn [nth_day]. split_and!; trivial; [lia|]. intros j Hj. lia.
    + now apply Hnext.
Qed.

(** When the period meets on no later day the loop runs to [date.max]
    and the step past it raises. *)
Lemma search_loop_overflow p (Hnever : forall d, valid d -> meets p d = false) n :
  forall c fuel m, valid c -> toordinal c + Z.of_nat n = MAXORDINAL ->
  (n < m)%nat -> (Z.to_nat (MAXORDINAL - toordinal FIRST_DAY) < fuel)%nat ->
  search_loop slots_for fuel m p c = Raise OverflowError.
Proof.
  assert (Hmiss : forall c, valid c -> weekday c < 5 ->
            list_contains p (periodsFor (letterDay c)) = false).
  { intros c Hc Hw. pose proof (Hnever c Hc) as Hmc. unfold meets, is_school_day in Hmc.
    destruct (Z.ltb_spec (weekday c) 5); [exact Hmc | lia]. }
  induction n as [|n IH]; intros c fuel m Hc Ho Hm Hf;
    (destruct m as [|m]; [lia|]); cbn [search_loop].
  - assert (Hadd : add_one_day c = Raise OverflowError)
      by (apply add_one_day_overflow; trivial; lia).
    destruct (Z.leb_spec 5 (weekday c)) as [Hw|Hw]; [now rewrite Hadd|].
    rewrite search_body_miss; auto.
    + cbn [obind]. now rewrite Hadd.
    + unfold letter_fuel. lia.
  - assert (Hadd : add_one_day c = Ret (tomorrow c)) by (apply add_one_day_ok; trivial; lia).
    assert (Hc' : valid (tomorrow c)) by (apply valid_tomorrow; trivial; lia).
    pose proof (toordinal_tomorrow c Hc) as Ho'.
    assert (Hrec : search_loop slots_for fuel m p (tomorrow c) = Raise OverflowError)
      by (apply IH; trivial; lia).
    destruct (Z.leb_spec 5 (weekday c)) as [Hw|Hw]; [now rewrite Hadd|].
    rewrite search_body_miss; auto.
    + cbn [obind]. now rewrite Hadd.
    + unfold letter_fuel. lia.
Qed.

(** The same from [from_date]: the day found is the first day after
    [from_date] on which the period meets. *)
Lemma search_sound_from fuel p from_date d slot : valid from_date ->
  (do next_date <- add_one_day from_date;
   search_loop slots_for fuel fuel p next_date) = Ret (d, slot) ->
  valid d /\ toordinal from_date < toordinal d /\ meets p d = true /\
  (forall d', valid d' -> toordinal from_date < toordinal d' < toordinal d ->
     meets p d' = false) /\
  exists idx, periodsFor (letterDay d) !! idx = Some p /\
              (forall j, (j < idx)%nat -> periodsFor (letterDay d) !! j <> Some p) /\
              slots_for d !! idx = Some slot.
Proof.
  intros Hv. unfold add_one_day.
  destruct (Z.leb_spec (toordinal from_date + 1) MAXORDINAL) as [Hle|Hle]; cbn [obind];
    [|discriminate].
  intros H. assert (Hc : valid (tomorrow from_date)) by (apply valid_tomorrow; trivial; lia).
  pose proof (toordinal_tomorrow from_date Hv) as Hoc.
  destruct (search_loop_sound fuel p fuel _ _ _ Hc H)
    as (k & idx & Hk & -> & Hm & Hmin & H5 & H6 & H7).
  destruct (nth_day_spec k _ Hc Hk) as [Hvd Hod].
  split_and!; trivial; [lia | | eauto].
  intros d' Hd' Hbetween.
  rewrite (nth_day_unique (tomorrow from_date) d'
             (Z.to_nat (toordinal d' - toordinal (tomorrow from_date)))) by (trivial; lia).
  apply Hmin. lia.
Qed.

(** A search started on any day from [from_date] up to the day before
    the result finds the same day and the same slot. *)
Lemma search_stable fuel p from_date from' d slot : valid from_date -> valid from' ->
  (do next_date <- add_one_day from_date;
   search_loop slots_for fuel fuel p next_date) = Ret (d, slot) ->
  toordinal from_date <= toordinal from' < toordinal d ->
  forall fuel', (Z.to_nat (toordinal d - toordinal from') <= fuel')%nat ->
                (letter_fuel d <= fuel')%nat ->
    (do next_date <- add_one_day from';
     search_loop slots_for fuel' fuel' p next_date) = Ret (d, slot).
Proof.
  intros Hv Hv' H Hbetween fuel' Hf1 Hf2.
  destruct (search_sound_from fuel p from_date d slot Hv H)
    as (Hd & Hlt & Hm & Hmin & idx & H5 & H6 & H7).
  pose proof (toordinal_range d Hd) as Hr.
  assert (Hc : valid (tomorrow from')) by (apply valid_tomorrow; trivial; lia).
  pose proof (toordinal_tomorrow from' Hv') as Hoc.
  set (k := Z.to_nat (toordinal d - toordinal from' - 1)).
  assert (Hk : toordinal from' + 1 + Z.of_nat k <= MAXORDINAL) by lia.
  assert (Hdk : d = nth_day (tomorrow from') k) by (apply nth_day_unique; trivial; lia).
  destruct (search_from slots_for slots_for_length p from' k Hv' Hk)
    as (idx' & slot' & H5' & H6' & H7' & Hrun).
  - now rewrite <- Hdk.
  - intros j Hj. destruct (nth_day_spec j _ Hc ltac:(lia)) as [Hvj Hoj].
    apply Hmin; trivial. lia.
  - cbv zeta in H5', H6', H7', Hrun. rewrite <- Hdk in *.
    assert (idx' = idx).
    { destruct (Nat.lt_trichotomy idx idx') as [Hlt'|[Heq|Hgt]]; auto.
      - now apply H6' in Hlt'.
      - now apply H6 in Hgt. }
    subst idx'. rewrite H7 in H7'. injection H7' as <-.
    apply Hrun; lia.
Qed.

End SearchSound.

Lemma label_has_range p i : label_has p i = true -> 1 <= p <= 7.
Proof.
  unfold label_has. destruct (LETTERS !! Z.to_nat i) as [l|] eqn:E; [|discriminate].
  assert (Hl : l ∈ LETTERS) by (eapply list_elem_of_lookup_2; eauto).
  unfold LETTERS in Hl.
  repeat (apply elem_of_cons in Hl; destruct Hl as [-> | Hl]);
    [ .. | now apply elem_of_nil in Hl ];
    (intros Hc; apply list_contains_elem_of in Hc;
     change (periodsFor _) with [1; 2; 3; 4; 5] in Hc ||
     change (periodsFor _) with [6; 7; 1; 2; 3] in Hc ||
     change (periodsFor _) with [4; 5; 6; 7; 1] in Hc ||
     change (periodsFor _) with [2; 3; 4; 5; 6] in Hc ||
     change (periodsFor _) with [7; 1; 2; 3; 4] in Hc ||
     change (periodsFor _) with [5; 6; 7; 1; 2] in Hc ||
     change (periodsFor _) with [3; 4; 5; 6; 7] in Hc;
     repeat (apply elem_of_cons in Hc; destruct Hc as [-> | Hc]);
     [ .. | now apply elem_of_nil in Hc ]; lia).
Qed.

Lemma meets_range p d : valid d -> meets p d = true -> 1 <= p <= 7.
Proof.
  intros Hd. rewrite meets_label by trivial. intros H. apply andb_true_iff in H.
  destruct H as [_ H]. now apply label_has_range in H.
Qed.

Section SearchResults.

(** X12: whatever [get_next_class] returns, for any period, any start
    date and any lunch option, is right: the date is a day of the
    calendar strictly after [from_date] on which the period meets, no
    day in between is one, the period is one of 1 to 7, and the slot is
    the one at the first index of the period in that day's period
    order. *)
Theorem get_next_class_sound (g : globals) (fuel : nat) (p : Z) (from_date : date)
    (lo : option string) (d : date) (slot : ClassTime) :
  valid from_date ->
  get_next_class g fuel p from_date lo = Ret (d, slot) ->
  valid d /\ ltb from_date d = true /\ meets p d = true /\ 1 <= p <= 7 /\
  (forall d', valid d' -> ltb from_date d' = true -> ltb d' d = true -> meets p d' = false) /\
  exists idx, periodsFor (letterDay d) !! idx = Some p /\
              (forall j, (j < idx)%nat -> periodsFor (letterDay d) !! j <> Some p) /\
              get_time_slots g (weekday d =? 2) lo !! idx = Some slot.
Proof.
  intros Hv H. rewrite get_next_class_search in H.
  destruct (search_sound_from (upper_slots g lo) (upper_slots_length g lo)
              fuel p from_date d slot Hv H) as (Hd & Hlt & Hm & Hmin & Hidx).
  split_and!; trivial.
  - rewrite ltb_toordinal by trivial. now apply Z.ltb_lt.
  - exact (proj1 (meets_range p d Hd Hm)).
  - exact (proj2 (meets_range p d Hd Hm)).
  - intros d' Hd' H1 H2. rewrite ltb_toordinal in H1, H2 by trivial.
    apply Z.ltb_lt in H1, H2. apply Hmin; trivial. lia.
Qed.

Lemma get_next_class_sound_witness :
  valid (mkdate 2025 9 8) /\ ltb (mkdate 2025 9 5) (mkdate 2025 9 8) = true /\
  meets 3 (mkdate 2025 9 8) = true /\ 1 <= 3 <= 7 /\
  (forall d', valid d' -> ltb (mkdate 2025 9 5) d' = true -> ltb d' (mkdate 2025 9 8) = true ->
     meets 3 d' = false) /\
  exists idx, periodsFor (letterDay (mkdate 2025 9 8)) !! idx = Some 3 /\
              (forall j, (j < idx)%nat -> periodsFor (letterDay (mkdate 2025 9 8)) !! j <> Some 3) /\
              get_time_slots initial_globals (weekday (mkdate 2025 9 8) =? 2) (Some "1"%string)
                !! idx = Some (mkClassTime (mktime 9 35) (mktime 10 35)).
Proof.
  apply (get_next_class_sound initial_globals 40 3 (mkdate 2025 9 5) (Some "1"%string)
           (mkdate 2025 9 8) (mkClassTime (mktime 9 35) (mktime 10 35))).
  - apply validb_spec. reflexivity.
  - vm_compute. reflexivity.
Defined.

(** X13: the same for [get_next_class_ms], with the blocks of
    [get_schedule_for_day]. *)
Theorem get_next_class_ms_sound (fuel : nat) (p : Z) (from_date d : date) (slot : ClassTime) :
  valid from_date ->
  MS.get_next_class_ms fuel p from_date = Ret (d, slot) ->
  valid d /\ ltb from_date d = true /\ meets p d = true /\ 1 <= p <= 7 /\
  (forall d', valid d' -> ltb from_date d' = true -> ltb d' d = true -> meets p d' = false) /\
  exists idx, periodsFor (letterDay d) !! idx = Some p /\
              (forall j, (j < idx)%nat -> periodsFor (letterDay d) !! j <> Some p) /\
              MS.get_schedule_for_day (weekday d) !! idx = Some slot.
Proof.
  intros Hv H. rewrite get_next_class_ms_search in H.
  destruct (search_sound_from ms_slots ms_slots_length fuel p from_date d slot Hv H)
    as (Hd & Hlt & Hm & Hmin & Hidx).
  split_and!; trivial.
  - rewrite ltb_toordinal by trivial. now apply Z.ltb_lt.
  - exact (proj1 (meets_range p d Hd Hm)).
  - exact (proj2 (meets_range p d Hd Hm)).
  - intros d' Hd' H1 H2. rewrite ltb_toordinal in H1, H2 by trivial.
    apply Z.ltb_lt in H1, H2. apply Hmin; trivial. lia.
Qed.

Lemma get_next_class_ms_sound_witness :
  valid (mkdate 2025 9 8) /\ ltb (mkdate 2025 9 5) (mkdate 2025 9 8) = true /\
  meets 6 (mkdate 2025 9 8) = true /\ 1 <= 6 <= 7 /\
  (forall d', valid d' -> ltb (mkdate 2025 9 5) d' = true -> ltb d' (mkdate 2025 9 8) = true ->
     meets 6 d' = false) /\
  exists idx, periodsFor (letterDay (mkdate 2025 9 8)) !! idx = Some 6 /\
              (forall j, (j < idx)%nat -> periodsFor (letterDay (mkdate 2025 9 8)) !! j <> Some 6) /\
              MS.get_schedule_for_day (weekday (mkdate 2025 9 8)) !! idx
                = Some (mkClassTime (mktime 14 5) (mktime 15 0)).
Proof.
  apply (get_next_class_ms_sound 40 6 (mkdate 2025 9 5) (mkdate 2025 9 8)
           (mkClassTime (mktime 14 5) (mktime 15 0))).
  - apply validb_spec. reflexivity.
  - vm_compute. reflexivity.
Defined.

Lemma bad_period_never_meets (p : Z) : ~ 1 <= p <= 7 -> forall d, valid d -> meets p d = false.
Proof.
  intros Hp d Hd. destruct (meets p d) eqn:E; [|reflexivity].
  apply meets_range in E; trivial. contradiction.
Qed.

Lemma search_bad_period slots_for (Hlen : forall d, length (slots_for d) = 5%nat) (p : Z)
    (from_date : date) :
  ~ 1 <= p <= 7 -> valid from_date ->
  (forall fuel r,
     (do next_date <- add_one_day from_date;
      search_loop slots_for fuel fuel p next_date) <> Ret r) /\
  (forall fuel, (Z.to_nat MAXORDINAL <= fuel)%nat ->
     (do next_date <- add_one_day from_date;
      search_loop slots_for fuel fuel p next_date) = Raise OverflowError).
Proof.
  intros Hp Hv. pose proof (bad_period_never_meets p Hp) as Hnever. split.
  - intros fuel [d slot] H.
    destruct (search_sound_from slots_for Hlen fuel p from_date d slot Hv H)
      as (Hd & _ & Hm & _).
    rewrite Hnever in Hm by trivial. discriminate.
  - intros fuel Hf. pose proof (toordinal_range from_date Hv) as Hr.
    pose proof FIRST_DAY_ordinal as Hfirst.
    destruct (Z_lt_le_dec (toordinal from_date) MAXORDINAL) as [Hlt|Hge].
    + rewrite add_one_day_ok by trivial. cbn [obind].
      assert (Hc : valid (tomorrow from_date)) by (apply valid_tomorrow; trivial).
      pose proof (toordinal_tomorrow from_date Hv) as Hoc.
      apply (search_loop_overflow slots_for p Hnever
               (Z.to_nat (MAXORDINAL - toordinal (tomorrow from_date)))).
      * exact Hc.
      * lia.
      * lia.
      * lia.
    + rewrite add_one_day_overflow by (trivial; lia). reflexivity.
Qed.

(** X14: for a period that is not one of 1 to 7 neither search ever
    returns a result: no day has the period, the loop walks to
    [date.max] and the step past it raises [OverflowError]; the
    [return None] after the loop is never reached. *)
Theorem next_class_bad_period (p : Z) (from_date : date) :
  ~ 1 <= p <= 7 -> valid from_date ->
  (forall g lo fuel r, get_next_class g fuel p from_date lo <> Ret r) /\
  (forall fuel r, MS.get_next_class_ms fuel p from_date <> Ret r) /\
  exists fuel0, forall fuel, (fuel0 <= fuel)%nat ->
    (forall g lo, get_next_class g fuel p from_date lo = Raise OverflowError) /\
    MS.get_next_class_ms fuel p from_date = Raise OverflowError.
Proof.
  intros Hp Hv. split_and!.
  - intros g lo fuel r. rewrite get_next_class_search.
    apply (search_bad_period (upper_slots g lo) (upper_slots_length g lo) p from_date Hp Hv).
  - intros fuel r. rewrite get_next_class_ms_search.
    apply (search_bad_period ms_slots ms_slots_length p from_date Hp Hv).
  - exists (Z.to_nat MAXORDINAL). intros fuel Hf. split.
    + intros g lo. rewrite get_next_class_search.
      now apply (search_bad_period (upper_slots g lo) (upper_slots_length g lo) p from_date Hp Hv).
    + rewrite get_next_class_ms_search.
      now apply (search_bad_period ms_slots ms_slots_length p from_date Hp Hv).
Qed.

Lemma next_class_bad_period_witness :
  (forall g lo fuel r, get_next_class g fuel 8 (mkdate 2025 9 5) lo <> Ret r) /\
  (forall fuel r, MS.get_next_class_ms fuel 8 (mkdate 2025 9 5) <> Ret r) /\
  exists fuel0, forall fuel, (fuel0 <= fuel)%nat ->
    (forall g lo, get_next_class g fuel 8 (mkdate 2025 9 5) lo = Raise OverflowError) /\
    MS.get_next_class_ms fuel 8 (mkdate 2025 9 5) = Raise OverflowError.
Proof.
  apply (next_class_bad_period 8 (mkdate 2025 9 5)).
  - lia.
  - apply validb_spec. reflexivity.
Defined.

(** X15: the answer of [get_next_class] does not depend on where in the
    gap the search starts: when it returns a day from [from_date], it
    returns the same day and slot from every date between [from_date]
    and the day before the result. *)
Theorem get_next_class_stable (g : globals) (fuel : nat) (p : Z) (from_date from' : date)
    (lo : option string) (d : date) (slot : ClassTime) :
  valid from_date -> valid from' ->
  get_next_class g fuel p from_date lo = Ret (d, slot) ->
  leb from_date from' = true -> ltb from' d = true ->
  exists fuel0, forall fuel', (fuel0 <= fuel')%nat ->
    get_next_class g fuel' p from' lo = Ret (d, slot).
Proof.
  intros Hv Hv' H Hle Hlt. rewrite get_next_class_search in H.
  destruct (search_sound_from (upper_slots g lo) (upper_slots_length g lo)
              fuel p from_date d slot Hv H) as (Hd & _).
  rewrite leb_toordinal in Hle by trivial. rewrite ltb_toordinal in Hlt by trivial.
  apply Z.leb_le in Hle. apply Z.ltb_lt in Hlt.
  exists (Nat.max (Z.to_nat (toordinal d - toordinal from')) (letter_fuel d)).
  intros fuel' Hf. rewrite get_next_class_search.
  apply (search_stable (upper_slots g lo) (upper_slots_length g lo)
           fuel p from_date from' d slot); trivial; lia.
Qed.

Lemma get_next_class_stable_witness :
  exists fuel0, forall fuel', (fuel0 <= fuel')%nat ->
    get_next_class initial_globals fuel' 3 (mkdate 2025 9 7) (Some "1"%string) =
    Ret (mkdate 2025 9 8, mkClassTime (mktime 9 35) (mktime 10 35)).
Proof.
  apply (get_next_class_stable initial_globals 40 3 (mkdate 2025 9 5) (mkdate 2025 9 7)
           (Some "1"%string) (mkdate 2025 9 8) (mkClassTime (mktime 9 35) (mktime 10 35))).
  - apply validb_spec. reflexivity.
  - apply validb_spec. reflexivity.
  - vm_compute. reflexivity.
  - reflexivity.
  - reflexivity.
Defined.

End SearchResults.

(** * The rotation over weeks and weekends *)

Section RotationPeriod.

Lemma label_weekday_steps n : forall d, valid d ->
  toordinal FIRST_DAY <= toordinal d -> toordinal d + Z.of_nat n <= MAXORDINAL ->
  label_index (nth_day d n) = (label_index d + school_steps (weekday d) n) mod 7 /\
  weekday (nth_day d n) = (weekday d + Z.of_nat n) mod 7.
Proof.
  induction n as [|n IH]; intros d Hd Hge Hle; cbn [nth_day school_steps].
  - rewrite !Z.add_0_r. pose proof (label_index_range d). pose proof (weekday_range d).
    rewrite !Z.mod_small by lia. auto.
  - assert (Hd' : valid (tomorrow d)) by (apply valid_tomorrow; trivial; lia).
    pose proof (toordinal_tomorrow d Hd) as Ho.
    destruct (IH (tomorrow d) Hd' ltac:(lia) ltac:(lia)) as [Hl Hw].
    rewrite Hl, Hw. rewrite label_index_tomorrow by (trivial; lia).
    unfold is_school_day. rewrite weekday_tomorrow by trivial. split.
    + rewrite Zplus_mod_idemp_l. f_equal. lia.
    + rewrite Zplus_mod_idemp_l. f_equal. lia.
Qed.

Lemma same_label_same_letter fuel d d' : valid d -> valid d' ->
  label_index d' = label_index d -> (letter_fuel d <= fuel)%nat ->
  (letter_fuel d' <= fuel)%nat -> get_letter_day fuel d' = get_letter_day fuel d.
Proof.
  intros Hd Hd' Hl Hf Hf'. rewrite !get_letter_day_letterDay by trivial. f_equal.
  pose proof (letterDay_lookup d Hd) as H1. pose proof (letterDay_lookup d' Hd') as H2.
  rewrite Hl in H2. congruence.
Qed.

(** X16: from the first day of the rotation on, the letter day and the
    weekday repeat every 49 calendar days (seven weeks of five school
    days each): [get_letter_day] returns the same letter on a date and
    on the date 49 days later. *)
Theorem letter_day_repeats (fuel : nat) (d d' : date) :
  valid d -> valid d' -> toordinal FIRST_DAY <= toordinal d ->
  toordinal d' = toordinal d + 49 -> (letter_fuel d' <= fuel)%nat ->
  get_letter_day fuel d' = get_letter_day fuel d /\ weekday d' = weekday d /\
  exists l, get_letter_day fuel d = Ret l /\ l ∈ LETTERS.
Proof.
  intros Hd Hd' Hge Ho Hf. pose proof (toordinal_range d' Hd') as Hr.
  assert (Hn : d' = nth_day d 49) by (apply nth_day_unique; trivial; lia).
  destruct (label_weekday_steps 49 d Hd Hge ltac:(lia)) as [Hl Hw].
  rewrite <- Hn in Hl, Hw.
  assert (Hfd : (letter_fuel d <= fuel)%nat) by (unfold letter_fuel in *; lia).
  pose proof (weekday_range d) as Hwr. pose proof (label_index_range d) as Hlr.
  assert (Hsame : label_index d' = label_index d).
  { rewrite Hl.
    destruct (small_cases (weekday d) Hwr) as [E|[E|[E|[E|[E|[E|E]]]]]]; rewrite E;
      match goal with
      | |- (_ + ?s) mod 7 = _ => let v := eval vm_compute in s in change s with v
      end; Z.to_euclidean_division_equations; lia. }
  split_and!.
  - now apply same_label_same_letter.
  - rewrite Hw. change (Z.of_nat 49) with 49. Z.to_euclidean_division_equations. lia.
  - exists (letterDay d). split; [now apply get_letter_day_letterDay|].
    eapply list_elem_of_lookup_2. now apply letterDay_lookup.
Qed.

Lemma letter_day_repeats_witness :
  get_letter_day 100 (mkdate 2025 10 24) = get_letter_day 100 (mkdate 2025 9 5) /\
  weekday (mkdate 2025 10 24) = weekday (mkdate 2025 9 5) /\
  exists l, get_letter_day 100 (mkdate 2025 9 5) = Ret l /\ l ∈ LETTERS.
Proof.
  apply (letter_day_repeats 100 (mkdate 2025 9 5) (mkdate 2025 10 24)).
  - apply validb_spec. reflexivity.
  - apply validb_spec. reflexivity.
  - vm_compute. discriminate.
  - reflexivity.
  - vm_compute. lia.
Defined.

(** X17: a Saturday and a Sunday carry the letter of the Friday before
    them: from the first day of the rotation on, [get_letter_day]
    returns on the one or two days after a Friday what it returns on
    that Friday. *)
Theorem weekend_keeps_letter (fuel : nat) (d d' : date) :
  valid d -> valid d' -> toordinal FIRST_DAY <= toordinal d -> weekday d = 4 ->
  toordinal d < toordinal d' <= toordinal d + 2 -> (letter_fuel d' <= fuel)%nat ->
  5 <= weekday d' /\ get_letter_day fuel d' = get_letter_day fuel d.
Proof.
  intros Hd Hd' Hge Hfri Ho Hf. pose proof (toordinal_range d' Hd') as Hr.
  assert (Hfd : (letter_fuel d <= fuel)%nat) by (unfold letter_fuel in *; lia).
  pose proof (label_index_range d) as Hlr.
  assert (Hcases : toordinal d' = toordinal d + 1 \/ toordinal d' = toordinal d + 2) by lia.
  destruct Hcases as [H1|H2].
  - assert (Hn : d' = nth_day d 1) by (apply nth_day_unique; trivial; lia).
    destruct (label_weekday_steps 1 d Hd Hge ltac:(lia)) as [Hl Hw].
    rewrite <- Hn, Hfri in Hl, Hw.
    change (school_steps 4 1) with 0 in Hl. change ((4 + Z.of_nat 1) mod 7) with 5 in Hw.
    split; [lia|]. apply same_label_same_letter; trivial.
    rewrite Hl, Z.add_0_r. apply Z.mod_small. lia.
  - assert (Hn : d' = nth_day d 2) by (apply nth_day_unique; trivial; lia).
    destruct (label_weekday_steps 2 d Hd Hge ltac:(lia)) as [Hl Hw].
    rewrite <- Hn, Hfri in Hl, Hw.
    change (school_steps 4 2) with 0 in Hl. change ((4 + Z.of_nat 2) mod 7) with 6 in Hw.
    split; [lia|]. apply same_label_same_letter; trivial.
    rewrite Hl, Z.add_0_r. apply Z.mod_small. lia.
Qed.

Lemma weekend_keeps_letter_witness :
  5 <= weekday (mkdate 2025 9 7) /\
  get_letter_day 40 (mkdate 2025 9 7) = get_letter_day 40 (mkdate 2025 9 5).
Proof.
  apply (weekend_keeps_letter 40 (mkdate 2025 9 5) (mkdate 2025 9 7)).
  - apply validb_spec. reflexivity.
  - apply validb_spec. reflexivity.
  - vm_compute. discriminate.
  - reflexivity.
  - vm_compute. split; [reflexivity | discriminate].
  - vm_compute. lia.
Defined.

End RotationPeriod.

(** * Lunch windows of the middle school *)

Section LunchWindows.

Import MS.

(** X18: on every date [get_ms_lunch_window_for] returns, for every
    grade (known or not), a window that starts before it ends and lies
    between 11:45 and 13:00; the windows of grades 8, 6 and 7 follow one
    another without gap or overlap, in that order, whether or not an
    override applies. *)
Theorem lunch_windows_consecutive (date_obj : date) :
  (forall grade, exists w,
     get_ms_lunch_window_for date_obj grade = Ret w /\
     hm 11 45 <= start_min w /\ start_min w < end_min w /\ end_min w <= hm 13 0) /\
  exists w8 w6 w7,
    get_ms_lunch_window_for date_obj 8 = Ret w8 /\
    get_ms_lunch_window_for date_obj 6 = Ret w6 /\
    get_ms_lunch_window_for date_obj 7 = Ret w7 /\
    end_min w8 = start_min w6 /\ end_min w6 = start_min w7.
Proof.
  unfold get_ms_lunch_window_for, MS_LUNCH_OVERRIDES. cbn [lunch_window_scan]. split.
  - intros grade. destruct (MS_LUNCH_WINDOWS_REGULAR !! grade) as [regular|] eqn:E.
    + destruct (regular_keys grade regular E) as [-> | [-> | ->]];
        (vm_compute in E; injection E as <-);
        destruct (in_range (month date_obj) (day date_obj) (10, 6) (10, 10));
        destruct (in_range (month date_obj) (day date_obj) (11, 17) (11, 21));
        (eexists; split; [reflexivity|]; vm_compute; split_and!;
         first [reflexivity | discriminate]).
    + destruct (unknown_grade grade E) as [H1 H2].
      rewrite !bool_decide_eq_false_2, !andb_false_r
        by (rewrite ?H1, ?H2; intros [? ?]; discriminate).
      unfold dict_getitem at 1. change (MS_LUNCH_WINDOWS_REGULAR !! 8)
        with (Some (mkMSLunchWindow (hm 12 5) (hm 12 25))).
      cbn [obind default].
      eexists; split; [reflexivity|]. vm_compute. split_and!;
        first [reflexivity | discriminate].
  - destruct (in_range (month date_obj) (day date_obj) (10, 6) (10, 10));
      destruct (in_range (month date_obj) (day date_obj) (11, 17) (11, 21));
      (do 3 eexists; split_and!; [reflexivity | reflexivity | reflexivity | | ];
       reflexivity).
Qed.

End LunchWindows.

(** * The lunch option of a constructed application *)

Section AppLunchOption.

Lemma search_body_ext s1 s2 (Hs : forall d, s1 d = s2 d) fuel p d :
  search_body s1 fuel p d = search_body s2 fuel p d.
Proof. unfold search_body. now rewrite Hs. Qed.

Lemma search_loop_ext s1 s2 (Hs : forall d, s1 d = s2 d) fuel p n : forall d,
  search_loop s1 fuel n p d = search_loop s2 fuel n p d.
Proof.
  induction n as [|n IH]; intros d; cbn [search_loop]; [reflexivity|].
  rewrite (search_body_ext s1 s2 Hs).
  destruct (5 <=? weekday d).
  - destruct (add_one_day d); cbn [obind]; auto.
  - destruct (search_body s2 fuel p d) as [[r|]| |]; cbn [obind]; auto.
    destruct (add_one_day d); cbn [obind]; auto.
Qed.

Lemma get_time_slots_selected g g' w s : s <> ""%string ->
  get_time_slots g' w (Some s) = get_time_slots g w (Some s).
Proof. intros H. unfold get_time_slots. now rewrite !str_or_selected. Qed.

Lemma str_or_nonempty lo b : b <> ""%string -> str_or lo b <> ""%string.
Proof.
  intros Hb. unfold str_or. destruct lo as [s|]; [|exact Hb].
  destruct (String.eqb_spec s ""); trivial.
Qed.

(** X19: an application keeps the lunch option it was constructed with:
    once [ReminderApp] or [AllClassesApp] is built (with any argument,
    under a module state whose [LUNCH_OPTION] is not empty), its loop
    passes and its next-class computation give the same results under
    any later value of the module's [LUNCH_OPTION]. *)
Theorem app_keeps_lunch_option (g g' : globals) (p : Z) (lo : option string) (fuel : nat)
    (now : clock) (class_date : date) (triggered : gmap (date * Z) bool) :
  LUNCH_OPTION g <> ""%string ->
  ReminderApp_pass g' fuel (ReminderApp_init g p lo) now =
    ReminderApp_pass g fuel (ReminderApp_init g p lo) now /\
  ReminderApp_next_info g' fuel (ReminderApp_init g p lo) class_date =
    ReminderApp_next_info g fuel (ReminderApp_init g p lo) class_date /\
  AllClassesApp_pass g' fuel
      {| aca_lunch_option := aca_lunch_option (AllClassesApp_init g lo);
         aca_triggered := triggered |} now =
    AllClassesApp_pass g fuel
      {| aca_lunch_option := aca_lunch_option (AllClassesApp_init g lo);
         aca_triggered := triggered |} now.
Proof.
  intros Hg. pose proof (str_or_nonempty lo (LUNCH_OPTION g) Hg) as Hs. split_and!.
  - unfold ReminderApp_pass, ReminderApp_init. cbn [ra_period ra_lunch_option].
    now rewrite (get_time_slots_selected g g').
  - unfold ReminderApp_next_info, ReminderApp_init. cbn [ra_period ra_lunch_option].
    rewrite !get_next_class_search.
    destruct (add_one_day class_date) as [c| |]; cbn [obind]; trivial.
    apply search_loop_ext. intros d. unfold upper_slots.
    now apply get_time_slots_selected.
  - unfold AllClassesApp_pass, AllClassesApp_init. cbn [aca_lunch_option aca_triggered].
    now rewrite (get_time_slots_selected g g').
Qed.

Lemma app_keeps_lunch_option_witness :
  ReminderApp_pass (set_lunch_option "1" initial_globals) 40
      (ReminderApp_init initial_globals 3 None)
      (mkclock (mkdate 2025 9 8) (mktime 12 20) (mkdate 2025 9 8)) =
    ReminderApp_pass initial_globals 40 (ReminderApp_init initial_globals 3 None)
      (mkclock (mkdate 2025 9 8) (mktime 12 20) (mkdate 2025 9 8)) /\
  ReminderApp_next_info (set_lunch_option "1" initial_globals) 40
      (ReminderApp_init initial_globals 3 None) (mkdate 2025 9 8) =
    ReminderApp_next_info initial_globals 40 (ReminderApp_init initial_globals 3 None)
      (mkdate 2025 9 8) /\
  AllClassesApp_pass (set_lunch_option "1" initial_globals) 40
      {| aca_lunch_option := aca_lunch_option (AllClassesApp_init initial_globals None);
         aca_triggered := ∅ |}
      (mkclock (mkdate 2025 9 8) (mktime 12 20) (mkdate 2025 9 8)) =
    AllClassesApp_pass initial_globals 40
      {| aca_lunch_option := aca_lunch_option (AllClassesApp_init initial_globals None);
         aca_triggered := ∅ |}
      (mkclock (mkdate 2025 9 8) (mktime 12 20) (mkdate 2025 9 8)).
Proof.
  apply (app_keeps_lunch_option initial_globals (set_lunch_option "1" initial_globals) 3 None
           40 (mkclock (mkdate 2025 9 8) (mktime 12 20) (mkdate 2025 9 8))
           (mkdate 2025 9 8) ∅).
  discriminate.
Defined.

(** X20: a reminder that [ReminderApp._run_loop] shows can always be
    followed by the next class: when a pass calls [show_reminder], the
    student's period is one of 1 to 7 and meets on the date passed, and
    (up to 9999-12-29) the [get_next_class] call of [show_reminder]
    returns a date after it, at most four days later from the first day
    of the rotation on. *)
Theorem reminder_has_next (g : globals) (fuel : nat) (self : ReminderApp) (now : clock)
    (d : date) (ct : ClassTime) :
  valid (now_date now) -> toordinal (now_date now) + 2 <= MAXORDINAL ->
  ReminderApp_pass g fuel self now = Ret (Some (d, ct)) ->
  d = now_date now /\ meets (ra_period self) d = true /\ 1 <= ra_period self <= 7 /\
  exists d' slot fuel0,
    valid d' /\ ltb d d' = true /\
    (toordinal FIRST_DAY <= toordinal d -> toordinal d' <= toordinal d + 4) /\
    forall fuel', (fuel0 <= fuel')%nat ->
      ReminderApp_next_info g fuel' self d = Ret (d', slot).
Proof.
  intros Hd Hle H.
  assert (Hpass : d = now_date now /\ meets (ra_period self) (now_date now) = true).
  { revert H. unfold ReminderApp_pass, meets, is_school_day.
    destruct (weekday (now_date now) <? 5); [|discriminate]. cbn [andb].
    destruct (get_letter_day fuel (now_date now)) as [letter| |] eqn:El; cbn [obind];
      try discriminate.
    apply get_letter_day_det in El; trivial. subst letter.
    fold (periodsFor (letterDay (now_date now))).
    destruct (list_contains (ra_period self) (periodsFor (letterDay (now_date now))));
      [|discriminate].
    destruct (list_index _ _) as [idx| |]; cbn [obind]; try discriminate.
    destruct (idx <? _)%nat; [|discriminate].
    destruct (list_getitem _ idx) as [c| |]; cbn [obind]; try discriminate.
    destruct (reminder_time _ c 5) as [r| |]; cbn [obind]; try discriminate.
    destruct (_ && _); [|discriminate]. intros [= <- _]. auto. }
  destruct Hpass as [-> Hm].
  pose proof (meets_range _ _ Hd Hm) as Hp.
  split_and!; trivial; try lia.
  destruct (first_meeting (ra_period self) (now_date now) Hp Hd Hle)
    as (k & Hr & Hor & Hmk & Hmin & Hpost & _).
  cbn zeta in *.
  assert (Hk : toordinal (now_date now) + 1 + Z.of_nat k <= MAXORDINAL).
  { pose proof (toordinal_range _ Hr). lia. }
  destruct (search_from (upper_slots g (Some (ra_lunch_option self)))
              (upper_slots_length g (Some (ra_lunch_option self)))
              (ra_period self) (now_date now) k Hd Hk Hmk Hmin)
    as (idx & slot & _ & _ & _ & Hrun).
  cbn zeta in Hrun.
  exists (nth_day (tomorrow (now_date now)) k), slot,
    (Nat.max (S k) (letter_fuel (nth_day (tomorrow (now_date now)) k))).
  split_and!; trivial.
  - rewrite ltb_toordinal by trivial. apply Z.ltb_lt. lia.
  - intros Hge. specialize (Hpost Hge). lia.
  - intros fuel' Hf. unfold ReminderApp_next_info. rewrite get_next_class_search.
    apply Hrun; lia.
Qed.

Lemma reminder_has_next_witness :
  mkdate 2025 9 8 = mkdate 2025 9 8 /\ meets 4 (mkdate 2025 9 8) = true /\ 1 <= 4 <= 7 /\
  exists d' slot fuel0,
    valid d' /\ ltb (mkdate 2025 9 8) d' = true /\
    (toordinal FIRST_DAY <= toordinal (mkdate 2025 9 8) ->
       toordinal d' <= toordinal (mkdate 2025 9 8) + 4) /\
    forall fuel', (fuel0 <= fuel')%nat ->
      ReminderApp_next_info initial_globals fuel' (mkReminderApp 4 "2") (mkdate 2025 9 8) =
      Ret (d', slot).
Proof.
  apply (reminder_has_next initial_globals 40 (mkReminderApp 4 "2")
           (mkclock (mkdate 2025 9 8) (mktime 12 20) (mkdate 2025 9 8)) (mkdate 2025 9 8)
           second_lunch_slot).
  - apply validb_spec. reflexivity.
  - vm_compute. discriminate.
  - vm_compute. reflexivity.
Defined.

End AppLunchOption.

(** * Independence of grade and lunch choice in the middle school *)

Section Independence.

Import MS.

(** The lunch lookup does depend on the grade: on every date the
    windows of two different grades of the table are different. *)
Lemma lunch_window_depends_on_grade date_obj g1 g2 r1 r2 :
  MS_LUNCH_WINDOWS_REGULAR !! g1 = Some r1 -> MS_LUNCH_WINDOWS_REGULAR !! g2 = Some r2 ->
  g1 <> g2 ->
  get_ms_lunch_window_for date_obj g1 <> get_ms_lunch_window_for date_obj g2.
Proof.
  intros H1 H2 Hne. unfold get_ms_lunch_window_for, MS_LUNCH_OVERRIDES.
  cbn [lunch_window_scan].
  destruct (regular_keys g1 r1 H1) as [-> | [-> | ->]];
    destruct (regular_keys g2 r2 H2) as [-> | [-> | ->]]; try contradiction;
    destruct (in_range (month date_obj) (day date_obj) (10, 6) (10, 10));
    destruct (in_range (month date_obj) (day date_obj) (11, 17) (11, 21));
    intros H; vm_compute in H; discriminate.
Qed.

(** The search of the middle school returns, with fuel [search_fuel],
    for every period of the rotation. *)
Lemma get_next_class_ms_returns period from_date :
  1 <= period <= 7 -> valid from_date -> toordinal from_date + 2 <= MAXORDINAL ->
  exists d idx slot,
    valid d /\ ltb from_date d = true /\
    periodsFor (letterDay d) !! idx = Some period /\
    get_schedule_for_day (weekday d) !! idx = Some slot /\
    forall fuel, (search_fuel from_date <= fuel)%nat ->
      get_next_class_ms fuel period from_date = Ret (d, slot).
Proof.
  intros Hp Hv Hle.
  destruct (first_meeting period from_date Hp Hv Hle)
    as (k & Hr & Hor & Hm & Hmin & Hpost & Hpre).
  cbn zeta in *.
  assert (Hk : toordinal from_date + 1 + Z.of_nat k <= MAXORDINAL).
  { pose proof (toordinal_range _ Hr). lia. }
  destruct (search_from ms_slots ms_slots_length period from_date k Hv Hk Hm Hmin)
    as (idx & slot & H1 & H2 & H3 & H4).
  cbn zeta in *.
  exists (nth_day (tomorrow from_date) k), idx, slot. split_and!; trivial.
  - rewrite ltb_toordinal by trivial. apply Z.ltb_lt. lia.
  - intros fuel Hf. rewrite get_next_class_ms_search.
    unfold search_fuel in Hf.
    destruct (Z_le_gt_dec (toordinal FIRST_DAY) (toordinal from_date)) as [Hge|Hlt].
    + specialize (Hpost Hge). apply H4; [lia|]. unfold letter_fuel in *. lia.
    + specialize (Hpre ltac:(lia)). apply H4; [lia|]. unfold letter_fuel in *. lia.
Qed.

(** C10: in the middle-school variant the class time slots and the
    next-occurrence results do not depend on the grade or the lunch
    choice of the student.  Two runs whose configurations differ only
    in grade and lunch choice both return, and return the same (date,
    ClassTime): the first later day on which the period meets, with the
    block that [get_schedule_for_day] has at the index of the period on
    the weekday of that day; with any fuel, and on any date, their
    outcomes are equal.  Every slot that [get_next_class_ms] returns is
    a block of [get_schedule_for_day] on the weekday of the returned
    date, the same block on every date with that weekday whether or not
    a lunch override applies to it, although the lunch window that
    [get_ms_lunch_window_for] gives on that date differs from grade to
    grade. *)
Theorem ms_search_ignores_grade_and_lunch :
  (forall c1 c2 class_date,
     cfg_period c1 = cfg_period c2 -> 1 <= cfg_period c1 <= 7 ->
     valid class_date -> toordinal class_date + 2 <= MAXORDINAL ->
     exists d idx slot,
       valid d /\ ltb class_date d = true /\
       periodsFor (letterDay d) !! idx = Some (cfg_period c1) /\
       get_schedule_for_day (weekday d) !! idx = Some slot /\
       forall fuel, (search_fuel class_date <= fuel)%nat ->
         show_reminder_next_info fuel (run_student_app c1) class_date = Ret (d, slot) /\
         show_reminder_next_info fuel (run_student_app c2) class_date = Ret (d, slot)) /\
  (forall c1 c2 fuel class_date, cfg_period c1 = cfg_period c2 ->
     show_reminder_next_info fuel (run_student_app c1) class_date =
     show_reminder_next_info fuel (run_student_app c2) class_date) /\
  (forall fuel period from_date d slot,
     valid from_date ->
     get_next_class_ms fuel period from_date = Ret (d, slot) ->
     slot ∈ get_schedule_for_day (weekday d) /\
     exists idx,
       periodsFor (letterDay d) !! idx = Some period /\
       forall d', weekday d' = weekday d ->
         get_schedule_for_day (weekday d') !! idx = Some slot) /\
  (forall date_obj g1 g2 r1 r2,
     MS_LUNCH_WINDOWS_REGULAR !! g1 = Some r1 -> MS_LUNCH_WINDOWS_REGULAR !! g2 = Some r2 ->
     g1 <> g2 ->
     get_ms_lunch_window_for date_obj g1 <> get_ms_lunch_window_for date_obj g2).
Proof.
  split_and!.
  - intros c1 c2 class_date Heq Hp Hv Hle.
    destruct (get_next_class_ms_returns (cfg_period c1) class_date Hp Hv Hle)
      as (d & idx & slot & Hd & Hlt & Hi & Hs & Hrun).
    exists d, idx, slot. split_and!; trivial.
    intros fuel Hf. unfold show_reminder_next_info, run_student_app. cbn [app_period].
    rewrite <- Heq. split; now apply Hrun.
  - intros c1 c2 fuel class_date H. unfold show_reminder_next_info, run_student_app.
    cbn [app_period]. now rewrite H.
  - intros fuel p from_date d slot Hv H. rewrite get_next_class_ms_search in H.
    destruct (search_sound_from ms_slots ms_slots_length fuel p from_date d slot Hv H)
      as (_ & _ & _ & _ & idx & Hi & _ & Hs).
    unfold ms_slots in Hs. split.
    + eapply list_elem_of_lookup_2. exact Hs.
    + exists idx. split; [exact Hi|]. intros d' Hw. now rewrite Hw.
  - exact lunch_window_depends_on_grade.
Qed.

Lemma ms_search_ignores_grade_and_lunch_witness :
  show_reminder_next_info 100 (run_student_app (mkconfig 6 7 "first")) (mkdate 2025 10 7) =
    Ret (mkdate 2025 10 9, mkClassTime (mktime 9 30) (mktime 10 25)) /\
  show_reminder_next_info 100 (run_student_app (mkconfig 6 8 "second")) (mkdate 2025 10 7) =
    Ret (mkdate 2025 10 9, mkClassTime (mktime 9 30) (mktime 10 25)) /\
  get_ms_lunch_window_for (mkdate 2025 10 9) 7 <> get_ms_lunch_window_for (mkdate 2025 10 9) 8.
Proof.
  destruct (proj1 ms_search_ignores_grade_and_lunch
              (mkconfig 6 7 "first") (mkconfig 6 8 "second") (mkdate 2025 10 7))
    as (d & idx & slot & _ & _ & _ & _ & Hrun).
  - reflexivity.
  - cbn. lia.
  - apply validb_spec. reflexivity.
  - vm_compute. discriminate.
  - destruct (Hrun 100%nat) as [H1 H2].
    + vm_compute. lia.
    + assert (Hc : show_reminder_next_info 100 (run_student_app (mkconfig 6 7 "first"))
                     (mkdate 2025 10 7) =
                   Ret (mkdate 2025 10 9, mkClassTime (mktime 9 30) (mktime 10 25)))
        by (vm_compute; reflexivity).
      split_and!.
      * exact Hc.
      * rewrite H2, <- H1. exact Hc.
      * apply (proj2 (proj2 (proj2 ms_search_ignores_grade_and_lunch))
                 (mkdate 2025 10 9) 7 8
                 (mkMSLunchWindow (hm 12 40) (hm 13 0)) (mkMSLunchWindow (hm 12 5) (hm 12 25)));
          [reflexivity | reflexivity | lia].
Defined.

End Independence.
